(** * questions-visuallizer: the visualize and OCR route handlers

    A shallow embedding of the two Next.js route handlers of the
    repository: [/api/visualize] (prompt construction, generated-code
    sanitizer, Python executor, base64 payload extraction, HTTP error
    mapping) and [/api/ocr] (OCR.space adapter), and of the handlers of
    the page that calls them (picking a picture, typing, submitting).

    JavaScript strings are sequences of UTF-16 code units and are modelled
    as [list N]; the external world (environment variables, the request
    body, the Gemini SDK, the spawned interpreter, the OCR service) is a
    record of outcomes the handler consumes, and every call that leaves
    the process is recorded in an effect trace.  Console logging has no
    influence on the response and is left out, and so is the loading of
    the route module (the Supabase client it imports is never used by the
    handler). *)

From Stdlib Require Import List NArith ZArith String Ascii Bool Lia.
From Stdlib Require Import DecimalString DecimalPos.
Import ListNotations.

Set Implicit Arguments.

(* ===================================================================== *)
(** ** JavaScript strings *)
(* ===================================================================== *)

Module Js.

(** A string is its sequence of UTF-16 code units. *)
Definition code_unit := N.
Definition jsstring := list code_unit.

(** An ASCII literal of the source, as code units. *)
Definition js (s : string) : jsstring :=
  map N_of_ascii (list_ascii_of_string s).

Fixpoint eqb (a b : jsstring) : bool :=
  match a, b with
  | [], [] => true
  | x :: a', y :: b' => N.eqb x y && eqb a' b'
  | _, _ => false
  end.

(** [s.length] *)
Definition length (s : jsstring) : Z := Z.of_nat (List.length s).

(** ECMAScript WhiteSpace and LineTerminator code points, the set removed
    by [String.prototype.trim], [trimStart] and [trimEnd]. *)
Definition isWhiteSpace (c : code_unit) : bool :=
  match c with
  | 9 | 10 | 11 | 12 | 13 | 32 | 160 | 5760
  | 8192 | 8193 | 8194 | 8195 | 8196 | 8197 | 8198 | 8199 | 8200 | 8201 | 8202
  | 8232 | 8233 | 8239 | 8287 | 12288 | 65279 => true
  | _ => false
  end%N.

Fixpoint trimStart (s : jsstring) : jsstring :=
  match s with
  | c :: s' => if isWhiteSpace c then trimStart s' else s
  | [] => []
  end.

Definition trimEnd (s : jsstring) : jsstring := rev (trimStart (rev s)).

Definition trim (s : jsstring) : jsstring := trimEnd (trimStart s).

(** [s.startsWith(p)] *)
Fixpoint startsWith (s p : jsstring) : bool :=
  match p, s with
  | [], _ => true
  | y :: p', x :: s' => N.eqb x y && startsWith s' p'
  | _ :: _, [] => false
  end.

(** [s.endsWith(p)] *)
Definition endsWith (s p : jsstring) : bool := startsWith (rev s) (rev p).

(** Clamp an index argument into [0 .. s.length]. *)
Definition clamp (s : jsstring) (i : Z) : nat :=
  Z.to_nat (Z.max 0 (Z.min i (length s))).

(** [s.substring(start, end)]: both ends clamped, swapped when out of
    order. *)
Definition substring (s : jsstring) (start stop : Z) : jsstring :=
  let a := clamp s start in
  let b := clamp s stop in
  let lo := Nat.min a b in
  let hi := Nat.max a b in
  firstn (hi - lo) (skipn lo s).

(** [s.substring(start)] *)
Definition substring_from (s : jsstring) (start : Z) : jsstring :=
  skipn (clamp s start) s.

(** First position, counted from [i], at which [needle] starts in [s]. *)
Fixpoint find_from (needle s : jsstring) (i : nat) : option nat :=
  if startsWith s needle then Some i
  else match s with
       | [] => None
       | _ :: s' => find_from needle s' (S i)
       end.

(** [s.indexOf(needle, fromIndex)], with [-1] for "not found". *)
Definition indexOf (s needle : jsstring) (fromIndex : Z) : Z :=
  let k := clamp s fromIndex in
  match find_from needle (skipn k s) k with
  | Some i => Z.of_nat i
  | None => (-1)%Z
  end.

(** [s.split(sep)] for a separator of one code unit (the source only
    splits on a line feed). *)
Fixpoint split (sep : code_unit) (s : jsstring) : list jsstring :=
  match s with
  | [] => [[]]
  | c :: s' =>
      if N.eqb c sep then [] :: split sep s'
      else match split sep s' with
           | l :: ls => (c :: l) :: ls
           | [] => [[c]]
           end
  end.

(** [lines.join(sep)] *)
Fixpoint join (sep : jsstring) (ls : list jsstring) : jsstring :=
  match ls with
  | [] => []
  | [l] => l
  | l :: ls' => l ++ sep ++ join sep ls'
  end.

(** [String.prototype.replace(pattern, replacement)] with a string
    pattern (ECMAScript, GetSubstitution): only the first occurrence is
    replaced, and in the replacement text [$$] stands for a dollar sign,
    [$&] for the matched text, [$`] for the text before the match and
    [$'] for the text after it.  A string pattern has no captures, so
    [$1] .. [$99] and [$<] stay as written. *)
Fixpoint getSubstitution (matched before after : jsstring)
    (replacement : jsstring) : jsstring :=
  match replacement with
  | 36 :: 36 :: r => 36 :: getSubstitution matched before after r
  | 36 :: 38 :: r => matched ++ getSubstitution matched before after r
  | 36 :: 96 :: r => before ++ getSubstitution matched before after r
  | 36 :: 39 :: r => after ++ getSubstitution matched before after r
  | c :: r => c :: getSubstitution matched before after r
  | [] => []
  end%N.

Definition replace (s pattern replacement : jsstring) : jsstring :=
  match find_from pattern s 0 with
  | None => s
  | Some pos =>
      let before := firstn pos s in
      let after := skipn (pos + List.length pattern) s in
      before ++ getSubstitution pattern before after replacement ++ after
  end.

(** Rendering of an integer by a template literal, [`${n}`]. *)
Definition number_toString (n : Z) : jsstring :=
  js (NilEmpty.string_of_int (Z.to_int n)).

End Js.

(* ===================================================================== *)
(** ** JSON values, thrown errors, responses *)
(* ===================================================================== *)

Module Json.
Import Js.

(** A value produced by [JSON.parse] or written as an object literal.  A
    number is carried by its [Number::toString] rendering, so that [0] and
    [-0] are both ["0"]. *)
#[warnings="-register-all"]
Inductive json : Type :=
| JNull
| JBool (b : bool)
| JNum (rendering : jsstring)
| JStr (s : jsstring)
| JArr (items : list json)
| JObj (fields : list (jsstring * json)).

(** A JavaScript value read out of such data: [None] is [undefined]. *)
Definition value := option json.

(** An [Error] object: [error.constructor.name] and [error.message]. *)
Record js_error : Type := mk_error {
  error_name : jsstring;
  error_message : jsstring
}.

Fixpoint lookup (key : jsstring) (fields : list (jsstring * json)) : value :=
  match fields with
  | [] => None
  | (k, v) :: rest => if eqb k key then Some v else lookup key rest
  end.

(** ToBoolean *)
Definition truthy (v : value) : bool :=
  match v with
  | None | Some JNull => false
  | Some (JBool b) => b
  | Some (JNum r) => negb (eqb r (js "0"))
  | Some (JStr s) => negb (eqb s [])
  | Some (JArr _) | Some (JObj _) => true
  end.

Definition TypeError (message : jsstring) : js_error :=
  mk_error (js "TypeError") message.

(** [v.key], for the keys the handlers read (data fields and [length]):
    reading a property of [undefined] or [null] throws; strings and arrays
    have [length]; booleans and numbers have none of these keys.  An
    object lists each of its keys once. *)
Definition get (v : value) (key : jsstring) : js_error + value :=
  match v with
  | None =>
      inl (TypeError (js "Cannot read properties of undefined (reading '"
                        ++ key ++ js "')"))
  | Some JNull =>
      inl (TypeError (js "Cannot read properties of null (reading '"
                        ++ key ++ js "')"))
  | Some (JObj fields) => inr (lookup key fields)
  | Some (JStr s) =>
      inr (if eqb key (js "length")
           then Some (JNum (number_toString (length s))) else None)
  | Some (JArr items) =>
      inr (if eqb key (js "length")
           then Some (JNum (number_toString (Z.of_nat (List.length items))))
           else None)
  | Some (JBool _) | Some (JNum _) => inr None
  end.

(** [v?.key] *)
Definition get_optional (v : value) (key : jsstring) : value :=
  match get v key with
  | inl _ => None
  | inr r => r
  end.

(** [v[0]] on a value that is neither [undefined] nor [null]. *)
Definition first_element (v : json) : value :=
  match v with
  | JArr items => hd_error items
  | JStr s => match s with c :: _ => Some (JStr [c]) | [] => None end
  | JObj fields => lookup (js "0") fields
  | _ => None
  end.

(** An object literal [{ k1: v1, k2: v2 }] as sent by
    [NextResponse.json]: a field whose value is [undefined] is not
    serialised. *)
Fixpoint object (fields : list (jsstring * value)) : json :=
  match fields with
  | [] => JObj []
  | (k, Some v) :: rest =>
      match object rest with
      | JObj fs => JObj ((k, v) :: fs)
      | other => other
      end
  | (_, None) :: rest => object rest
  end.

(** The HTTP response built by [NextResponse.json(body, { status })]. *)
Record response : Type := NextResponse_json {
  body : json;
  status : Z
}.

(** Field [key] of the response body. *)
Definition body_field (r : response) (key : jsstring) : value :=
  match body r with
  | JObj fields => lookup key fields
  | _ => None
  end.

End Json.

(* ===================================================================== *)
(** ** Completions of an async handler *)
(* ===================================================================== *)

Module Handler.
Import Js Json.

Section Completion.

(** The calls that leave the process. *)
Variable effect : Type.

(** How a block of the handler completes: it runs on with a value, it
    returns a response, it throws, or it awaits a promise that never
    settles. *)
Inductive completion (A : Type) : Type :=
| Normal (a : A)
| Return (r : response)
| Throw (e : js_error)
| Pending.

(** A block together with the effects it performed, in order. *)
Definition M (A : Type) : Type := (list effect * completion A)%type.

Definition ret {A} (a : A) : M A := ([], Normal a).

Definition bind {A B} (m : M A) (k : A -> M B) : M B :=
  match m with
  | (t, Normal a) => let (t', c) := k a in (t ++ t', c)
  | (t, Return _ r) => (t, Return _ r)
  | (t, Throw _ e) => (t, Throw _ e)
  | (t, Pending _) => (t, Pending _)
  end.

(** [return NextResponse.json(body, { status })] *)
Definition respond {A} (b : json) (st : Z) : M A :=
  ([], Return A (NextResponse_json b st)).

Definition throw {A} (e : js_error) : M A := ([], Throw A e).

(** [try { m } catch (e) { handler e }] *)
Definition try_catch {A} (m : M A) (handler : js_error -> M A) : M A :=
  match m with
  | (t, Throw _ e) => let (t', c) := handler e in (t ++ t', c)
  | other => other
  end.

(** Perform an effect whose outcome is already known. *)
Definition perform {A} (e : effect) (outcome : js_error + A) : M A :=
  match outcome with
  | inl err => ([e], Throw A err)
  | inr a => ([e], Normal a)
  end.

(** A computation that may throw and performs no effect. *)
Definition lift {A} (outcome : js_error + A) : M A :=
  match outcome with
  | inl err => throw err
  | inr a => ret a
  end.

End Completion.

Arguments Normal {A} a.
Arguments Return {A} r.
Arguments Throw {A} e.
Arguments Pending {A}.
Arguments ret {effect A} a.
Arguments bind {effect A B} m k.
Arguments respond {effect A} b st.
Arguments throw {effect A} e.
Arguments try_catch {effect A} m handler.
Arguments perform {effect A} e outcome.
Arguments lift {effect A} outcome.

End Handler.

Declare Scope handler_scope.
Notation "x <- m ;; k" := (Handler.bind m (fun x => k))
  (at level 61, m at next level, right associativity) : handler_scope.

(* ===================================================================== *)
(** ** /api/visualize *)
(* ===================================================================== *)

Module Visualize.
Import Js Json Handler.
Local Open Scope handler_scope.
Local Open Scope Z_scope.

(** The template literal of the source, code unit by code unit: the
    double quotes of the [print] line are [34], and the three characters
    outside ASCII are [178] (superscript two), [176] (degree sign) and
    [952] (theta). *)
Definition ENGINEERED_PROMPT_TEMPLATE : jsstring :=
  (js "
You are an expert Python programmer specializing in mathematical visualizations.
Your task is to take a math problem description and generate Python code to visualize it.

The visualization should be clear, mathematically accurate, and aesthetically pleasing.

Key requirements for the visualization:
- When relevant to the problem, include text annotations directly on the image. These annotations should display:
    - Lengths of givensides (e.g., '3cm', 'x units').
    - given areas (e.g., 'Area = 35 cm"
  ++ [178]
  ++ js "').
    - Measures of angles (e.g., '30"
  ++ [176]
  ++ js "', '"
  ++ [952]
  ++ js "').
    - Coordinates of important points only if they are part of the problem.
- Use Matplotlib's `plt.text()` or an Axes object's `ax.text()` / `ax.annotate()` methods for these text annotations.
- Ensure all annotations are legible, clearly positioned (e.g., near the feature they describe but not overlapping other important elements or each other), with minimal text and appropriately sized for clarity.
- The numerical values, variables, and units in these annotations must precisely match the problem statement.
- Represent geometric figures accurately according to the problem's specifications (e.g., right angles should appear as 90 degrees, relative lengths should be visually proportional if specific values are given, etc.).

Use the Matplotlib library for plotting both analytic geometry problems (lines, functions, points on a coordinate plane) and general geometric shapes (triangles, circles, polygons, angles).
Ensure all geometric constructions and renderings are done directly with Matplotlib.

Output ONLY the Python code required to generate the visualization. Do not include any explanatory text, markdown formatting, or anything other than the Python code itself.

Important: The Matplotlib plot should be converted to a base64 encoded string directly in the Python code and printed to standard output. 
Specifically, after creating the plot with plt.figure() (or plt.subplots()), use the following snippet to get the base64 string:

import io
import base64

pic_iobytes = io.BytesIO()
plt.savefig(pic_iobytes, format='png')
pic_iobytes.seek(0)
pic_hash = base64.b64encode(pic_iobytes.read())
print(f"
  ++ [34]
  ++ js "MATPLOTLIB_BASE64_START:{pic_hash.decode('utf-8')}:MATPLOTLIB_BASE64_END"
  ++ [34]
  ++ js ")
plt.close() # Close the plot to free up memory

Ensure no other print statements are present in the Python code output, only the base64 string in the format specified above.
Do not save to a file like 'visualization.png'.

Here is the math problem:
--- START PROBLEM ---
{PROBLEM_TEXT}
--- END PROBLEM ---

Python code (printing base64 string of the plot):
")%N.

(** *** executePython *)

(** What the child process emits: data on its two pipes, ['close'] with
    the exit code ([None] is [null], the process was ended by a signal),
    ['error']. *)
Inductive process_event : Type :=
| stdout_data (chunk : jsstring)
| stderr_data (chunk : jsstring)
| close (exitCode : option Z)
| error (err : js_error).

(** State of the promise returned by [executePython]. *)
Inductive promise : Type :=
| Unsettled
| Resolved (output : jsstring)
| Rejected (reason : js_error).

Record executor : Type := mk_executor {
  stdout : jsstring;
  stderr : jsstring;
  settled : promise
}.

(** [resolve] and [reject] only act on a promise that is still pending. *)
Definition settle (p outcome : promise) : promise :=
  match p with
  | Unsettled => outcome
  | _ => p
  end.

Definition Error (message : jsstring) : js_error :=
  mk_error (js "Error") message.

Definition exitCode_toString (exitCode : option Z) : jsstring :=
  match exitCode with
  | Some n => number_toString n
  | None => js "null"
  end.

(** The listeners registered by [executePython]. *)
Definition on_event (st : executor) (ev : process_event) : executor :=
  match ev with
  | stdout_data chunk =>
      mk_executor (stdout st ++ chunk) (stderr st) (settled st)
  | stderr_data chunk =>
      mk_executor (stdout st) (stderr st ++ chunk) (settled st)
  | close exitCode =>
      let outcome :=
        match exitCode with
        | Some 0 => Resolved (stdout st)
        | _ =>
            Rejected (Error (js "Python script execution failed with code "
                               ++ exitCode_toString exitCode ++ js ": "
                               ++ stderr st))
        end in
      mk_executor (stdout st) (stderr st) (settle (settled st) outcome)
  | error err =>
      let outcome :=
        Rejected (Error (js "Failed to start Python process: "
                           ++ error_message err)) in
      mk_executor (stdout st) (stderr st) (settle (settled st) outcome)
  end.

(** [spawn('python', ['-c', code])] either throws at once or starts a
    process that emits events. *)
Definition spawned := (js_error + list process_event)%type.

(** The promise of [executePython] once the process has emitted all its
    events; a throw inside the promise executor rejects the promise. *)
Definition executePython (run : spawned) : promise :=
  match run with
  | inl thrown => Rejected thrown
  | inr events => settled (fold_left on_event events (mk_executor [] [] Unsettled))
  end.

(** *** The generation model *)

(** [response.promptFeedback] *)
Record prompt_feedback : Type := mk_feedback {
  blockReason : option jsstring;
  other_feedback : list (jsstring * json)
}.

Definition feedback_json (f : prompt_feedback) : json :=
  match blockReason f with
  | Some r => JObj ((js "blockReason", JStr r) :: other_feedback f)
  | None => JObj (other_feedback f)
  end.

(** [result.response] of the SDK: the prompt feedback and the [text()]
    accessor, which can throw. *)
Record model_response : Type := mk_response {
  promptFeedback : option prompt_feedback;
  text : js_error + jsstring
}.

(** [response.promptFeedback?.blockReason] *)
Definition response_blockReason (r : model_response) : option jsstring :=
  match promptFeedback r with
  | Some f => blockReason f
  | None => None
  end.

(** *** The world of one request *)

Inductive effect : Type :=
| ReadBody
| GenerateContent (prompt : jsstring)
| SpawnPython (code : jsstring).

Record world : Type := mk_world {
  (** [process.env.GEMINI_API_KEY] *)
  GEMINI_API_KEY : option jsstring;
  (** [await request.text()] *)
  request_text : js_error + jsstring;
  JSON_parse : jsstring -> js_error + json;
  (** [await model.generateContent(prompt)], then [result.response] *)
  generateContent : jsstring -> js_error + option model_response;
  (** the process started for [python -c code] *)
  python : jsstring -> spawned
}.

(** *** The pure steps of the handler *)

Definition PLACEHOLDER : jsstring := js "{PROBLEM_TEXT}".

(** [ENGINEERED_PROMPT_TEMPLATE.replace('{PROBLEM_TEXT}', problemText)] *)
Definition fullPrompt (problemText : jsstring) : jsstring :=
  replace ENGINEERED_PROMPT_TEMPLATE PLACEHOLDER problemText.

Definition REFUSAL_PREFIX : jsstring := js "ERROR:CANNOT_VISUALIZE:".
Definition FENCE_PYTHON : jsstring := js "```python".
Definition FENCE : jsstring := js "```".
Definition LF : code_unit := 10%N.

(** [s.substring(0, s.length - '```'.length).trimEnd()] when [s] ends
    with the fence. *)
Definition strip_trailing_fence (s : jsstring) : jsstring :=
  if endsWith s FENCE
  then trimEnd (substring s 0 (length s - length FENCE))
  else s.

(** The clean-up of the generated code from markdown fences. *)
Definition cleanedCode (generatedCode : jsstring) : jsstring :=
  let c0 := trim generatedCode in
  let c1 := if startsWith c0 FENCE_PYTHON
            then trimStart (substring_from c0 (length FENCE_PYTHON))
            else c0 in
  let c2 := strip_trailing_fence c1 in
  let lines := split LF c2 in
  let c3 := if eqb (trim (hd [] lines)) (js "python")
            then join [LF] (tl lines)
            else if eqb (trim (hd [] lines)) FENCE_PYTHON
            then join [LF] (tl lines)
            else c2 in
  strip_trailing_fence c3.

Definition base64MarkerStart : jsstring := js "MATPLOTLIB_BASE64_START:".
Definition base64MarkerEnd : jsstring := js ":MATPLOTLIB_BASE64_END".

(** The extraction of the base64 string from the script output:
    [Some payload] on the success branch, [None] when a marker is
    missing. *)
Definition imageBase64 (pythonOutput : jsstring) : option jsstring :=
  let startIndex := indexOf pythonOutput base64MarkerStart 0 in
  let endIndex :=
    indexOf pythonOutput base64MarkerEnd
            (startIndex + length base64MarkerStart) in
  if negb (startIndex =? -1) && negb (endIndex =? -1)
  then Some (substring pythonOutput
                       (startIndex + length base64MarkerStart) endIndex)
  else None.

Definition str (s : string) : value := Some (JStr (js s)).

(** The response built from the script output: the payload when both
    markers are found, the error with the whole output otherwise. *)
Definition extract_response (pythonOutput : jsstring) : response :=
  match imageBase64 pythonOutput with
  | Some image =>
      NextResponse_json (object [(js "imageBase64", Some (JStr image))]) 200
  | None =>
      NextResponse_json
        (object
           [(js "error", str "Failed to process visualization from Python script");
            (js "details",
             Some (JStr (js "Could not find base64 image markers in the script output. Python output was: "
                           ++ pythonOutput)))])
        500
  end.

(** *** The handler *)

Definition M := Handler.M effect.

(** [await executePython(code)] *)
Definition await_executePython (w : world) (code : jsstring) : M jsstring :=
  match executePython (python w code) with
  | Resolved output => ([SpawnPython code], Normal output)
  | Rejected reason => ([SpawnPython code], Throw reason)
  | Unsettled => ([SpawnPython code], Pending)
  end.

(** [typeof v === 'string'], with the string *)
Definition as_string (v : value) : option jsstring :=
  match v with
  | Some (JStr s) => Some s
  | _ => None
  end.

(** The part of [POST] inside [try { const result = await
    model.generateContent(fullPrompt); ... } catch (apiError) { ... }]. *)
Definition generate_and_run (w : world) (prompt : jsstring) : M unit :=
  try_catch
    (result <- perform (GenerateContent prompt) (generateContent w prompt) ;;
     match result with
     | None =>
         respond (object [(js "error", str "AI model returned an empty response")])
                 500
     | Some response =>
         if truthy (option_map JStr (response_blockReason response))
         then
           respond
             (object
                [(js "error",
                  Some (JStr (js "Content blocked: "
                                ++ match response_blockReason response with
                                   | Some reason => reason
                                   | None => []
                                   end)));
                 (js "details", option_map feedback_json (promptFeedback response))])
             400
         else
           generatedCode <- lift (text response) ;;
           if negb (truthy (Some (JStr generatedCode)))
              || eqb (trim generatedCode) []
           then respond (object [(js "error", str "Empty response from AI")]) 500
           else if startsWith generatedCode REFUSAL_PREFIX
           then
             respond
               (object [(js "error", str "Problem cannot be visualized by AI");
                        (js "details", Some (JStr generatedCode))])
               422
           else
             try_catch
               (pythonOutput <- await_executePython w (cleanedCode generatedCode) ;;
                ([], Return (extract_response pythonOutput)))
               (fun pythonError =>
                  respond
                    (object [(js "error", str "Error executing visualization script");
                             (js "details", Some (JStr (error_message pythonError)))])
                    500)
     end)
    (fun apiError =>
       respond (object [(js "error", str "Error calling Gemini API");
                        (js "details", Some (JStr (error_message apiError)))])
               500).

Definition POST (w : world) : M unit :=
  if negb (truthy (option_map JStr (GEMINI_API_KEY w)))
  then
    respond
      (object [(js "error", str "AI service configuration error - API key not found");
               (js "details", str "Please set the GEMINI_API_KEY environment variable")])
      500
  else
    try_catch
      (body <- try_catch
                 (rawBody <- perform ReadBody (request_text w) ;;
                  lift (JSON_parse w rawBody))
                 (fun e =>
                    respond (object [(js "error", str "Invalid JSON in request body");
                                     (js "details", Some (JStr (error_message e)))])
                            400) ;;
       problemText <- lift (get (Some body) (js "problemText")) ;;
       match as_string problemText with
       | Some text =>
           if negb (truthy problemText) || eqb (trim text) []
           then
             respond
               (object [(js "error", str "No problem text provided or text is invalid.")])
               400
           else generate_and_run w (fullPrompt text)
       | None =>
           (* [!problemText || typeof problemText !== 'string'] *)
           respond
             (object [(js "error", str "No problem text provided or text is invalid.")])
             400
       end)
      (fun error =>
         respond (object [(js "error", str "Internal server error");
                          (js "details", Some (JStr (error_message error)));
                          (js "type", Some (JStr (error_name error)))])
                 500).

End Visualize.

(* ===================================================================== *)
(** ** /api/ocr *)
(* ===================================================================== *)

Module Ocr.
Import Js Json Handler.
Local Open Scope handler_scope.
Local Open Scope Z_scope.

(** *** Pieces of JavaScript the handler relies on *)

(** ToString of a value read from JSON; inside an array, [null] renders
    as the empty string and the elements are joined with a comma. *)
Fixpoint toString (j : json) : jsstring :=
  match j with
  | JNull => js "null"
  | JBool true => js "true"
  | JBool false => js "false"
  | JNum rendering => rendering
  | JStr s => s
  | JArr items =>
      (fix elements (l : list json) : jsstring :=
         match l with
         | [] => []
         | x :: rest =>
             match x with JNull => [] | _ => toString x end
             ++ match rest with [] => [] | _ :: _ => js "," ++ elements rest end
         end) items
  | JObj _ => js "[object Object]"
  end.

(** [items.join(sep)] *)
Fixpoint array_join (sep : jsstring) (items : list json) : jsstring :=
  match items with
  | [] => []
  | x :: rest =>
      match x with JNull => [] | _ => toString x end
      ++ match rest with [] => [] | _ :: _ => sep ++ array_join sep rest end
  end.

(** [v?.join(sep)]: only an array has a [join] to call. *)
Definition optional_join (v : value) (sep : jsstring) : js_error + value :=
  match v with
  | None | Some JNull => inr None
  | Some (JArr items) => inr (Some (JStr (array_join sep items)))
  | Some _ => inl (TypeError (js "ocrData.ErrorMessage?.join is not a function"))
  end.

(** [a || b] *)
Definition or_else (a b : value) : value := if truthy a then a else b.

(** [v === 0] *)
Definition is_zero (v : value) : bool :=
  match v with
  | Some (JNum rendering) => eqb rendering (js "0")
  | _ => false
  end.

(** *** The world of one request *)

(** An entry of the multipart form: a text field or an uploaded file. *)
Inductive form_entry : Type :=
| FormString (s : jsstring)
| FormFile (name : jsstring) (content : list N).

Definition entry_truthy (e : option form_entry) : bool :=
  match e with
  | None => false
  | Some (FormString s) => negb (eqb s [])
  | Some (FormFile _ _) => true
  end.

(** [formData.get('file')] and [formData.get('language')] *)
Record form : Type := mk_form {
  form_file : option form_entry;
  form_language : option form_entry
}.

(** The multipart form posted to the OCR service. *)
Record ocr_request : Type := mk_request {
  req_file : form_entry;
  req_apikey : jsstring;
  req_language : form_entry;
  req_isOverlayRequired : jsstring
}.

(** The [Response] of [fetch]: [ok], [status] and the outcome of
    [json()]. *)
Record fetch_response : Type := mk_fetch_response {
  ok : bool;
  http_status : Z;
  json_body : js_error + json
}.

Inductive effect : Type :=
| ReadForm
| Fetch (req : ocr_request).

Record world : Type := mk_world {
  (** [await request.formData()] *)
  request_formData : js_error + form;
  (** [process.env.OCR_SPACE_API_KEY] *)
  OCR_SPACE_API_KEY : option jsstring;
  (** [await fetch('https://api.ocr.space/parse/image', ...)] *)
  fetch : ocr_request -> js_error + fetch_response
}.

Definition M := Handler.M effect.

Definition str (s : string) : value := Some (JStr (js s)).

Definition NO_TEXT_FOUND : jsstring := js "No text found in image.".

(** *** The handler *)

(** [formData.get('language') as string || 'eng'] *)
Definition language_of (formData : form) : form_entry :=
  match form_language formData with
  | Some entry =>
      if entry_truthy (Some entry) then entry else FormString (js "eng")
  | None => FormString (js "eng")
  end.

(** A status the [Response] constructor accepts together with a body:
    from 200 to 599, and none of the null-body statuses 204, 205 and
    304. *)
Definition carries_body (st : Z) : bool :=
  (200 <=? st) && (st <=? 599)
  && negb (st =? 204) && negb (st =? 205) && negb (st =? 304).

(** [return NextResponse.json(body, { status })] for a status that is not
    a literal of the source: the [Response] constructor throws a
    [RangeError] for a status outside 200..599 and a [TypeError] for a
    body with a null-body status. *)
Definition respond_status (b : json) (st : Z) : M unit :=
  if carries_body st then respond b st
  else if (200 <=? st) && (st <=? 599)
       then throw (TypeError (js "Response constructor: Invalid response status code "
                                ++ number_toString st))
       else throw (mk_error (js "RangeError")
                            (js "init[" ++ [34%N] ++ js "status" ++ [34%N]
                               ++ js "] must be in the range of 200 to 599, inclusive.")).

(** The part of [POST] after [const ocrData = await ocrResponse.json()]. *)
Definition read_ocrData (ocrData : json) : M unit :=
  isErrored <- lift (get (Some ocrData) (js "IsErroredOnProcessing")) ;;
  if truthy isErrored
  then
    errorMessage <- lift (get (Some ocrData) (js "ErrorMessage")) ;;
    joined <- lift (optional_join errorMessage (js ", ")) ;;
    respond
      (object [(js "error", str "OCR processing failed.");
               (js "details", or_else joined (str "See OCR API logs for details."))])
      500
  else
    parsedResults <- lift (get (Some ocrData) (js "ParsedResults")) ;;
    noResults <- (if negb (truthy parsedResults) then ret true
                  else
                    len <- lift (get parsedResults (js "length")) ;;
                    ret (is_zero len)) ;;
    if noResults : bool
    then
      respond (object [(js "extractedText", Some (JStr NO_TEXT_FOUND));
                       (js "ocrData", Some ocrData)])
              200
    else
      extractedText <-
        lift (get (match parsedResults with
                   | Some results => first_element results
                   | None => None
                   end) (js "ParsedText")) ;;
      respond (object [(js "extractedText", extractedText)]) 200.

Definition POST (w : world) : M unit :=
  try_catch
    (formData <- perform ReadForm (request_formData w) ;;
     let language := language_of formData in
     match form_file formData with
     | Some file =>
         if negb (entry_truthy (Some file))
         then respond (object [(js "error", str "No file provided.")]) 400
         else
           match OCR_SPACE_API_KEY w with
           | Some ocrApiKey =>
               if negb (truthy (Some (JStr ocrApiKey)))
               then
                 respond (object [(js "error", str "OCR service configuration error.")])
                         500
               else
                 let req := mk_request file ocrApiKey language (js "false") in
                 ocrResponse <- perform (Fetch req) (fetch w req) ;;
                 if negb (ok ocrResponse)
                 then
                   (* [await ocrResponse.json().catch(() => ({}))] *)
                   let errorData :=
                     match json_body ocrResponse with
                     | inl _ => Some (JObj [])
                     | inr data => Some data
                     end in
                   respond_status
                     (object
                        [(js "error",
                          Some (JStr (js "OCR API request failed with status "
                                        ++ number_toString (http_status ocrResponse)
                                        ++ js ".")));
                         (js "details",
                          or_else (get_optional errorData (js "ErrorMessage"))
                            (or_else (get_optional errorData (js "ErrorDetails"))
                                     (str "Unknown OCR API error")))])
                     (http_status ocrResponse)
                 else
                   ocrData <- lift (json_body ocrResponse) ;;
                   read_ocrData ocrData
           | None =>
               respond (object [(js "error", str "OCR service configuration error.")])
                       500
           end
     | None => respond (object [(js "error", str "No file provided.")]) 400
     end)
    (fun error =>
       respond (object [(js "error", str "Internal server error.");
                        (js "details", Some (JStr (error_message error)))])
               500).

End Ocr.

(* ===================================================================== *)
(** ** The page: the handlers of [HomePage] *)
(* ===================================================================== *)

Module Client.
Import Js Json Handler.
Local Open Scope handler_scope.
Local Open Scope Z_scope.

(** A [File] picked in the file input. *)
Record File : Type := mk_File {
  file_name : jsstring;
  file_content : list N
}.

(** The state of the component, one field per [useState] the handlers
    write.  [ocrText] is declared a string but receives whatever
    [extractedText] the OCR route sent; [null] is [None]. *)
Record state : Type := mk_state {
  problemText : jsstring;
  selectedImage : option File;
  ocrText : json;
  isOcrLoading : bool;
  isVisualizing : bool;
  error : value;
  imageBase64 : value
}.

(** What a handler does, in order: the state setters it calls and the
    requests it sends.  [fetch_visualize] carries the value handed to
    [JSON.stringify] for the body. *)
Inductive effect : Type :=
| setProblemText (v : jsstring)
| setSelectedImage (v : option File)
| setOcrText (v : json)
| setIsOcrLoading (v : bool)
| setIsVisualizing (v : bool)
| setError (v : value)
| setImageBase64 (v : value)
| preventDefault
| fetch_ocr (file : File)
| fetch_visualize (body : json).

(** The two routes as the page sees them, and [JSON.stringify]. *)
Record world : Type := mk_world {
  ocr : File -> js_error + Ocr.fetch_response;
  visualize : json -> js_error + Ocr.fetch_response;
  JSON_stringify : json -> jsstring
}.

Definition M := Handler.M effect.

Definition call (e : effect) : M unit := ([e], Normal tt).

(** [new Error(message)] *)
Definition new_Error (message : value) : js_error :=
  Visualize.Error (match message with
                   | Some m => Ocr.toString m
                   | None => []
                   end).

(** A value inside a template literal. *)
Definition interpolate (v : value) : jsstring :=
  match v with
  | Some j => Ocr.toString j
  | None => js "undefined"
  end.

(** [expression.trim()], for the variable [expression] holding [v]: only
    a string has a [trim] to call. *)
Definition trim_of (expression : string) (v : json) : js_error + jsstring :=
  match v with
  | JStr s => inr (trim s)
  | JNull => inl (TypeError (js "Cannot read properties of null (reading 'trim')"))
  | _ => inl (TypeError (js expression ++ js ".trim is not a function"))
  end.

(** [v === s] for a string [s] *)
Definition is_the_string (v : json) (s : jsstring) : bool :=
  match v with
  | JStr t => eqb t s
  | _ => false
  end.

(** [a || fallback], for a fallback that is there *)
Definition or_default (a : value) (fallback : json) : json :=
  match Ocr.or_else a (Some fallback) with
  | Some v => v
  | None => fallback
  end.

Definition OCR_FAILED : jsstring :=
  js "OCR processing failed. You can try typing the problem manually.".

Definition clearVisualizationState : M unit :=
  _ <- call (setImageBase64 None) ;;
  call (setError None).

Definition handleTextChange (st : state) (value : jsstring) : M unit :=
  _ <- call (setProblemText value) ;;
  _ <- match selectedImage st with
       | Some _ => call (setSelectedImage None)
       | None => ret tt
       end ;;
  _ <- (if truthy (Some (ocrText st)) then call (setOcrText (JStr [])) else ret tt) ;;
  clearVisualizationState.

Definition handleOcrTextChange (value : jsstring) : M unit :=
  _ <- call (setOcrText (JStr value)) ;;
  clearVisualizationState.

(** The [try] / [catch] of [handleImageChange]: the upload to the OCR
    route and what is made of its answer. *)
Definition recognise (w : world) (file : File) : M unit :=
  try_catch
    (response <- perform (fetch_ocr file) (ocr w file) ;;
     result <- lift (Ocr.json_body response) ;;
     if negb (Ocr.ok response)
     then
       message <- lift (get (Some result) (js "error")) ;;
       if truthy message
       then throw (new_Error message)
       else
         details <- lift (get (Some result) (js "details")) ;;
         throw (Visualize.Error
                  (js "OCR request failed with status "
                     ++ number_toString (Ocr.http_status response)
                     ++ js ". Details: " ++ interpolate details))
     else
       extractedText <- lift (get (Some result) (js "extractedText")) ;;
       call (setOcrText
               (or_default extractedText
                  (JStr (js "No text found in image. Please review or try a different image.")))))
    (fun ocrError =>
       _ <- call (setError
                    (Some (JStr (js "OCR failed: "
                                   ++ (if eqb (error_message ocrError) []
                                       then js "Unknown error"
                                       else error_message ocrError))))) ;;
       call (setOcrText (JStr OCR_FAILED))).

(** [files] is [event.target.files]: [None] for [null]. *)
Definition handleImageChange (w : world) (files : option (list File)) : M unit :=
  match files with
  | Some (file :: _) =>
      _ <- call (setSelectedImage (Some file)) ;;
      _ <- call (setProblemText []) ;;
      _ <- call (setOcrText (JStr [])) ;;
      _ <- clearVisualizationState ;;
      _ <- call (setIsOcrLoading true) ;;
      _ <- recognise w file ;;
      call (setIsOcrLoading false)
  | _ => ret tt
  end.

(** The [try] / [catch] of [handleSubmit]: the request to the visualize
    route and what is made of its answer. *)
Definition submit (w : world) (textToProcess : json) : M unit :=
  try_catch
    (response <- perform
                   (fetch_visualize (JObj [(js "problemText", textToProcess)]))
                   (visualize w (JObj [(js "problemText", textToProcess)])) ;;
     result <- lift (Ocr.json_body response) ;;
     if negb (Ocr.ok response)
     then
       details <- lift (get (Some result) (js "details")) ;;
       let errorDetails :=
         if truthy details
         then match details with
              | Some (JStr s) => s
              | Some other => JSON_stringify w other
              | None => []
              end
         else js "Unknown error from API" in
       message <- lift (get (Some result) (js "error")) ;;
       if truthy message
       then throw (new_Error message)
       else throw (Visualize.Error
                     (js "Visualization API request failed. Details: "
                        ++ errorDetails))
     else
       image <- lift (get (Some result) (js "imageBase64")) ;;
       if truthy image
       then call (setImageBase64 image)
       else
         message <- lift (get (Some result) (js "error")) ;;
         warning <- lift (get (Some result) (js "warning")) ;;
         call (setError
                 (Ocr.or_else message
                    (Ocr.or_else warning
                       (Some (JStr (js "No image data returned by the visualizer.")))))))
    (fun submissionError =>
       _ <- call (setError
                    (Some (JStr (js "Visualization failed: "
                                   ++ error_message submissionError)))) ;;
       call (setImageBase64 None)).

Definition handleSubmit (st : state) (w : world) : M unit :=
  _ <- call preventDefault ;;
  _ <- call (setIsVisualizing true) ;;
  _ <- clearVisualizationState ;;
  let textToProcess :=
    match selectedImage st with
    | Some _ => ocrText st
    | None => JStr (problemText st)
    end in
  let hasImage := match selectedImage st with Some _ => true | None => false end in
  trimmed <- lift (trim_of "textToProcess" textToProcess) ;;
  if eqb trimmed [] && negb hasImage
  then
    _ <- call (setError (Some (JStr (js "Please enter a math problem or upload an image.")))) ;;
    call (setIsVisualizing false)
  else
    ocrBlank <- (if hasImage
                 then trimmedOcr <- lift (trim_of "ocrText" (ocrText st)) ;;
                      ret (eqb trimmedOcr [])
                 else ret false) ;;
    if ocrBlank : bool
    then
      _ <- call (setError (Some (JStr (js "Please wait for OCR to complete, or if it failed, ensure the image has text or type manually.")))) ;;
      call (setIsVisualizing false)
    else if hasImage && is_the_string (ocrText st) OCR_FAILED
    then
      _ <- call (setError (Some (JStr (js "OCR processing failed. Please review the image or type the problem manually.")))) ;;
      call (setIsVisualizing false)
    else
      _ <- submit w textToProcess ;;
      call (setIsVisualizing false).

(** The state after a setter call; a request changes no state. *)
Definition set (st : state) (e : effect) : state :=
  match e with
  | setProblemText v =>
      mk_state v (selectedImage st) (ocrText st) (isOcrLoading st)
               (isVisualizing st) (error st) (imageBase64 st)
  | setSelectedImage v =>
      mk_state (problemText st) v (ocrText st) (isOcrLoading st)
               (isVisualizing st) (error st) (imageBase64 st)
  | setOcrText v =>
      mk_state (problemText st) (selectedImage st) v (isOcrLoading st)
               (isVisualizing st) (error st) (imageBase64 st)
  | setIsOcrLoading v =>
      mk_state (problemText st) (selectedImage st) (ocrText st) v
               (isVisualizing st) (error st) (imageBase64 st)
  | setIsVisualizing v =>
      mk_state (problemText st) (selectedImage st) (ocrText st) (isOcrLoading st)
               v (error st) (imageBase64 st)
  | setError v =>
      mk_state (problemText st) (selectedImage st) (ocrText st) (isOcrLoading st)
               (isVisualizing st) v (imageBase64 st)
  | setImageBase64 v =>
      mk_state (problemText st) (selectedImage st) (ocrText st) (isOcrLoading st)
               (isVisualizing st) (error st) v
  | preventDefault | fetch_ocr _ | fetch_visualize _ => st
  end.

(** The state the component is in once every setter call of a handler
    run has been applied. *)
Definition after (st : state) (run : M unit) : state :=
  fold_left set (fst run) st.

End Client.

(* ===================================================================== *)
(** ** Definitions used to state the properties *)
(* ===================================================================== *)

Module Props.
Import Js Json Handler.
Local Open Scope Z_scope.

(** The response a handler run ended with, if it returned one. *)
Definition response_of {effect A} (m : Handler.M effect A) : option response :=
  match snd m with
  | Return r => Some r
  | _ => None
  end.

Definition is_string (v : value) : bool :=
  match v with
  | Some (JStr _) => true
  | _ => false
  end.

Definition is_absent (v : value) : bool :=
  match v with
  | None => true
  | Some _ => false
  end.

(** VisualizationPayload: status 200, a body with [imageBase64] and no
    [error]. *)
Definition is_VisualizationPayload (r : response) : bool :=
  (status r =? 200)
  && is_string (body_field r (js "imageBase64"))
  && is_absent (body_field r (js "error")).

(** ErrorEnvelope: a 4xx or 5xx status, a body with an [error] message
    and no [imageBase64]. *)
Definition is_ErrorEnvelope (r : response) : bool :=
  (400 <=? status r) && (status r <=? 599)
  && is_string (body_field r (js "error"))
  && is_absent (body_field r (js "imageBase64")).

(** The credential is set, and not to the empty string. *)
Definition configured (w : Visualize.world) : bool :=
  truthy (option_map JStr (Visualize.GEMINI_API_KEY w)).

(** The spawned interpreter ends: the promise of [executePython] settles
    whatever code it is given. *)
Definition python_settles (w : Visualize.world) : Prop :=
  forall code,
    Visualize.executePython (Visualize.python w code) <> Visualize.Unsettled.

(** Only data events: the process has started and has not ended yet. *)
Definition is_data (ev : Visualize.process_event) : bool :=
  match ev with
  | Visualize.stdout_data _ | Visualize.stderr_data _ => true
  | _ => false
  end.

(** The text captured from each pipe, chunk after chunk. *)
Fixpoint captured_stdout (events : list Visualize.process_event) : jsstring :=
  match events with
  | [] => []
  | Visualize.stdout_data chunk :: rest => chunk ++ captured_stdout rest
  | _ :: rest => captured_stdout rest
  end.

Fixpoint captured_stderr (events : list Visualize.process_event) : jsstring :=
  match events with
  | [] => []
  | Visualize.stderr_data chunk :: rest => chunk ++ captured_stderr rest
  | _ :: rest => captured_stderr rest
  end.

(** The number of positions of [s] at which [needle] starts. *)
Fixpoint occurrences (needle s : jsstring) : nat :=
  (if startsWith s needle then 1 else 0)
  + match s with
    | [] => 0
    | _ :: s' => occurrences needle s'
    end.

(** The number of well-formed occurrences of [opening], a payload,
    [closing] in [s]: the pairs of a position at which [opening] starts
    and a position, after the end of that [opening], at which [closing]
    starts. *)
Fixpoint well_formed_occurrences (opening closing s : jsstring) : nat :=
  (if startsWith s opening
   then occurrences closing (skipn (List.length opening) s)
   else 0)
  + match s with
    | [] => 0
    | _ :: s' => well_formed_occurrences opening closing s'
    end.

(** The template with the placeholder replaced by the problem text, taken
    literally: what comes before the placeholder, the text as it is, what
    comes after. *)
Definition embed_literally (problemText : jsstring) : jsstring :=
  match find_from Visualize.PLACEHOLDER Visualize.ENGINEERED_PROMPT_TEMPLATE 0 with
  | Some pos =>
      firstn pos Visualize.ENGINEERED_PROMPT_TEMPLATE
      ++ problemText
      ++ skipn (pos + List.length Visualize.PLACEHOLDER)
               Visualize.ENGINEERED_PROMPT_TEMPLATE
  | None => Visualize.ENGINEERED_PROMPT_TEMPLATE
  end.

(** No dollar sign in the text. *)
Definition dollar_free (s : jsstring) : bool :=
  forallb (fun c => negb (N.eqb c 36)) s.

(** Already-clean code: no white space around it, no [```python] in
    front, no [```] at the end, and a first line that is not just the
    language name. *)
Definition is_clean (code : jsstring) : bool :=
  negb (isWhiteSpace (hd 0%N code))
  && negb (isWhiteSpace (last code 0%N))
  && negb (startsWith code Visualize.FENCE_PYTHON)
  && negb (endsWith code Visualize.FENCE)
  && negb (eqb (trim (hd [] (split Visualize.LF code))) (js "python")).

(** [ocrData.ParsedResults] holds no result: it is missing, [null] or
    another falsy value, or an empty array. *)
Definition no_parsed_results (v : value) : bool :=
  negb (truthy v)
  || match v with
     | Some (JArr []) => true
     | _ => false
     end.

(** [body.problemText] is rejected by the validation: it is missing, not
    a string, or empty after trimming. *)
Definition problemText_is_blank (v : value) : bool :=
  match v with
  | Some (JStr text) => eqb (trim text) []
  | _ => true
  end.

End Props.

(* ===================================================================== *)
(** ** Concrete requests *)
(* ===================================================================== *)

Module Examples.
Import Js Json Handler.
Local Open Scope Z_scope.

(** A request for which nothing was configured. *)
Definition unconfigured_world : Visualize.world :=
  Visualize.mk_world None (inr (js "{ not json"))
    (fun _ => inl (mk_error (js "SyntaxError") (js "Unexpected token n in JSON")))
    (fun _ => inl (Visualize.Error (js "unreachable")))
    (fun _ => inr []).

(** A request the model answers with a fenced script that prints one
    payload line, with a warning on stderr. *)
Definition circle_world : Visualize.world :=
  Visualize.mk_world (Some (js "key")) (inr (js "{...}"))
    (fun _ => inr (JObj [(js "problemText", JStr (js "circle radius 5"))]))
    (fun _ => inr (Some (Visualize.mk_response None (inr (js "```python
print(1)
```")))))
    (fun _ => inr [Visualize.stdout_data (js "MATPLOTLIB_BASE64_START:iVBORw0");
                   Visualize.stderr_data (js "UserWarning");
                   Visualize.stdout_data (js "...:MATPLOTLIB_BASE64_END");
                   Visualize.close (Some 0)]).

(** The same request when the generated script never ends. *)
Definition hanging_world : Visualize.world :=
  Visualize.mk_world (Some (js "key")) (inr (js "{...}"))
    (fun _ => inr (JObj [(js "problemText", JStr (js "circle radius 5"))]))
    (fun _ => inr (Some (Visualize.mk_response None (inr (js "while True: pass")))))
    (fun _ => inr [Visualize.stdout_data (js "working")]).

(** A request whose body is the JSON text [null]. *)
Definition null_body_world : Visualize.world :=
  Visualize.mk_world (Some (js "key")) (inr (js "null"))
    (fun _ => inr JNull)
    (fun _ => inr None)
    (fun _ => inr []).

(** The same request when the model blocks the prompt. *)
Definition blocked_world : Visualize.world :=
  Visualize.mk_world (Some (js "key")) (inr (js "{...}"))
    (fun _ => inr (JObj [(js "problemText", JStr (js "circle radius 5"))]))
    (fun _ => inr (Some (Visualize.mk_response
                           (Some (Visualize.mk_feedback (Some (js "SAFETY")) []))
                           (inl (Visualize.Error (js "Text not available."))))))
    (fun _ => inr []).

(** The same request when the model declines with the refusal prefix. *)
Definition refused_world : Visualize.world :=
  Visualize.mk_world (Some (js "key")) (inr (js "{...}"))
    (fun _ => inr (JObj [(js "problemText", JStr (js "circle radius 5"))]))
    (fun _ => inr (Some (Visualize.mk_response None
                           (inr (js "ERROR:CANNOT_VISUALIZE: not a geometry problem")))))
    (fun _ => inr []).

(** A request with a blank problem text, with and without the
    credential. *)
Definition blank_world (key : option jsstring) : Visualize.world :=
  Visualize.mk_world key (inr (js "{...}"))
    (fun _ => inr (JObj [(js "problemText", JStr (js "   "))]))
    (fun _ => inr None)
    (fun _ => inr []).

(** An upload the OCR service answers with the given data. *)
Definition ocr_world (ocrData : json) : Ocr.world :=
  Ocr.mk_world
    (inr (Ocr.mk_form (Some (Ocr.FormFile (js "problem.png") [137; 80; 78; 71]%N)) None))
    (Some (js "key"))
    (fun _ => inr (Ocr.mk_fetch_response true 200 (inr ocrData))).

(** What the service sends for an image in which it recognises nothing:
    one parsed result with an empty text. *)
Definition blank_image_data : json :=
  JObj [(js "ParsedResults",
         JArr [JObj [(js "FileParseExitCode", JNum (js "1"));
                     (js "ParsedText", JStr [])]]);
        (js "OCRExitCode", JNum (js "1"));
        (js "IsErroredOnProcessing", JBool false)].

End Examples.

(* ===================================================================== *)
(** ** More definitions used to state properties *)
(* ===================================================================== *)

Module Behaviour.
Import Js Json Handler.
Local Open Scope Z_scope.

(** [a] is one contiguous part of [s]. *)
Definition part_of (a s : jsstring) : Prop :=
  exists before after, s = before ++ a ++ after.

(** The request the OCR handler sends for an accepted upload. *)
Definition upstream_request (formData : Ocr.form) (file : Ocr.form_entry)
    (ocrApiKey : jsstring) : Ocr.ocr_request :=
  Ocr.mk_request file ocrApiKey (Ocr.language_of formData) (js "false").

(** A response of a route as [fetch] hands it to the page: [ok] for a
    status from 200 to 299, and the body that was sent as JSON. *)
Definition over_http (r : response) : Ocr.fetch_response :=
  Ocr.mk_fetch_response ((200 <=? status r) && (status r <=? 299)) (status r)
                        (inr (body r)).

(** The text [handleSubmit] is about to send: the recognised text when
    an image is selected, the typed text otherwise. *)
Definition textToProcess (st : Client.state) : json :=
  match Client.selectedImage st with
  | Some _ => Client.ocrText st
  | None => JStr (Client.problemText st)
  end.

(** The outcome of the three checks [handleSubmit] makes before it sends
    anything: the message of the check that refuses the text, if one
    does.  Trimming a text that is not a string throws. *)
Definition refusal (st : Client.state) : js_error + option jsstring :=
  match Client.trim_of "textToProcess" (textToProcess st) with
  | inl e => inl e
  | inr trimmed =>
      match Client.selectedImage st with
      | None =>
          if eqb trimmed []
          then inr (Some (js "Please enter a math problem or upload an image."))
          else inr None
      | Some _ =>
          if eqb trimmed []
          then inr (Some (js "Please wait for OCR to complete, or if it failed, ensure the image has text or type manually."))
          else if Client.is_the_string (Client.ocrText st) Client.OCR_FAILED
               then inr (Some (js "OCR processing failed. Please review the image or type the problem manually."))
               else inr None
      end
  end.

End Behaviour.

(* ===================================================================== *)
(** ** More concrete requests *)
(* ===================================================================== *)

Module Scenarios.
Import Js Json Handler.
Local Open Scope Z_scope.

(** A request to the visualize route, given what the body parses to, what
    the model does and what the interpreter does. *)
Definition visualize_world (parsed : js_error + json)
    (model : js_error + option Visualize.model_response)
    (process : Visualize.spawned) : Visualize.world :=
  Visualize.mk_world (Some (js "key")) (inr (js "{...}"))
    (fun _ => parsed) (fun _ => model) (fun _ => process).

Definition circle_body : json :=
  JObj [(js "problemText", JStr (js "circle radius 5"))].

(** A model that answers with the given text and no prompt feedback. *)
Definition generated (code : string) : js_error + option Visualize.model_response :=
  inr (Some (Visualize.mk_response None (inr (js code)))).

(** A body that is not JSON. *)
Definition malformed_body_world : Visualize.world :=
  visualize_world
    (inl (mk_error (js "SyntaxError") (js "Unexpected token c in JSON at position 1")))
    (inr None) (inr []).

(** The SDK call fails. *)
Definition model_down_world : Visualize.world :=
  visualize_world (inr circle_body)
    (inl (Visualize.Error (js "fetch failed"))) (inr []).

(** The model answers with no response object, and with a blank text. *)
Definition silent_model_world : Visualize.world :=
  visualize_world (inr circle_body) (inr None) (inr []).

Definition blank_generation_world : Visualize.world :=
  visualize_world (inr circle_body) (generated "  ") (inr []).

(** The generated script raises. *)
Definition failing_script_world : Visualize.world :=
  visualize_world (inr circle_body) (generated "print(x)")
    (inr [Visualize.stderr_data (js "NameError: name 'x' is not defined");
          Visualize.close (Some 1)]).

(** No interpreter is installed. *)
Definition no_python_world : Visualize.world :=
  visualize_world (inr circle_body) (generated "print(1)")
    (inr [Visualize.error (Visualize.Error (js "spawn python ENOENT"));
          Visualize.close (Some (-2))]).

(** An upload of a picture, given the credential and what the OCR
    service answers. *)
Definition picture : Ocr.form_entry :=
  Ocr.FormFile (js "problem.png") [137; 80; 78; 71]%N.

Definition upload_world (key : option jsstring)
    (answer : js_error + Ocr.fetch_response) : Ocr.world :=
  Ocr.mk_world (inr (Ocr.mk_form (Some picture) None)) key (fun _ => answer).

(** A form without a file. *)
Definition no_file_world : Ocr.world :=
  Ocr.mk_world (inr (Ocr.mk_form None (Some (Ocr.FormString (js "por")))))
               (Some (js "key")) (fun _ => inl (Visualize.Error (js "unreachable"))).

(** The OCR service is over its quota, and answers with a page that is
    not JSON. *)
Definition quota_answer : Ocr.fetch_response :=
  Ocr.mk_fetch_response false 403
    (inl (mk_error (js "SyntaxError") (js "Unexpected token < in JSON at position 0"))).

(** The OCR service answers 304, a status that cannot carry a body. *)
Definition not_modified_answer : Ocr.fetch_response :=
  Ocr.mk_fetch_response false 304
    (inl (mk_error (js "SyntaxError") (js "Unexpected end of JSON input"))).

(** Two pages recognised. *)
Definition two_pages : json :=
  JObj [(js "ParsedResults",
         JArr [JObj [(js "ParsedText", JStr (js "x^2 + y^2 = 25"))];
               JObj [(js "ParsedText", JStr (js "page two"))]]);
        (js "IsErroredOnProcessing", JBool false)].

(** A processing error with two messages. *)
Definition unreadable : json :=
  JObj [(js "IsErroredOnProcessing", JBool true);
        (js "ErrorMessage", JArr [JStr (js "Unable to recognize the file type");
                                  JStr (js "E216")])].

(** The page with a typed problem, and the page after a picture was
    recognised. *)
Definition typed (text : string) : Client.state :=
  Client.mk_state (js text) None (JStr []) false false None None.

Definition photo : Client.File := Client.mk_File (js "problem.png") [137; 80; 78; 71]%N.

(** The routes as the page reaches them: each answers with the given
    response. *)
Definition routes (ocr visualize : js_error + Ocr.fetch_response) : Client.world :=
  Client.mk_world (fun _ => ocr) (fun _ => visualize) (fun _ => js "{}").

End Scenarios.

(* ===================================================================== *)
(** ** Facts about the string primitives *)
(* ===================================================================== *)

Import Js Json Handler Props Examples.

Unset Implicit Arguments.
#[local] Arguments Json.get : simpl never.

Lemma eqb_refl (s : jsstring) : Js.eqb s s = true.
Proof.
  induction s as [|c s IH]; simpl; [reflexivity|].
  now rewrite N.eqb_refl, IH.
Qed.

Lemma eqb_eq (a b : jsstring) : Js.eqb a b = true <-> a = b.
Proof.
  split.
  - revert b; induction a as [|x a IH]; intros [|y b]; simpl; try discriminate.
    + reflexivity.
    + intros H. apply andb_true_iff in H as [Hx Ha].
      apply N.eqb_eq in Hx. f_equal; auto.
  - intros ->. apply eqb_refl.
Qed.

Lemma trimStart_nil (s : jsstring) :
  trimStart s = [] -> forallb isWhiteSpace s = true.
Proof.
  induction s as [|c s IH]; simpl; [reflexivity|].
  destruct (isWhiteSpace c); [assumption | discriminate].
Qed.

Lemma trim_nil_head (c : code_unit) (s : jsstring) :
  trim (c :: s) = [] -> isWhiteSpace c = true.
Proof.
  unfold trim. simpl.
  destruct (isWhiteSpace c) eqn:Hc; [reflexivity|].
  unfold trimEnd. intros H.
  apply (f_equal (@rev _)) in H. rewrite rev_involutive in H. simpl in H.
  apply trimStart_nil in H.
  rewrite forallb_app in H. apply andb_true_iff in H as [_ H].
  simpl in H. rewrite Hc in H. discriminate.
Qed.

Lemma startsWith_trim_nonempty (s p : jsstring) (c : code_unit) :
  startsWith s (c :: p) = true ->
  isWhiteSpace c = false ->
  Js.eqb (trim s) [] = false.
Proof.
  intros Hs Hc. destruct s as [|x s]; simpl in Hs; [discriminate|].
  apply andb_true_iff in Hs as [Hx _]. apply N.eqb_eq in Hx. subst x.
  destruct (Js.eqb (trim (c :: s)) []) eqn:E; [|reflexivity].
  apply eqb_eq in E. apply trim_nil_head in E. congruence.
Qed.

(* ===================================================================== *)
(** ** The visualize handler: configuration and input validation *)
(* ===================================================================== *)

Local Open Scope Z_scope.

(** C10.  If [GEMINI_API_KEY] is unset, the handler answers 500 with the
    configuration error whatever the request is: the body is neither read
    nor parsed, the model is not called and no process is spawned (the
    effect trace is empty). *)
Theorem missing_key_500 (w : Visualize.world) :
  Visualize.GEMINI_API_KEY w = None ->
  Visualize.POST w =
    ([], Return (NextResponse_json
                   (JObj [(js "error",
                           JStr (js "AI service configuration error - API key not found"));
                          (js "details",
                           JStr (js "Please set the GEMINI_API_KEY environment variable"))])
                   500)).
Proof.
  intros Hkey. unfold Visualize.POST. rewrite Hkey. reflexivity.
Qed.

Lemma missing_key_500_witness :
  Visualize.POST unconfigured_world =
    ([], Return (NextResponse_json
                   (JObj [(js "error",
                           JStr (js "AI service configuration error - API key not found"));
                          (js "details",
                           JStr (js "Please set the GEMINI_API_KEY environment variable"))])
                   500)).
Proof. apply (missing_key_500 unconfigured_world). reflexivity. Defined.

(** The model-and-interpreter stage never lets an exception out and never
    falls through: it returns a payload or an error envelope, unless the
    interpreter never ends. *)
Lemma generate_and_run_completes (w : Visualize.world) (prompt : jsstring) :
  (exists r, snd (Visualize.generate_and_run w prompt) = Return r
             /\ xorb (is_VisualizationPayload r) (is_ErrorEnvelope r) = true)
  \/ (snd (Visualize.generate_and_run w prompt) = Pending
      /\ exists code,
           Visualize.executePython (Visualize.python w code) = Visualize.Unsettled).
Proof.
  unfold Visualize.generate_and_run, Visualize.await_executePython.
  destruct (Visualize.generateContent w prompt) as [e | [response|]]; simpl;
    [left; eexists; split; reflexivity | | left; eexists; split; reflexivity].
  destruct (truthy (option_map JStr (Visualize.response_blockReason response))).
  { destruct (Visualize.promptFeedback response); simpl;
      left; eexists; split; reflexivity. }
  destruct (Visualize.text response) as [e | code]; simpl;
    [left; eexists; split; reflexivity |].
  destruct (negb (negb (Js.eqb code [])) || Js.eqb (trim code) []); simpl;
    [left; eexists; split; reflexivity |].
  destruct (startsWith code Visualize.REFUSAL_PREFIX); simpl;
    [left; eexists; split; reflexivity |].
  destruct (Visualize.executePython _) as [ | output | reason] eqn:Hrun; simpl.
  - right; split; [reflexivity | eexists; exact Hrun].
  - left; eexists; split; [reflexivity |].
    unfold Visualize.extract_response.
    destruct (Visualize.imageBase64 output); reflexivity.
  - left; eexists; split; reflexivity.
Qed.

Section ValidRequest.

Variable w : Visualize.world.
Variable raw : jsstring.
Variable body : json.

Hypothesis Hconfigured : configured w = true.
Hypothesis Hread : Visualize.request_text w = inr raw.
Hypothesis Hparse : Visualize.JSON_parse w raw = inr body.

(** With the credential set and a body that parses, the handler reads the
    body and goes on to look at [body.problemText]. *)
Lemma POST_parsed :
  Visualize.POST w =
    try_catch
      (bind ([Visualize.ReadBody], Normal body)
         (fun body =>
            bind (lift (get (Some body) (js "problemText")))
              (fun problemText =>
                 match Visualize.as_string problemText with
                 | Some text =>
                     if negb (truthy problemText) || Js.eqb (trim text) []
                     then respond
                            (object [(js "error",
                                      Visualize.str "No problem text provided or text is invalid.")])
                            400
                     else Visualize.generate_and_run w (Visualize.fullPrompt text)
                 | None =>
                     respond
                       (object [(js "error",
                                 Visualize.str "No problem text provided or text is invalid.")])
                       400
                 end)))
      (fun error =>
         respond (object [(js "error", Visualize.str "Internal server error");
                          (js "details", Some (JStr (error_message error)));
                          (js "type", Some (JStr (error_name error)))])
                 500).
Proof.
  unfold Visualize.POST. unfold configured in Hconfigured.
  rewrite Hconfigured, Hread. simpl. rewrite Hparse. reflexivity.
Qed.

(** A problem text that passes validation is sent to the model inside the
    prompt. *)
Lemma POST_valid (text : jsstring) :
  get (Some body) (js "problemText") = inr (Some (JStr text)) ->
  Js.eqb (trim text) [] = false ->
  Visualize.POST w =
    (Visualize.ReadBody :: fst (Visualize.generate_and_run w (Visualize.fullPrompt text)),
     snd (Visualize.generate_and_run w (Visualize.fullPrompt text))).
Proof.
  intros Hget Htrim. rewrite POST_parsed. simpl. rewrite Hget. simpl.
  assert (Htext : Js.eqb text [] = false).
  { destruct text; [discriminate Htrim | reflexivity]. }
  rewrite Htext, Htrim. simpl.
  destruct (generate_and_run_completes w (Visualize.fullPrompt text))
    as [[r [Hr _]] | [Hp _]];
    destruct (Visualize.generate_and_run w (Visualize.fullPrompt text)) as [t c];
    simpl in *; subst c; reflexivity.
Qed.

(** C6, as amended.  With the credential set and a body that parses to
    anything but [null], a problem text that is missing, not a string or
    empty after trimming is answered with 400, and the only effect is
    reading the body: the model is not called and no process is
    spawned. *)
Theorem blank_problemText_400 (problemText : value) :
  get (Some body) (js "problemText") = inr problemText ->
  problemText_is_blank problemText = true ->
  Visualize.POST w =
    ([Visualize.ReadBody],
     Return (NextResponse_json
               (JObj [(js "error",
                       JStr (js "No problem text provided or text is invalid."))])
               400)).
Proof.
  intros Hget Hblank. rewrite POST_parsed. simpl. rewrite Hget. simpl.
  destruct problemText as [[ | b | r | text | items | fields] | ]; try reflexivity.
  simpl in Hblank. simpl. rewrite Hblank, orb_true_r. reflexivity.
Qed.

(** When the model response carries a block reason, the handler answers
    400 with the reason in the error message and the prompt feedback as
    details; the generated text is not read and no process is spawned. *)
Lemma blocked_prompt_answer (text : jsstring) (response : Visualize.model_response)
    (feedback : Visualize.prompt_feedback) (reason : jsstring) :
  get (Some body) (js "problemText") = inr (Some (JStr text)) ->
  Js.eqb (trim text) [] = false ->
  Visualize.generateContent w (Visualize.fullPrompt text) = inr (Some response) ->
  Visualize.promptFeedback response = Some feedback ->
  Visualize.blockReason feedback = Some reason ->
  Js.eqb reason [] = false ->
  Visualize.POST w =
    ([Visualize.ReadBody; Visualize.GenerateContent (Visualize.fullPrompt text)],
     Return (NextResponse_json
               (JObj [(js "error", JStr (js "Content blocked: " ++ reason));
                      (js "details", Visualize.feedback_json feedback)])
               400)).
Proof.
  intros Hget Htrim Hgen Hfb Hreason Hne.
  rewrite (POST_valid text Hget Htrim).
  unfold Visualize.generate_and_run. rewrite Hgen. simpl.
  unfold Visualize.response_blockReason. rewrite Hfb, Hreason. simpl.
  rewrite Hne. reflexivity.
Qed.

(** The refusal branch: a generated text that begins with the refusal
    prefix is answered with 422 and is not run. *)
Lemma refusal_answer (text : jsstring) (response : Visualize.model_response)
    (generatedCode : jsstring) :
  get (Some body) (js "problemText") = inr (Some (JStr text)) ->
  Js.eqb (trim text) [] = false ->
  Visualize.generateContent w (Visualize.fullPrompt text) = inr (Some response) ->
  truthy (option_map JStr (Visualize.response_blockReason response)) = false ->
  Visualize.text response = inr generatedCode ->
  startsWith generatedCode Visualize.REFUSAL_PREFIX = true ->
  Visualize.POST w =
    ([Visualize.ReadBody; Visualize.GenerateContent (Visualize.fullPrompt text)],
     Return (NextResponse_json
               (JObj [(js "error", JStr (js "Problem cannot be visualized by AI"));
                      (js "details", JStr generatedCode)])
               422)).
Proof.
  intros Hget Htrim Hgen Hblock Htext Hprefix.
  rewrite (POST_valid text Hget Htrim).
  unfold Visualize.generate_and_run. rewrite Hgen. simpl.
  rewrite Hblock, Htext. simpl.
  assert (Hcode : Js.eqb (trim generatedCode) [] = false).
  { eapply startsWith_trim_nonempty; [exact Hprefix | reflexivity]. }
  assert (Hcode' : Js.eqb generatedCode [] = false).
  { destruct generatedCode; [discriminate Hprefix | reflexivity]. }
  rewrite Hcode, Hcode', Hprefix. reflexivity.
Qed.

(** C5.  When the text generated by the model begins with
    [ERROR:CANNOT_VISUALIZE:], the handler answers 422 with the text as
    details, and the text is not run: the effects are reading the body and
    calling the model. *)
Theorem refusal_prefix_422 (text : jsstring) (response : Visualize.model_response)
    (generatedCode : jsstring) :
  get (Some body) (js "problemText") = inr (Some (JStr text)) ->
  Js.eqb (trim text) [] = false ->
  Visualize.generateContent w (Visualize.fullPrompt text) = inr (Some response) ->
  truthy (option_map JStr (Visualize.response_blockReason response)) = false ->
  Visualize.text response = inr generatedCode ->
  startsWith generatedCode Visualize.REFUSAL_PREFIX = true ->
  Visualize.POST w =
    ([Visualize.ReadBody; Visualize.GenerateContent (Visualize.fullPrompt text)],
     Return (NextResponse_json
               (JObj [(js "error", JStr (js "Problem cannot be visualized by AI"));
                      (js "details", JStr generatedCode)])
               422)).
Proof.
  intros Hget Htrim Hgen Hblock Htext Hprefix.
  rewrite (POST_valid text Hget Htrim).
  unfold Visualize.generate_and_run. rewrite Hgen. simpl.
  rewrite Hblock, Htext. simpl.
  assert (Hcode : Js.eqb (trim generatedCode) [] = false).
  { eapply startsWith_trim_nonempty; [exact Hprefix | reflexivity]. }
  assert (Hcode' : Js.eqb generatedCode [] = false).
  { destruct generatedCode; [discriminate Hprefix | reflexivity]. }
  rewrite Hcode, Hcode', Hprefix. reflexivity.
Qed.

End ValidRequest.

Lemma blank_problemText_400_witness :
  Visualize.POST (blank_world (Some (js "key"))) =
    ([Visualize.ReadBody],
     Return (NextResponse_json
               (JObj [(js "error",
                       JStr (js "No problem text provided or text is invalid."))])
               400)).
Proof.
  apply (blank_problemText_400 (blank_world (Some (js "key"))) (js "{...}")
           (JObj [(js "problemText", JStr (js "   "))])
           eq_refl eq_refl eq_refl (Some (JStr (js "   "))));
    reflexivity.
Defined.

(** A body that is [null] has no [problemText] to read: the read throws
    and the outer [catch] answers 500. *)
Lemma null_body_500 :
  Visualize.POST null_body_world =
    ([Visualize.ReadBody],
     Return (NextResponse_json
               (JObj [(js "error", JStr (js "Internal server error"));
                      (js "details",
                       JStr (js "Cannot read properties of null (reading 'problemText')"));
                      (js "type", JStr (js "TypeError"))])
               500)).
Proof. vm_compute. reflexivity. Qed.

(** C6, as stated, fails without the credential: a blank problem text is
    then answered with 500, not with a 400-class error. *)
Lemma blank_problemText_unconfigured_500 :
  option_map status (response_of (Visualize.POST (blank_world None))) = Some 500.
Proof. reflexivity. Qed.

(** C4, as stated, fails: a blocked prompt is answered with 400, the
    status of bad input, not with 422. *)
Lemma blocked_prompt_not_422 :
  option_map status (response_of (Visualize.POST blocked_world)) = Some 400.
Proof. vm_compute. reflexivity. Qed.

Lemma refusal_prefix_422_witness :
  Visualize.POST refused_world =
    ([Visualize.ReadBody;
      Visualize.GenerateContent (Visualize.fullPrompt (js "circle radius 5"))],
     Return (NextResponse_json
               (JObj [(js "error", JStr (js "Problem cannot be visualized by AI"));
                      (js "details",
                       JStr (js "ERROR:CANNOT_VISUALIZE: not a geometry problem"))])
               422)).
Proof.
  apply (refusal_prefix_422 refused_world (js "{...}")
           (JObj [(js "problemText", JStr (js "circle radius 5"))])
           eq_refl eq_refl eq_refl (js "circle radius 5")
           (Visualize.mk_response None
              (inr (js "ERROR:CANNOT_VISUALIZE: not a geometry problem"))));
    reflexivity.
Defined.

(* ===================================================================== *)
(** ** The visualize handler: one response per request *)
(* ===================================================================== *)

(** C1, as amended.  Whenever the spawned interpreter ends (its promise
    settles), the handler returns a response, and the response is exactly
    one of a payload (200 with [imageBase64], no [error]) and an error
    envelope (4xx or 5xx with [error], no [imageBase64]). *)
Theorem one_response (w : Visualize.world) :
  python_settles w ->
  exists r,
    snd (Visualize.POST w) = Return r
    /\ xorb (is_VisualizationPayload r) (is_ErrorEnvelope r) = true.
Proof.
  intros Hsettles. unfold Visualize.POST.
  destruct (truthy (option_map JStr (Visualize.GEMINI_API_KEY w))); simpl;
    [| eexists; split; reflexivity].
  destruct (Visualize.request_text w) as [e | raw]; simpl;
    [eexists; split; reflexivity |].
  destruct (Visualize.JSON_parse w raw) as [e | body]; simpl;
    [eexists; split; reflexivity |].
  destruct (get (Some body) (js "problemText")) as [e | problemText]; simpl;
    [eexists; split; reflexivity |].
  destruct problemText as [[ | b | r | text | items | fields] | ]; simpl;
    try (eexists; split; reflexivity).
  destruct (negb (negb (Js.eqb text [])) || Js.eqb (trim text) []); simpl;
    [eexists; split; reflexivity |].
  destruct (generate_and_run_completes w (Visualize.fullPrompt text))
    as [[r [Hr Hshape]] | [_ [code Hcode]]].
  - destruct (Visualize.generate_and_run w (Visualize.fullPrompt text)) as [t c].
    simpl in Hr. subst c. simpl. exists r. split; [reflexivity | exact Hshape].
  - exfalso. exact (Hsettles code Hcode).
Qed.

Lemma one_response_witness :
  exists r,
    snd (Visualize.POST circle_world) = Return r
    /\ xorb (is_VisualizationPayload r) (is_ErrorEnvelope r) = true.
Proof.
  apply (one_response circle_world).
  intros code. vm_compute. discriminate.
Defined.

(** The whole pipeline on one request: the fence around the generated
    script is removed, the script is run, the payload between the markers
    is returned. *)
Example circle_request :
  Visualize.POST circle_world =
    ([Visualize.ReadBody;
      Visualize.GenerateContent (Visualize.fullPrompt (js "circle radius 5"));
      Visualize.SpawnPython (js "print(1)")],
     Return (NextResponse_json (JObj [(js "imageBase64", JStr (js "iVBORw0..."))]) 200)).
Proof. vm_compute. reflexivity. Qed.

(** C1, as stated, fails when the generated script never ends: the
    promise of [executePython] stays pending and the handler returns no
    response at all. *)
Lemma no_response_when_script_hangs :
  snd (Visualize.POST hanging_world) = Pending.
Proof. vm_compute. reflexivity. Qed.

(* ===================================================================== *)
(** ** executePython *)
(* ===================================================================== *)

Lemma settled_stays (events : list Visualize.process_event) (st : Visualize.executor) :
  Visualize.settled st <> Visualize.Unsettled ->
  Visualize.settled (fold_left Visualize.on_event events st) = Visualize.settled st.
Proof.
  revert st. induction events as [|ev events IH]; intros st Hst; [reflexivity|].
  simpl. rewrite IH.
  - destruct ev; simpl; try reflexivity;
      destruct (Visualize.settled st); simpl; congruence.
  - destruct ev; simpl; try assumption;
      destruct (Visualize.settled st); simpl; congruence.
Qed.

Lemma data_events_captured (events : list Visualize.process_event)
    (st : Visualize.executor) :
  forallb is_data events = true ->
  fold_left Visualize.on_event events st =
    Visualize.mk_executor (Visualize.stdout st ++ captured_stdout events)
                          (Visualize.stderr st ++ captured_stderr events)
                          (Visualize.settled st).
Proof.
  revert st. induction events as [|ev events IH]; intros st Hdata.
  - simpl. rewrite !app_nil_r. destruct st; reflexivity.
  - simpl in Hdata. apply andb_true_iff in Hdata as [Hev Hdata].
    simpl fold_left. rewrite (IH _ Hdata).
    destruct ev; try discriminate Hev; simpl; rewrite <- app_assoc; reflexivity.
Qed.

(** C7.  Once the process has started and has written its output, a
    ['close'] with a non-zero exit code rejects the promise with an error
    whose message ends with the captured stderr text, unchanged, after the
    exit code; a ['close'] with exit code 0 resolves it with the whole
    captured stdout text, whatever was written to stderr.  Events after
    ['close'] change nothing. *)
Theorem executePython_close (output later : list Visualize.process_event)
    (exitCode : Z) :
  forallb is_data output = true ->
  (exitCode <> 0 ->
   Visualize.executePython (inr (output ++ Visualize.close (Some exitCode) :: later)) =
     Visualize.Rejected
       (mk_error (js "Error")
          (js "Python script execution failed with code "
             ++ number_toString exitCode ++ js ": "
             ++ captured_stderr output)))
  /\ (exitCode = 0 ->
      Visualize.executePython (inr (output ++ Visualize.close (Some exitCode) :: later)) =
        Visualize.Resolved (captured_stdout output)).
Proof.
  intros Hdata. unfold Visualize.executePython.
  rewrite fold_left_app, (data_events_captured _ _ Hdata). simpl fold_left.
  split; intros Hcode.
  - rewrite settled_stays; simpl.
    + destruct exitCode; [congruence | reflexivity | reflexivity].
    + destruct exitCode; discriminate.
  - subst exitCode. rewrite settled_stays; simpl; [reflexivity | discriminate].
Qed.

Lemma executePython_close_witness :
  Visualize.executePython
    (inr ([Visualize.stdout_data (js "partial"); Visualize.stderr_data (js "Traceback: ");
           Visualize.stderr_data (js "NameError")]
          ++ Visualize.close (Some 1) :: [Visualize.error (Visualize.Error (js "late"))])) =
    Visualize.Rejected
      (mk_error (js "Error")
         (js "Python script execution failed with code 1: Traceback: NameError")).
Proof.
  apply (@executePython_close
           [Visualize.stdout_data (js "partial"); Visualize.stderr_data (js "Traceback: ");
            Visualize.stderr_data (js "NameError")]
           [Visualize.error (Visualize.Error (js "late"))] 1 eq_refl).
  discriminate.
Defined.

(* ===================================================================== *)
(** ** Prompt construction *)
(* ===================================================================== *)

Lemma getSubstitution_other (matched before after r : jsstring) (c : code_unit) :
  N.eqb c 36 = false ->
  getSubstitution matched before after (c :: r) =
    c :: getSubstitution matched before after r.
Proof.
  intros Hc. destruct c as [|p]; [reflexivity|].
  simpl.
  repeat match goal with
         | |- context [match ?q with xI _ => _ | xO _ => _ | xH => _ end] =>
             destruct q; try reflexivity
         end.
  discriminate Hc.
Qed.

Lemma getSubstitution_dollar_free (matched before after r : jsstring) :
  dollar_free r = true ->
  getSubstitution matched before after r = r.
Proof.
  induction r as [|c r IH]; intros Hfree; [reflexivity|].
  simpl in Hfree. apply andb_true_iff in Hfree as [Hc Hr].
  apply negb_true_iff in Hc.
  rewrite (getSubstitution_other _ _ _ _ _ Hc), (IH Hr). reflexivity.
Qed.

Lemma placeholder_position :
  find_from Visualize.PLACEHOLDER Visualize.ENGINEERED_PROMPT_TEMPLATE 0 = Some 2524%nat.
Proof. vm_compute. reflexivity. Qed.

(** The placeholder occurs once in the template. *)
Lemma placeholder_once :
  occurrences Visualize.PLACEHOLDER Visualize.ENGINEERED_PROMPT_TEMPLATE = 1%nat.
Proof. vm_compute. reflexivity. Qed.

(** A problem text without a dollar sign is embedded as it is. *)
Lemma fullPrompt_dollar_free (problemText : jsstring) :
  dollar_free problemText = true ->
  Visualize.fullPrompt problemText = embed_literally problemText.
Proof.
  intros Hfree. unfold Visualize.fullPrompt, embed_literally, replace.
  rewrite placeholder_position.
  rewrite (getSubstitution_dollar_free _ _ _ _ Hfree). reflexivity.
Qed.

(** C8, at the failing input.  A problem text written with display-math
    dollar signs does not reach the model as it is: [replace] reads [$$]
    in its replacement argument as one dollar sign, so the prompt embeds
    [$x^2+y^2=25$] where the problem text is [$$x^2+y^2=25$$]. *)
Theorem fullPrompt_collapses_dollars :
  Visualize.fullPrompt (js "$$x^2+y^2=25$$") = embed_literally (js "$x^2+y^2=25$")
  /\ Visualize.fullPrompt (js "$$x^2+y^2=25$$") <> embed_literally (js "$$x^2+y^2=25$$").
Proof.
  split.
  - vm_compute. reflexivity.
  - intros H. apply (f_equal (@List.length _)) in H. vm_compute in H. discriminate H.
Qed.

(* ===================================================================== *)
(** ** Payload extraction *)
(* ===================================================================== *)

Lemma startsWith_nil (s : jsstring) : startsWith s [] = true.
Proof. destruct s; reflexivity. Qed.

Lemma startsWith_app (p s : jsstring) : startsWith (p ++ s) p = true.
Proof.
  induction p as [|c p IH]; simpl; [apply startsWith_nil|].
  now rewrite N.eqb_refl, IH.
Qed.

#[local] Arguments startsWith : simpl never.

Lemma find_from_shift (needle s : jsstring) (i : nat) :
  find_from needle s i =
    match find_from needle s 0 with
    | Some k => Some (i + k)%nat
    | None => None
    end.
Proof.
  revert i. induction s as [|c s IH]; intros i; simpl.
  - destruct (startsWith [] needle); [f_equal; lia | reflexivity].
  - destruct (startsWith (c :: s) needle); [f_equal; lia |].
    rewrite (IH (S i)), (IH 1%nat).
    destruct (find_from needle s 0); [f_equal; lia | reflexivity].
Qed.

Lemma occurrences_none (needle s : jsstring) :
  occurrences needle s = 0%nat -> find_from needle s 0 = None.
Proof.
  induction s as [|c s IH]; simpl.
  - destruct (startsWith [] needle); [discriminate | reflexivity].
  - destruct (startsWith (c :: s) needle); [discriminate|].
    simpl. intros H. rewrite find_from_shift, (IH H). reflexivity.
Qed.

Lemma occurrences_skipn (needle s : jsstring) (k : nat) :
  (occurrences needle (skipn k s) <= occurrences needle s)%nat.
Proof.
  revert s. induction k as [|k IH]; intros s; [simpl; lia|].
  destruct s as [|c s]; [simpl; lia|].
  simpl skipn. specialize (IH s). simpl occurrences. lia.
Qed.

Lemma occurrences_app (needle before s : jsstring) :
  (occurrences needle s <= occurrences needle (before ++ s))%nat.
Proof.
  induction before as [|c before IH]; [simpl; lia|].
  simpl app. simpl occurrences. simpl in IH. lia.
Qed.

Lemma occurrences_here (needle s : jsstring) :
  startsWith s needle = true -> (1 <= occurrences needle s)%nat.
Proof.
  intros H. destruct s; simpl; rewrite H; lia.
Qed.

(** The only occurrence is the first one. *)
Lemma find_from_only (needle before s : jsstring) :
  startsWith s needle = true ->
  occurrences needle (before ++ s) = 1%nat ->
  find_from needle (before ++ s) 0 = Some (List.length before).
Proof.
  intros Hs. induction before as [|c before IH]; intros Hocc.
  - simpl app. simpl List.length. destruct s; simpl; rewrite Hs; reflexivity.
  - simpl app in *. simpl occurrences in Hocc.
    pose proof (occurrences_app needle before s) as Hle.
    pose proof (occurrences_here needle s Hs) as Hge.
    simpl find_from.
    destruct (startsWith (c :: before ++ s) needle); [lia|].
    rewrite find_from_shift, IH by lia. reflexivity.
Qed.

Lemma clamp_inside (s : jsstring) (k : nat) :
  (k <= List.length s)%nat -> clamp s (Z.of_nat k) = k.
Proof. intros H. unfold clamp, Js.length. lia. Qed.

Lemma clamp_zero (s : jsstring) : clamp s 0 = 0%nat.
Proof. unfold clamp, Js.length. lia. Qed.

Lemma skipn_length_app (a b : jsstring) : skipn (List.length a) (a ++ b) = b.
Proof. induction a; simpl; auto. Qed.

Lemma firstn_length_app (a b : jsstring) : firstn (List.length a) (a ++ b) = a.
Proof. induction a; simpl; f_equal; auto. Qed.

Lemma substring_middle (a b c : jsstring) :
  substring (a ++ b ++ c) (Z.of_nat (List.length a))
            (Z.of_nat (List.length a + List.length b)) = b.
Proof.
  unfold substring.
  rewrite !clamp_inside by (rewrite !length_app; lia).
  rewrite Nat.min_l, Nat.max_r by lia.
  replace (List.length a + List.length b - List.length a)%nat with (List.length b) by lia.
  rewrite skipn_length_app. apply firstn_length_app.
Qed.

Section WellFormed.

Variables opening closing : jsstring.

Lemma well_formed_app (before s : jsstring) :
  (well_formed_occurrences opening closing s
   <= well_formed_occurrences opening closing (before ++ s))%nat.
Proof.
  induction before as [|c before IH]; [simpl; lia|].
  simpl app. simpl well_formed_occurrences. simpl in IH. lia.
Qed.

Lemma well_formed_here (rest : jsstring) :
  (occurrences closing rest
   <= well_formed_occurrences opening closing (opening ++ rest))%nat.
Proof.
  assert (H : well_formed_occurrences opening closing (opening ++ rest)
              = (occurrences closing rest
                 + match opening ++ rest with
                   | [] => 0
                   | _ :: s' => well_formed_occurrences opening closing s'
                   end)%nat).
  { destruct (opening ++ rest) eqn:E; simpl;
      rewrite <- E, startsWith_app, skipn_length_app; reflexivity. }
  rewrite H. lia.
Qed.

(** Where the payload is followed by the closing marker, an earlier
    opening marker would make a second well-formed occurrence. *)
Lemma find_from_well_formed (before rest : jsstring) :
  (1 <= occurrences closing rest)%nat ->
  well_formed_occurrences opening closing (before ++ opening ++ rest) = 1%nat ->
  find_from opening (before ++ opening ++ rest) 0 = Some (List.length before).
Proof.
  intros Hrest. induction before as [|c before IH]; intros Hone.
  - simpl app. simpl List.length.
    destruct (opening ++ rest) eqn:E; simpl;
      rewrite <- E, startsWith_app; reflexivity.
  - pose proof (well_formed_app before (opening ++ rest)) as Hle.
    pose proof (well_formed_here rest) as Hge.
    simpl app in *. simpl well_formed_occurrences in Hone.
    simpl find_from.
    destruct (startsWith (c :: before ++ opening ++ rest) opening) eqn:Hsw.
    + exfalso.
      assert (Hsuffix : exists x, skipn (List.length opening)
                                    (c :: before ++ opening ++ rest) = x ++ rest).
      { exists (skipn (List.length opening) ((c :: before) ++ opening)).
        change (c :: before ++ opening ++ rest) with ((c :: before) ++ opening ++ rest).
        rewrite app_assoc, skipn_app.
        replace (List.length opening - List.length ((c :: before) ++ opening))%nat
          with 0%nat by (rewrite length_app; simpl; lia).
        reflexivity. }
      destruct Hsuffix as [x Hx]. rewrite Hx in Hone.
      pose proof (occurrences_app closing x rest). lia.
    + rewrite find_from_shift, IH by lia. reflexivity.
Qed.

End WellFormed.

(** The payload of the one well-formed occurrence is what is extracted. *)
Lemma imageBase64_well_formed (before payload after : jsstring) :
  let pythonOutput :=
    before ++ Visualize.base64MarkerStart ++ payload
           ++ Visualize.base64MarkerEnd ++ after in
  well_formed_occurrences Visualize.base64MarkerStart Visualize.base64MarkerEnd
    pythonOutput = 1%nat ->
  Visualize.imageBase64 pythonOutput = Some payload.
Proof.
  intros out Hone. unfold Visualize.imageBase64.
  set (S := Visualize.base64MarkerStart) in *.
  set (E := Visualize.base64MarkerEnd) in *.
  pose proof (occurrences_app E payload (E ++ after)) as Hpayload.
  pose proof (occurrences_here E (E ++ after) (startsWith_app E after)) as Hclosing.
  assert (HstartIndex : indexOf out S 0 = Z.of_nat (List.length before)).
  { unfold indexOf. rewrite clamp_zero. simpl skipn.
    unfold out. rewrite (find_from_well_formed S E) by (exact Hone || lia).
    reflexivity. }
  rewrite HstartIndex.
  assert (Hk : Z.of_nat (List.length before) + Js.length S
               = Z.of_nat (List.length (before ++ S))).
  { unfold Js.length. rewrite length_app. lia. }
  assert (Hout : out = (before ++ S) ++ payload ++ E ++ after).
  { unfold out. rewrite <- app_assoc. reflexivity. }
  assert (HendIndex : indexOf out E (Z.of_nat (List.length before) + Js.length S)
                      = Z.of_nat (List.length (before ++ S) + List.length payload)).
  { unfold indexOf. rewrite Hk, clamp_inside
      by (rewrite Hout, !length_app; lia).
    rewrite Hout at 1. rewrite skipn_length_app.
    rewrite find_from_shift, find_from_only.
    - reflexivity.
    - apply startsWith_app.
    - pose proof (well_formed_app S E before (S ++ payload ++ E ++ after)) as Hle.
      pose proof (well_formed_here S E (payload ++ E ++ after)) as Hge.
      fold out in Hle. lia. }
  rewrite HendIndex, Hk.
  replace (Z.of_nat (List.length before) =? -1)
    with false by (symmetry; apply Z.eqb_neq; lia).
  replace (Z.of_nat (List.length (before ++ S) + List.length payload) =? -1)
    with false by (symmetry; apply Z.eqb_neq; lia).
  simpl negb. simpl andb. cbv iota.
  rewrite Hout. rewrite substring_middle. reflexivity.
Qed.

Lemma well_formed_le_product (opening closing s : jsstring) :
  (well_formed_occurrences opening closing s
   <= occurrences opening s * occurrences closing s)%nat.
Proof.
  induction s as [|c s IH].
  - simpl. rewrite skipn_nil. simpl.
    destruct (startsWith [] opening); destruct (startsWith [] closing); simpl; lia.
  - simpl well_formed_occurrences. simpl occurrences.
    pose proof (occurrences_skipn closing (c :: s) (List.length opening)) as Hskip.
    simpl occurrences in Hskip.
    destruct (startsWith (c :: s) opening); destruct (startsWith (c :: s) closing);
      simpl; nia.
Qed.

(** In particular when each marker occurs once. *)
Lemma imageBase64_found (before payload after : jsstring) :
  let pythonOutput :=
    before ++ Visualize.base64MarkerStart ++ payload
           ++ Visualize.base64MarkerEnd ++ after in
  occurrences Visualize.base64MarkerStart pythonOutput = 1%nat ->
  occurrences Visualize.base64MarkerEnd pythonOutput = 1%nat ->
  Visualize.imageBase64 pythonOutput = Some payload.
Proof.
  intros out Hstart Hend. apply imageBase64_well_formed. fold out.
  pose proof (well_formed_le_product Visualize.base64MarkerStart
                Visualize.base64MarkerEnd out) as Hle.
  pose proof (well_formed_app Visualize.base64MarkerStart Visualize.base64MarkerEnd
                before (Visualize.base64MarkerStart ++ payload
                          ++ Visualize.base64MarkerEnd ++ after)) as Hge.
  pose proof (well_formed_here Visualize.base64MarkerStart Visualize.base64MarkerEnd
                (payload ++ Visualize.base64MarkerEnd ++ after)) as Hhere.
  pose proof (occurrences_app Visualize.base64MarkerEnd payload
                (Visualize.base64MarkerEnd ++ after)) as Hpayload.
  pose proof (occurrences_here Visualize.base64MarkerEnd
                (Visualize.base64MarkerEnd ++ after)
                (startsWith_app Visualize.base64MarkerEnd after)) as Hclosing.
  fold out in Hge. rewrite Hstart, Hend in Hle. lia.
Qed.

(** A missing marker leaves nothing to extract. *)
Lemma imageBase64_missing (pythonOutput : jsstring) :
  occurrences Visualize.base64MarkerStart pythonOutput = 0%nat
  \/ occurrences Visualize.base64MarkerEnd pythonOutput = 0%nat ->
  Visualize.imageBase64 pythonOutput = None.
Proof.
  intros [H | H]; unfold Visualize.imageBase64.
  - assert (Hs : indexOf pythonOutput Visualize.base64MarkerStart 0 = -1).
    { unfold indexOf. rewrite clamp_zero. simpl skipn.
      rewrite (occurrences_none _ _ H). reflexivity. }
    rewrite Hs. reflexivity.
  - set (k := indexOf pythonOutput Visualize.base64MarkerStart 0
              + Js.length Visualize.base64MarkerStart).
    assert (He : indexOf pythonOutput Visualize.base64MarkerEnd k = -1).
    { unfold indexOf. rewrite find_from_shift, occurrences_none; [reflexivity|].
      pose proof (occurrences_skipn Visualize.base64MarkerEnd pythonOutput
                    (clamp pythonOutput k)). lia. }
    rewrite He. rewrite andb_false_r. reflexivity.
Qed.

(** C2.  When the script output is some text, the start marker, a
    payload, the end marker and some more text, and this is its one
    well-formed occurrence of the two markers, the response is the 200
    payload carrying exactly the text between the markers; when a marker
    is missing (so also when there are no markers at all), the response is
    the 500 error whose details end with the whole script output. *)
Theorem marker_extraction (before payload after pythonOutput : jsstring) :
  (well_formed_occurrences Visualize.base64MarkerStart Visualize.base64MarkerEnd
     (before ++ Visualize.base64MarkerStart ++ payload
             ++ Visualize.base64MarkerEnd ++ after) = 1%nat ->
   Visualize.extract_response
     (before ++ Visualize.base64MarkerStart ++ payload
             ++ Visualize.base64MarkerEnd ++ after) =
     NextResponse_json (JObj [(js "imageBase64", JStr payload)]) 200)
  /\ (occurrences Visualize.base64MarkerStart pythonOutput = 0%nat
      \/ occurrences Visualize.base64MarkerEnd pythonOutput = 0%nat ->
      Visualize.extract_response pythonOutput =
        NextResponse_json
          (JObj [(js "error",
                  JStr (js "Failed to process visualization from Python script"));
                 (js "details",
                  JStr (js "Could not find base64 image markers in the script output. Python output was: "
                          ++ pythonOutput))])
          500).
Proof.
  split.
  - intros Hone. unfold Visualize.extract_response.
    rewrite (imageBase64_well_formed before payload after Hone). reflexivity.
  - intros Hmissing. unfold Visualize.extract_response.
    rewrite (imageBase64_missing pythonOutput Hmissing). reflexivity.
Qed.

Lemma marker_extraction_witness :
  Visualize.extract_response
    (js "Matplotlib is building the font cache
MATPLOTLIB_BASE64_START:iVBORw0KGgo=:MATPLOTLIB_BASE64_END
") = NextResponse_json (JObj [(js "imageBase64", JStr (js "iVBORw0KGgo="))]) 200
  /\ Visualize.extract_response (js "NameError: name 'plt' is not defined") =
       NextResponse_json
         (JObj [(js "error",
                 JStr (js "Failed to process visualization from Python script"));
                (js "details",
                 JStr (js "Could not find base64 image markers in the script output. Python output was: NameError: name 'plt' is not defined"))])
         500.
Proof.
  pose proof (marker_extraction
                (js "Matplotlib is building the font cache
") (js "iVBORw0KGgo=") (js "
") (js "NameError: name 'plt' is not defined")) as [Hfound Hmissing].
  split.
  - apply Hfound; reflexivity.
  - apply Hmissing. left. reflexivity.
Defined.

(* ===================================================================== *)
(** ** The sanitizer of the generated code *)
(* ===================================================================== *)

Lemma trimStart_clean (s : jsstring) :
  isWhiteSpace (hd 0%N s) = false -> trimStart s = s.
Proof.
  destruct s as [|c s]; simpl; [reflexivity|]. intros ->. reflexivity.
Qed.

Lemma hd_rev (s : jsstring) : hd 0%N (rev s) = last s 0%N.
Proof.
  induction s as [|c s IH]; [reflexivity|].
  simpl rev. destruct s as [|d s]; [reflexivity|].
  change (last (c :: d :: s) 0%N) with (last (d :: s) 0%N). rewrite <- IH.
  simpl rev. destruct (rev s ++ [d]) eqn:E; [|reflexivity].
  apply app_eq_nil in E as [_ E]. discriminate E.
Qed.

Lemma trimEnd_clean (s : jsstring) :
  isWhiteSpace (last s 0%N) = false -> trimEnd s = s.
Proof.
  intros H. unfold trimEnd. rewrite trimStart_clean.
  - apply rev_involutive.
  - rewrite hd_rev. exact H.
Qed.

(** [trimStart] keeps a suffix, [trimEnd] a prefix. *)
Lemma trimStart_suffix (s : jsstring) : exists p, s = p ++ trimStart s.
Proof.
  induction s as [|c s [p Hp]]; [exists []; reflexivity|].
  simpl. destruct (isWhiteSpace c).
  - exists (c :: p). simpl. f_equal. exact Hp.
  - exists []. reflexivity.
Qed.

Lemma trimEnd_prefix (s : jsstring) : exists t, s = trimEnd s ++ t.
Proof.
  unfold trimEnd. destruct (trimStart_suffix (rev s)) as [p Hp].
  exists (rev p). rewrite <- rev_app_distr, <- Hp. symmetry. apply rev_involutive.
Qed.

(** The first line is a prefix of the text. *)
Lemma split_hd_prefix (sep : code_unit) (s : jsstring) :
  exists rest, s = hd [] (split sep s) ++ rest.
Proof.
  induction s as [|c s [rest Hrest]]; [exists []; reflexivity|].
  simpl. destruct (N.eqb c sep).
  - exists (c :: s). reflexivity.
  - destruct (split sep s) as [|l ls]; simpl in *.
    + exists s. reflexivity.
    + exists rest. f_equal. exact Hrest.
Qed.

(** With no white space in front, a first line that trims to the fence
    means the text starts with the fence. *)
Lemma first_line_fence (code : jsstring) :
  isWhiteSpace (hd 0%N code) = false ->
  trim (hd [] (split Visualize.LF code)) = Visualize.FENCE_PYTHON ->
  startsWith code Visualize.FENCE_PYTHON = true.
Proof.
  intros Hhd Hline.
  destruct (split_hd_prefix Visualize.LF code) as [rest Hrest].
  set (l0 := hd [] (split Visualize.LF code)) in *.
  assert (Hl0 : trimStart l0 = l0).
  { destruct l0 as [|c l0]; [reflexivity|].
    apply trimStart_clean. rewrite Hrest in Hhd. exact Hhd. }
  unfold trim in Hline. rewrite Hl0 in Hline.
  destruct (trimEnd_prefix l0) as [t Ht]. rewrite Hline in Ht.
  rewrite Hrest, Ht, <- app_assoc. apply startsWith_app.
Qed.

Lemma is_clean_unchanged (code : jsstring) :
  is_clean code = true -> Visualize.cleanedCode code = code.
Proof.
  unfold is_clean. intros H.
  repeat (apply andb_true_iff in H as [H ?]).
  repeat match goal with
         | Hn : negb _ = true |- _ => apply negb_true_iff in Hn
         end.
  assert (Htrim : trim code = code).
  { unfold trim. rewrite trimStart_clean by assumption.
    apply trimEnd_clean. assumption. }
  assert (Hfence : Js.eqb (trim (hd [] (split Visualize.LF code))) Visualize.FENCE_PYTHON
                   = false).
  { destruct (Js.eqb _ Visualize.FENCE_PYTHON) eqn:E; [|reflexivity].
    apply eqb_eq in E. apply first_line_fence in E; [congruence | assumption]. }
  unfold Visualize.cleanedCode. rewrite Htrim.
  match goal with Hs : startsWith code _ = false |- _ => rewrite Hs end.
  unfold Visualize.strip_trailing_fence.
  match goal with He : endsWith code _ = false |- _ => rewrite He end.
  match goal with Hp : Js.eqb _ (js "python") = false |- _ => rewrite Hp end.
  rewrite Hfence.
  match goal with He : endsWith code _ = false |- _ => rewrite He end.
  reflexivity.
Qed.

(** C3, as amended.  Sanitizing already-clean code changes nothing, and a
    second pass changes nothing whenever the first pass left clean
    code. *)
Theorem cleanedCode_clean (code : jsstring) :
  (is_clean code = true -> Visualize.cleanedCode code = code)
  /\ (is_clean (Visualize.cleanedCode code) = true ->
      Visualize.cleanedCode (Visualize.cleanedCode code) = Visualize.cleanedCode code).
Proof.
  split; intros H; apply is_clean_unchanged; exact H.
Qed.

Lemma cleanedCode_clean_witness :
  Visualize.cleanedCode (js "```python
```python
print(1)
```
```") = js "print(1)"
  /\ Visualize.cleanedCode (Visualize.cleanedCode (js "```python
```python
print(1)
```
```")) = Visualize.cleanedCode (js "```python
```python
print(1)
```
```").
Proof.
  split.
  - reflexivity.
  - apply (cleanedCode_clean (js "```python
```python
print(1)
```
```")). reflexivity.
Defined.

(** C3, as stated, fails: only one leading language line is removed per
    pass, so a second pass still changes the result of the first. *)
Lemma cleanedCode_not_idempotent :
  Visualize.cleanedCode (Visualize.cleanedCode (js "python
python
print(1)"))
  <> Visualize.cleanedCode (js "python
python
print(1)").
Proof. vm_compute. discriminate. Qed.

(* ===================================================================== *)
(** ** The OCR handler *)
(* ===================================================================== *)

#[local] Arguments Ocr.entry_truthy : simpl never.

(** C9, as amended.  When the upload is accepted, the credential is set,
    the OCR service answers with HTTP success and data that report no
    processing error and hold no parsed result ([ParsedResults] missing,
    [null] or an empty array), the handler answers 200 with the sentinel
    text (and the data received). *)
Theorem no_parsed_results_sentinel (w : Ocr.world) (formData : Ocr.form)
    (file : Ocr.form_entry) (ocrApiKey : jsstring)
    (ocrResponse : Ocr.fetch_response) (ocrData : json)
    (isErrored parsedResults : value) :
  let req := Ocr.mk_request file ocrApiKey (Ocr.language_of formData) (js "false") in
  Ocr.request_formData w = inr formData ->
  Ocr.form_file formData = Some file ->
  Ocr.entry_truthy (Some file) = true ->
  Ocr.OCR_SPACE_API_KEY w = Some ocrApiKey ->
  Js.eqb ocrApiKey [] = false ->
  Ocr.fetch w req = inr ocrResponse ->
  Ocr.ok ocrResponse = true ->
  Ocr.json_body ocrResponse = inr ocrData ->
  get (Some ocrData) (js "IsErroredOnProcessing") = inr isErrored ->
  truthy isErrored = false ->
  get (Some ocrData) (js "ParsedResults") = inr parsedResults ->
  no_parsed_results parsedResults = true ->
  Ocr.POST w =
    ([Ocr.ReadForm; Ocr.Fetch req],
     Return (NextResponse_json
               (JObj [(js "extractedText", JStr (js "No text found in image."));
                      (js "ocrData", ocrData)])
               200)).
Proof.
  intros req Hform Hfile Htruthy Hkey Hne Hfetch Hok Hjson HisErr Hfalsy Hparsed Hnone.
  unfold Ocr.POST. rewrite Hform. simpl. rewrite Hfile, Htruthy, Hkey. simpl.
  rewrite Hne. simpl. fold req. rewrite Hfetch. simpl. rewrite Hok, Hjson. simpl.
  unfold Ocr.read_ocrData. rewrite HisErr. simpl. rewrite Hfalsy, Hparsed. simpl.
  unfold no_parsed_results in Hnone.
  destruct (truthy parsedResults) eqn:Ht; simpl in *.
  - destruct parsedResults as [[ | b | r | s | [|x items] | fields] | ];
      try discriminate Hnone. reflexivity.
  - reflexivity.
Qed.

Lemma no_parsed_results_sentinel_witness :
  Ocr.POST (ocr_world (JObj [(js "ParsedResults", JArr []);
                             (js "IsErroredOnProcessing", JBool false)])) =
    ([Ocr.ReadForm;
      Ocr.Fetch (Ocr.mk_request (Ocr.FormFile (js "problem.png") [137; 80; 78; 71]%N)
                   (js "key") (Ocr.FormString (js "eng")) (js "false"))],
     Return (NextResponse_json
               (JObj [(js "extractedText", JStr (js "No text found in image."));
                      (js "ocrData",
                       JObj [(js "ParsedResults", JArr []);
                             (js "IsErroredOnProcessing", JBool false)])])
               200)).
Proof.
  apply (no_parsed_results_sentinel
           (ocr_world (JObj [(js "ParsedResults", JArr []);
                             (js "IsErroredOnProcessing", JBool false)]))
           (Ocr.mk_form (Some (Ocr.FormFile (js "problem.png") [137; 80; 78; 71]%N)) None)
           (Ocr.FormFile (js "problem.png") [137; 80; 78; 71]%N) (js "key")
           (Ocr.mk_fetch_response true 200
              (inr (JObj [(js "ParsedResults", JArr []);
                          (js "IsErroredOnProcessing", JBool false)])))
           (JObj [(js "ParsedResults", JArr []);
                  (js "IsErroredOnProcessing", JBool false)])
           (Some (JBool false)) (Some (JArr [])));
    reflexivity.
Defined.

(** C9, as stated, fails: a successful answer whose only parsed result
    has an empty text is passed on as the empty string, not as the
    sentinel. *)
Lemma empty_text_not_sentinel :
  response_of (Ocr.POST (ocr_world blank_image_data)) =
    Some (NextResponse_json (JObj [(js "extractedText", JStr [])]) 200).
Proof. vm_compute. reflexivity. Qed.

(* ===================================================================== *)
(** * Further properties of the handlers *)
(* ===================================================================== *)

Import Behaviour Scenarios.

(* ===================================================================== *)
(** ** executePython: the first event that is not data decides *)
(* ===================================================================== *)

Lemma executePython_first_event (output : list Visualize.process_event)
    (ev : Visualize.process_event) (later : list Visualize.process_event) :
  forallb is_data output = true ->
  is_data ev = false ->
  Visualize.executePython (inr (output ++ ev :: later)) =
    Visualize.settled
      (Visualize.on_event
         (Visualize.mk_executor (captured_stdout output) (captured_stderr output)
                                Visualize.Unsettled)
         ev).
Proof.
  intros Hdata Hev. unfold Visualize.executePython.
  rewrite fold_left_app, (data_events_captured _ _ Hdata). simpl fold_left.
  rewrite settled_stays; [reflexivity |].
  destruct ev as [chunk | chunk | [[ | p | p] | ] | err];
    try discriminate Hev; simpl; discriminate.
Qed.

(** A sequence of events is all data, or some data followed by a first
    ['close'] or ['error']. *)
Lemma events_split (events : list Visualize.process_event) :
  forallb is_data events = true
  \/ exists output ev later,
       events = output ++ ev :: later
       /\ forallb is_data output = true
       /\ is_data ev = false.
Proof.
  induction events as [|ev events [IH | [output [ev' [later [-> [Hdata Hev]]]]]]].
  - left. reflexivity.
  - destruct (is_data ev) eqn:Hev.
    + left. simpl. rewrite Hev, IH. reflexivity.
    + right. exists [], ev, events. repeat split; auto.
  - destruct (is_data ev) eqn:Hev0.
    + right. exists (ev :: output), ev', later. repeat split; auto.
      simpl. rewrite Hev0, Hdata. reflexivity.
    + right. exists [], ev, (output ++ ev' :: later). repeat split; auto.
Qed.

(** X10.  The promise stays pending exactly when the process emits neither
    ['close'] nor ['error']. *)
Theorem executePython_unsettled (events : list Visualize.process_event) :
  Visualize.executePython (inr events) = Visualize.Unsettled
  <-> forallb is_data events = true.
Proof.
  split.
  - intros Hpending.
    destruct (events_split events) as [H | [output [ev [later [-> [Hdata Hev]]]]]];
      [exact H |].
    rewrite (executePython_first_event output ev later Hdata Hev) in Hpending.
    destruct ev as [chunk | chunk | [[ | p | p] | ] | err];
      try discriminate Hev; simpl in Hpending; discriminate Hpending.
  - intros Hdata. unfold Visualize.executePython.
    rewrite (data_events_captured _ _ Hdata). reflexivity.
Qed.

Lemma executePython_unsettled_witness :
  Visualize.executePython
    (inr [Visualize.stdout_data (js "working"); Visualize.stderr_data (js "still working")])
  = Visualize.Unsettled.
Proof.
  apply (proj2 (executePython_unsettled
                  [Visualize.stdout_data (js "working");
                   Visualize.stderr_data (js "still working")])).
  reflexivity.
Defined.

(** X11.  An ['error'] event before any ['close'] rejects the promise with the
    message of the error, and a ['close'] by a signal (exit code [null])
    rejects it like a non-zero exit code; what comes later changes
    nothing. *)
Theorem executePython_error_or_signal (output later : list Visualize.process_event)
    (err : js_error) :
  forallb is_data output = true ->
  Visualize.executePython (inr (output ++ Visualize.error err :: later)) =
    Visualize.Rejected
      (mk_error (js "Error") (js "Failed to start Python process: " ++ error_message err))
  /\ Visualize.executePython (inr (output ++ Visualize.close None :: later)) =
       Visualize.Rejected
         (mk_error (js "Error")
            (js "Python script execution failed with code null: "
               ++ captured_stderr output)).
Proof.
  intros Hdata. split.
  - rewrite (executePython_first_event output (Visualize.error err) later Hdata eq_refl).
    reflexivity.
  - rewrite (executePython_first_event output (Visualize.close None) later Hdata eq_refl).
    reflexivity.
Qed.

Lemma executePython_error_or_signal_witness :
  Visualize.executePython
    (inr ([Visualize.stdout_data (js "drawing")]
          ++ Visualize.error (Visualize.Error (js "kill EPERM"))
          :: [Visualize.close None])) =
    Visualize.Rejected (mk_error (js "Error") (js "Failed to start Python process: kill EPERM"))
  /\ Visualize.executePython
       (inr ([Visualize.stdout_data (js "drawing")]
             ++ Visualize.close None :: [Visualize.close None])) =
       Visualize.Rejected
         (mk_error (js "Error") (js "Python script execution failed with code null: ")).
Proof.
  apply (executePython_error_or_signal
           [Visualize.stdout_data (js "drawing")] [Visualize.close None]
           (Visualize.Error (js "kill EPERM"))).
  reflexivity.
Defined.

(* ===================================================================== *)
(** ** The visualize handler: the stages one after the other *)
(* ===================================================================== *)

(** What the model-and-interpreter stage does, case by case: it answers
    with an error envelope after the model call alone, or it spawns the
    interpreter on the cleaned text of the model and answers from the
    promise of [executePython]. *)
Lemma generate_and_run_cases (w : Visualize.world) (prompt : jsstring) :
  (exists r,
     Visualize.generate_and_run w prompt
       = ([Visualize.GenerateContent prompt], Return r)
     /\ is_ErrorEnvelope r = true
     /\ (status r = 400 \/ status r = 422 \/ status r = 500))
  \/ (exists response generatedCode,
        Visualize.generateContent w prompt = inr (Some response)
        /\ truthy (option_map JStr (Visualize.response_blockReason response)) = false
        /\ Visualize.text response = inr generatedCode
        /\ Js.eqb (trim generatedCode) [] = false
        /\ startsWith generatedCode Visualize.REFUSAL_PREFIX = false
        /\ Visualize.generate_and_run w prompt
           = ([Visualize.GenerateContent prompt;
               Visualize.SpawnPython (Visualize.cleanedCode generatedCode)],
              match Visualize.executePython
                      (Visualize.python w (Visualize.cleanedCode generatedCode)) with
              | Visualize.Resolved output =>
                  Return (Visualize.extract_response output)
              | Visualize.Rejected reason =>
                  Return (NextResponse_json
                            (JObj [(js "error",
                                    JStr (js "Error executing visualization script"));
                                   (js "details", JStr (error_message reason))])
                            500)
              | Visualize.Unsettled => Pending
              end)).
Proof.
  unfold Visualize.generate_and_run, Visualize.await_executePython.
  destruct (Visualize.generateContent w prompt) as [e | [response|]]; simpl;
    [left; eexists; repeat split; auto | | left; eexists; repeat split; auto].
  destruct (truthy (option_map JStr (Visualize.response_blockReason response)))
    eqn:Hblock.
  { destruct (Visualize.promptFeedback response); simpl;
      left; eexists; repeat split; auto. }
  destruct (Visualize.text response) as [e | code] eqn:Htext; simpl;
    [left; eexists; repeat split; auto |].
  destruct (Js.eqb (trim code) []) eqn:Hblank;
    [rewrite orb_true_r; simpl; left; eexists; repeat split; auto |].
  rewrite orb_false_r.
  destruct (negb (negb (Js.eqb code []))); simpl;
    [left; eexists; repeat split; auto |].
  destruct (startsWith code Visualize.REFUSAL_PREFIX) eqn:Hprefix; simpl;
    [left; eexists; repeat split; auto |].
  right. exists response, code. repeat split; auto.
  destruct (Visualize.executePython _); reflexivity.
Qed.

(** The response built from the script output is a payload or the 500
    envelope. *)
Lemma extract_response_shape (pythonOutput : jsstring) :
  (exists image,
     Visualize.imageBase64 pythonOutput = Some image
     /\ Visualize.extract_response pythonOutput
        = NextResponse_json (JObj [(js "imageBase64", JStr image)]) 200)
  \/ (Visualize.imageBase64 pythonOutput = None
      /\ status (Visualize.extract_response pythonOutput) = 500
      /\ is_ErrorEnvelope (Visualize.extract_response pythonOutput) = true).
Proof.
  unfold Visualize.extract_response.
  destruct (Visualize.imageBase64 pythonOutput) as [image|].
  - left. exists image. split; reflexivity.
  - right. repeat split; reflexivity.
Qed.

(** The handler, case by case: it answers before the model is called, or
    it hands a validated problem text to the model-and-interpreter
    stage. *)
Lemma POST_cases (w : Visualize.world) :
  (exists r,
     (Visualize.POST w = ([], Return r) \/ Visualize.POST w = ([Visualize.ReadBody], Return r))
     /\ is_ErrorEnvelope r = true
     /\ (status r = 400 \/ status r = 500))
  \/ (exists raw body text,
        configured w = true
        /\ Visualize.request_text w = inr raw
        /\ Visualize.JSON_parse w raw = inr body
        /\ get (Some body) (js "problemText") = inr (Some (JStr text))
        /\ Js.eqb (trim text) [] = false
        /\ Visualize.POST w =
             (Visualize.ReadBody
                :: fst (Visualize.generate_and_run w (Visualize.fullPrompt text)),
              snd (Visualize.generate_and_run w (Visualize.fullPrompt text)))).
Proof.
  destruct (configured w) eqn:Hconfigured.
  2:{ left. unfold Visualize.POST. unfold configured in Hconfigured.
      rewrite Hconfigured. simpl.
      eexists; split; [left; reflexivity | split; [reflexivity | auto]]. }
  destruct (Visualize.request_text w) as [e | raw] eqn:Hread.
  { left. unfold Visualize.POST. unfold configured in Hconfigured.
    rewrite Hconfigured, Hread. simpl.
    eexists; split; [right; reflexivity | split; [reflexivity | auto]]. }
  destruct (Visualize.JSON_parse w raw) as [e | body] eqn:Hparse.
  { left. unfold Visualize.POST. unfold configured in Hconfigured.
    rewrite Hconfigured, Hread. simpl. rewrite Hparse. simpl.
    eexists; split; [right; reflexivity | split; [reflexivity | auto]]. }
  destruct (get (Some body) (js "problemText")) as [e | problemText] eqn:Hget.
  { left. rewrite (POST_parsed w raw body Hconfigured Hread Hparse). simpl.
    rewrite Hget. simpl.
    eexists; split; [right; reflexivity | split; [reflexivity | auto]]. }
  destruct (problemText_is_blank problemText) eqn:Hblank.
  - left. rewrite (POST_parsed w raw body Hconfigured Hread Hparse). simpl.
    rewrite Hget. simpl.
    destruct problemText as [[ | b | r | text | items | fields] | ]; simpl;
      try (eexists; split; [right; reflexivity | split; [reflexivity | auto]]; fail).
    simpl in Hblank. rewrite Hblank, orb_true_r.
    eexists; split; [right; reflexivity | split; [reflexivity | auto]].
  - right. destruct problemText as [[ | b | r | text | items | fields] | ];
      try discriminate Hblank.
    exists raw, body, text. repeat split; auto.
    apply (POST_valid w raw body Hconfigured Hread Hparse text Hget Hblank).
Qed.

(** The stage that calls the model and runs its text answers 422 in one
    place only: for a text that begins with the refusal prefix, read
    from a response without a block reason. *)
Lemma generate_and_run_422 (w : Visualize.world) (prompt : jsstring) (r : response) :
  snd (Visualize.generate_and_run w prompt) = Return r ->
  status r = 422 ->
  exists response generatedCode,
    Visualize.generateContent w prompt = inr (Some response)
    /\ truthy (option_map JStr (Visualize.response_blockReason response)) = false
    /\ Visualize.text response = inr generatedCode
    /\ startsWith generatedCode Visualize.REFUSAL_PREFIX = true
    /\ r = NextResponse_json
             (JObj [(js "error", JStr (js "Problem cannot be visualized by AI"));
                    (js "details", JStr generatedCode)])
             422.
Proof.
  unfold Visualize.generate_and_run, Visualize.await_executePython.
  destruct (Visualize.generateContent w prompt) as [e | [response|]]; simpl;
    [intros Hr; injection Hr as <-; discriminate | |
     intros Hr; injection Hr as <-; discriminate].
  destruct (truthy (option_map JStr (Visualize.response_blockReason response)))
    eqn:Hblock.
  { destruct (Visualize.promptFeedback response); simpl;
      intros Hr; injection Hr as <-; discriminate. }
  destruct (Visualize.text response) as [e | code] eqn:Htext; simpl;
    [intros Hr; injection Hr as <-; discriminate |].
  destruct (negb (negb (Js.eqb code [])) || Js.eqb (trim code) []); simpl;
    [intros Hr; injection Hr as <-; discriminate |].
  destruct (startsWith code Visualize.REFUSAL_PREFIX) eqn:Hprefix; simpl.
  - intros Hr _. injection Hr as <-. exists response, code. repeat split; auto.
  - destruct (Visualize.executePython _) as [ | output | reason]; simpl;
      intros Hr H422; try discriminate Hr; injection Hr as <-.
    + exfalso.
      destruct (extract_response_shape output) as [[image [_ Hresp]] | [_ [Hst _]]].
      * rewrite Hresp in H422. discriminate H422.
      * rewrite Hst in H422. discriminate H422.
    + discriminate H422.
Qed.

(** C4, as amended.  When the model response carries a block reason, the
    handler answers 400, the status of bad input (not 422 and not 500),
    with the reason in the error message and the prompt feedback as
    details; the generated text is not read and no process is spawned.
    A 422 is answered only for a generated text that begins with
    [ERROR:CANNOT_VISUALIZE:], read from a response that carries no block
    reason. *)
Theorem blocked_prompt_400 (w : Visualize.world) :
  (forall (raw : jsstring) (body : json) (text : jsstring)
          (response : Visualize.model_response)
          (feedback : Visualize.prompt_feedback) (reason : jsstring),
     configured w = true ->
     Visualize.request_text w = inr raw ->
     Visualize.JSON_parse w raw = inr body ->
     get (Some body) (js "problemText") = inr (Some (JStr text)) ->
     Js.eqb (trim text) [] = false ->
     Visualize.generateContent w (Visualize.fullPrompt text) = inr (Some response) ->
     Visualize.promptFeedback response = Some feedback ->
     Visualize.blockReason feedback = Some reason ->
     Js.eqb reason [] = false ->
     Visualize.POST w =
       ([Visualize.ReadBody; Visualize.GenerateContent (Visualize.fullPrompt text)],
        Return (NextResponse_json
                  (JObj [(js "error", JStr (js "Content blocked: " ++ reason));
                         (js "details", Visualize.feedback_json feedback)])
                  400)))
  /\ (forall r : response,
        snd (Visualize.POST w) = Return r ->
        status r = 422 ->
        exists text response generatedCode,
          Visualize.generateContent w (Visualize.fullPrompt text) = inr (Some response)
          /\ truthy (option_map JStr (Visualize.response_blockReason response)) = false
          /\ Visualize.text response = inr generatedCode
          /\ startsWith generatedCode Visualize.REFUSAL_PREFIX = true
          /\ Visualize.POST w =
               ([Visualize.ReadBody;
                 Visualize.GenerateContent (Visualize.fullPrompt text)],
                Return (NextResponse_json
                          (JObj [(js "error",
                                  JStr (js "Problem cannot be visualized by AI"));
                                 (js "details", JStr generatedCode)])
                          422))).
Proof.
  split.
  - intros raw body text response feedback reason
           Hconfigured Hread Hparse Hget Htrim Hgen Hfb Hreason Hne.
    exact (blocked_prompt_answer w raw body Hconfigured Hread Hparse
             text response feedback reason Hget Htrim Hgen Hfb Hreason Hne).
  - intros r Hr H422.
    destruct (POST_cases w)
      as [[r' [[H | H] [_ Hst]]]
         | [raw [body [text [Hconfigured [Hread [Hparse [Hget [Hblank H]]]]]]]]].
    + rewrite H in Hr. simpl in Hr. injection Hr as <-. lia.
    + rewrite H in Hr. simpl in Hr. injection Hr as <-. lia.
    + rewrite H in Hr. simpl in Hr.
      destruct (generate_and_run_422 w (Visualize.fullPrompt text) r Hr H422)
        as [response [code [Hgen [Hblock [Htext [Hprefix ->]]]]]].
      exists text, response, code. repeat split; auto.
      exact (refusal_answer w raw body Hconfigured Hread Hparse
               text response code Hget Hblank Hgen Hblock Htext Hprefix).
Qed.

Lemma blocked_prompt_400_witness :
  Visualize.POST blocked_world =
    ([Visualize.ReadBody;
      Visualize.GenerateContent (Visualize.fullPrompt (js "circle radius 5"))],
     Return (NextResponse_json
               (JObj [(js "error", JStr (js "Content blocked: SAFETY"));
                      (js "details", JObj [(js "blockReason", JStr (js "SAFETY"))])])
               400))
  /\ exists text response generatedCode,
       Visualize.generateContent refused_world (Visualize.fullPrompt text)
       = inr (Some response)
       /\ truthy (option_map JStr (Visualize.response_blockReason response)) = false
       /\ Visualize.text response = inr generatedCode
       /\ startsWith generatedCode Visualize.REFUSAL_PREFIX = true
       /\ Visualize.POST refused_world =
            ([Visualize.ReadBody;
              Visualize.GenerateContent (Visualize.fullPrompt text)],
             Return (NextResponse_json
                       (JObj [(js "error",
                               JStr (js "Problem cannot be visualized by AI"));
                              (js "details", JStr generatedCode)])
                       422)).
Proof.
  split.
  - apply (proj1 (blocked_prompt_400 blocked_world) (js "{...}")
             (JObj [(js "problemText", JStr (js "circle radius 5"))])
             (js "circle radius 5")
             (Visualize.mk_response
                (Some (Visualize.mk_feedback (Some (js "SAFETY")) []))
                (inl (Visualize.Error (js "Text not available."))))
             (Visualize.mk_feedback (Some (js "SAFETY")) []) (js "SAFETY"));
      reflexivity.
  - apply (proj2 (blocked_prompt_400 refused_world)
             (NextResponse_json
                (JObj [(js "error", JStr (js "Problem cannot be visualized by AI"));
                       (js "details",
                        JStr (js "ERROR:CANNOT_VISUALIZE: not a geometry problem"))])
                422)).
    + vm_compute. reflexivity.
    + reflexivity.
Defined.

(** X1.  The interpreter is spawned only after the model was called, the
    model only after the body was read, and each of the three at most
    once: the effects of a request are a prefix of reading the body,
    calling the model, spawning the interpreter. *)
Theorem effects_in_order (w : Visualize.world) :
  exists prompt code,
    fst (Visualize.POST w) = []
    \/ fst (Visualize.POST w) = [Visualize.ReadBody]
    \/ fst (Visualize.POST w)
       = [Visualize.ReadBody; Visualize.GenerateContent prompt]
    \/ fst (Visualize.POST w)
       = [Visualize.ReadBody; Visualize.GenerateContent prompt;
          Visualize.SpawnPython code].
Proof.
  destruct (POST_cases w)
    as [[r [[H | H] _]] | [raw [body [text [_ [_ [_ [_ [_ H]]]]]]]]].
  - exists [], []. left. rewrite H. reflexivity.
  - exists [], []. right; left. rewrite H. reflexivity.
  - destruct (generate_and_run_cases w (Visualize.fullPrompt text))
      as [[r [Hrun _]] | [response [code [_ [_ [_ [_ [_ Hrun]]]]]]]];
      rewrite H, Hrun; simpl.
    + exists (Visualize.fullPrompt text), []. right; right; left. reflexivity.
    + exists (Visualize.fullPrompt text), (Visualize.cleanedCode code).
      right; right; right. reflexivity.
Qed.

(** X2.  The handler only ever answers with status 200, 400, 422 or 500. *)
Theorem status_codes (w : Visualize.world) (r : response) :
  snd (Visualize.POST w) = Return r ->
  status r = 200 \/ status r = 400 \/ status r = 422 \/ status r = 500.
Proof.
  intros Hr.
  destruct (POST_cases w)
    as [[r' [[H | H] [_ Hst]]] | [raw [body [text [_ [_ [_ [_ [_ H]]]]]]]]].
  - rewrite H in Hr. simpl in Hr. injection Hr as <-. tauto.
  - rewrite H in Hr. simpl in Hr. injection Hr as <-. tauto.
  - rewrite H in Hr. simpl in Hr.
    destruct (generate_and_run_cases w (Visualize.fullPrompt text))
      as [[r' [Hrun [_ Hst]]] | [response [code [_ [_ [_ [_ [_ Hrun]]]]]]]];
      rewrite Hrun in Hr; simpl in Hr.
    + injection Hr as <-. tauto.
    + destruct (Visualize.executePython _) as [ | output | reason];
        try discriminate Hr; injection Hr as <-.
      * destruct (extract_response_shape output) as [[image [_ ->]] | [_ [-> _]]];
          simpl; tauto.
      * simpl. tauto.
Qed.

Lemma status_codes_witness :
  200 = 200 \/ 200 = 400 \/ 200 = 422 \/ 200 = 500.
Proof.
  apply (status_codes circle_world
           (NextResponse_json (JObj [(js "imageBase64", JStr (js "iVBORw0..."))]) 200)).
  vm_compute. reflexivity.
Defined.

(** X3.  A 200 is only ever answered from a run of the interpreter that
    resolved: the body was read and parsed, its [problemText] is a string
    that is not empty after trimming, the model was called with the
    prompt of that text and answered a response without a block reason
    whose text is not blank and does not begin with the refusal prefix,
    the cleaned text of the model was run, and the image is what stands
    between the markers of the output. *)
Theorem success_comes_from_a_run (w : Visualize.world) (r : response) :
  snd (Visualize.POST w) = Return r ->
  status r = 200 ->
  exists raw body text response generatedCode output image,
    Visualize.request_text w = inr raw
    /\ Visualize.JSON_parse w raw = inr body
    /\ get (Some body) (js "problemText") = inr (Some (JStr text))
    /\ Js.eqb (trim text) [] = false
    /\ Visualize.generateContent w (Visualize.fullPrompt text) = inr (Some response)
    /\ truthy (option_map JStr (Visualize.response_blockReason response)) = false
    /\ Visualize.text response = inr generatedCode
    /\ Js.eqb (trim generatedCode) [] = false
    /\ startsWith generatedCode Visualize.REFUSAL_PREFIX = false
    /\ fst (Visualize.POST w)
       = [Visualize.ReadBody;
          Visualize.GenerateContent (Visualize.fullPrompt text);
          Visualize.SpawnPython (Visualize.cleanedCode generatedCode)]
    /\ Visualize.executePython
         (Visualize.python w (Visualize.cleanedCode generatedCode))
       = Visualize.Resolved output
    /\ Visualize.imageBase64 output = Some image
    /\ r = NextResponse_json (JObj [(js "imageBase64", JStr image)]) 200.
Proof.
  intros Hr Hok.
  destruct (POST_cases w)
    as [[r' [[H | H] [_ Hst]]]
       | [raw [body [text [_ [Hread [Hparse [Hget [Hblank H]]]]]]]]].
  - rewrite H in Hr. simpl in Hr. injection Hr as <-. lia.
  - rewrite H in Hr. simpl in Hr. injection Hr as <-. lia.
  - rewrite H in Hr. simpl in Hr. rewrite H. simpl fst.
    destruct (generate_and_run_cases w (Visualize.fullPrompt text))
      as [[r' [Hrun [_ Hst]]]
         | [response [code [Hgen [Hblock [Htext [Hcode [Hprefix Hrun]]]]]]]];
      rewrite Hrun in Hr |- *; simpl in Hr.
    + injection Hr as <-. lia.
    + destruct (Visualize.executePython _) as [ | output | reason] eqn:Hpy;
        try discriminate Hr; injection Hr as <-.
      * destruct (extract_response_shape output) as [[image [Himg Hresp]] | [_ [Hst _]]].
        -- exists raw, body, text, response, code, output, image.
           repeat split; auto.
        -- lia.
      * simpl in Hok. lia.
Qed.

Lemma success_comes_from_a_run_witness :
  exists raw body text response generatedCode output image,
    Visualize.request_text circle_world = inr raw
    /\ Visualize.JSON_parse circle_world raw = inr body
    /\ get (Some body) (js "problemText") = inr (Some (JStr text))
    /\ Js.eqb (trim text) [] = false
    /\ Visualize.generateContent circle_world (Visualize.fullPrompt text)
       = inr (Some response)
    /\ truthy (option_map JStr (Visualize.response_blockReason response)) = false
    /\ Visualize.text response = inr generatedCode
    /\ Js.eqb (trim generatedCode) [] = false
    /\ startsWith generatedCode Visualize.REFUSAL_PREFIX = false
    /\ fst (Visualize.POST circle_world)
       = [Visualize.ReadBody;
          Visualize.GenerateContent (Visualize.fullPrompt text);
          Visualize.SpawnPython (Visualize.cleanedCode generatedCode)]
    /\ Visualize.executePython
         (Visualize.python circle_world (Visualize.cleanedCode generatedCode))
       = Visualize.Resolved output
    /\ Visualize.imageBase64 output = Some image
    /\ NextResponse_json (JObj [(js "imageBase64", JStr (js "iVBORw0..."))]) 200
       = NextResponse_json (JObj [(js "imageBase64", JStr image)]) 200.
Proof.
  apply (success_comes_from_a_run circle_world
           (NextResponse_json (JObj [(js "imageBase64", JStr (js "iVBORw0..."))]) 200)).
  - vm_compute. reflexivity.
  - reflexivity.
Defined.

(** X4.  A body that cannot be read or is not JSON is answered with 400 and
    the message of the exception, after the body read alone. *)
Theorem invalid_json_400 (w : Visualize.world) (e : js_error) :
  configured w = true ->
  Visualize.request_text w = inl e
  \/ (exists raw, Visualize.request_text w = inr raw
                  /\ Visualize.JSON_parse w raw = inl e) ->
  Visualize.POST w =
    ([Visualize.ReadBody],
     Return (NextResponse_json
               (JObj [(js "error", JStr (js "Invalid JSON in request body"));
                      (js "details", JStr (error_message e))])
               400)).
Proof.
  intros Hconfigured [Hread | [raw [Hread Hparse]]];
    unfold Visualize.POST; unfold configured in Hconfigured;
    rewrite Hconfigured, Hread; simpl; [| rewrite Hparse]; reflexivity.
Qed.

Lemma invalid_json_400_witness :
  Visualize.POST malformed_body_world =
    ([Visualize.ReadBody],
     Return (NextResponse_json
               (JObj [(js "error", JStr (js "Invalid JSON in request body"));
                      (js "details",
                       JStr (js "Unexpected token c in JSON at position 1"))])
               400)).
Proof.
  apply (invalid_json_400 malformed_body_world
           (mk_error (js "SyntaxError") (js "Unexpected token c in JSON at position 1"))
           eq_refl).
  right. exists (js "{...}"). split; reflexivity.
Defined.

Section Pipeline.

Variable w : Visualize.world.
Variable raw : jsstring.
Variable body : json.
Variable text : jsstring.

Hypothesis Hconfigured : configured w = true.
Hypothesis Hread : Visualize.request_text w = inr raw.
Hypothesis Hparse : Visualize.JSON_parse w raw = inr body.
Hypothesis Hget : get (Some body) (js "problemText") = inr (Some (JStr text)).
Hypothesis Htrim : Js.eqb (trim text) [] = false.

(** X5.  An exception of the SDK, thrown by the call itself or by
    [response.text()], is answered with 500 and its message; nothing is
    spawned. *)
Theorem model_exception_500 (e : js_error) :
  Visualize.generateContent w (Visualize.fullPrompt text) = inl e
  \/ (exists response,
        Visualize.generateContent w (Visualize.fullPrompt text) = inr (Some response)
        /\ truthy (option_map JStr (Visualize.response_blockReason response)) = false
        /\ Visualize.text response = inl e) ->
  Visualize.POST w =
    ([Visualize.ReadBody; Visualize.GenerateContent (Visualize.fullPrompt text)],
     Return (NextResponse_json
               (JObj [(js "error", JStr (js "Error calling Gemini API"));
                      (js "details", JStr (error_message e))])
               500)).
Proof.
  intros H. rewrite (POST_valid w raw body Hconfigured Hread Hparse text Hget Htrim).
  unfold Visualize.generate_and_run.
  destruct H as [Hgen | [response [Hgen [Hblock Htext]]]]; rewrite Hgen; simpl.
  - reflexivity.
  - rewrite Hblock, Htext. reflexivity.
Qed.

(** X6.  A model that returns no response object, or a text that is empty
    after trimming, is answered with 500; nothing is spawned. *)
Theorem empty_generation_500 :
  (Visualize.generateContent w (Visualize.fullPrompt text) = inr None ->
   Visualize.POST w =
     ([Visualize.ReadBody; Visualize.GenerateContent (Visualize.fullPrompt text)],
      Return (NextResponse_json
                (JObj [(js "error", JStr (js "AI model returned an empty response"))])
                500)))
  /\ (forall response generatedCode,
        Visualize.generateContent w (Visualize.fullPrompt text) = inr (Some response) ->
        truthy (option_map JStr (Visualize.response_blockReason response)) = false ->
        Visualize.text response = inr generatedCode ->
        Js.eqb (trim generatedCode) [] = true ->
        Visualize.POST w =
          ([Visualize.ReadBody; Visualize.GenerateContent (Visualize.fullPrompt text)],
           Return (NextResponse_json
                     (JObj [(js "error", JStr (js "Empty response from AI"))])
                     500))).
Proof.
  split.
  - intros Hgen.
    rewrite (POST_valid w raw body Hconfigured Hread Hparse text Hget Htrim).
    unfold Visualize.generate_and_run. rewrite Hgen. reflexivity.
  - intros response code Hgen Hblock Htext Hblank.
    rewrite (POST_valid w raw body Hconfigured Hread Hparse text Hget Htrim).
    unfold Visualize.generate_and_run. rewrite Hgen. simpl.
    rewrite Hblock, Htext. simpl. rewrite Hblank, orb_true_r. reflexivity.
Qed.

Variable response : Visualize.model_response.
Variable generatedCode : jsstring.

Hypothesis Hgenerate :
  Visualize.generateContent w (Visualize.fullPrompt text) = inr (Some response).
Hypothesis Hunblocked :
  truthy (option_map JStr (Visualize.response_blockReason response)) = false.
Hypothesis Htext : Visualize.text response = inr generatedCode.
Hypothesis Hcode : Js.eqb (trim generatedCode) [] = false.
Hypothesis Hnot_refused : startsWith generatedCode Visualize.REFUSAL_PREFIX = false.

(** A generated text that is neither blank nor a refusal is cleaned and
    run, and the answer is read off the promise of [executePython]. *)
Lemma POST_run :
  Visualize.POST w =
    ([Visualize.ReadBody;
      Visualize.GenerateContent (Visualize.fullPrompt text);
      Visualize.SpawnPython (Visualize.cleanedCode generatedCode)],
     match Visualize.executePython
             (Visualize.python w (Visualize.cleanedCode generatedCode)) with
     | Visualize.Resolved output => Return (Visualize.extract_response output)
     | Visualize.Rejected reason =>
         Return (NextResponse_json
                   (JObj [(js "error", JStr (js "Error executing visualization script"));
                          (js "details", JStr (error_message reason))])
                   500)
     | Visualize.Unsettled => Pending
     end).
Proof.
  rewrite (POST_valid w raw body Hconfigured Hread Hparse text Hget Htrim).
  unfold Visualize.generate_and_run, Visualize.await_executePython.
  rewrite Hgenerate. simpl. rewrite Hunblocked, Htext. simpl.
  assert (Hne : Js.eqb generatedCode [] = false).
  { destruct generatedCode; [discriminate Hcode | reflexivity]. }
  rewrite Hne, Hcode, Hnot_refused. simpl.
  destruct (Visualize.executePython _); reflexivity.
Qed.

(** X7.  The stages compose: when the interpreter, run on the cleaned text of
    the model, exits with code 0, the answer is the response the
    extractor builds from everything the script wrote to stdout. *)
Theorem pipeline_success (output later : list Visualize.process_event) :
  Visualize.python w (Visualize.cleanedCode generatedCode)
    = inr (output ++ Visualize.close (Some 0) :: later) ->
  forallb is_data output = true ->
  Visualize.POST w =
    ([Visualize.ReadBody;
      Visualize.GenerateContent (Visualize.fullPrompt text);
      Visualize.SpawnPython (Visualize.cleanedCode generatedCode)],
     Return (Visualize.extract_response (captured_stdout output))).
Proof.
  intros Hpython Hdata. rewrite POST_run, Hpython.
  rewrite (executePython_first_event output (Visualize.close (Some 0)) later Hdata eq_refl).
  reflexivity.
Qed.

(** X8.  When the interpreter exits with a non-zero code, the answer is the
    500 envelope whose details are the exit code followed by everything
    the script wrote to stderr. *)
Theorem script_failure_500 (output later : list Visualize.process_event)
    (exitCode : Z) :
  Visualize.python w (Visualize.cleanedCode generatedCode)
    = inr (output ++ Visualize.close (Some exitCode) :: later) ->
  forallb is_data output = true ->
  exitCode <> 0 ->
  Visualize.POST w =
    ([Visualize.ReadBody;
      Visualize.GenerateContent (Visualize.fullPrompt text);
      Visualize.SpawnPython (Visualize.cleanedCode generatedCode)],
     Return (NextResponse_json
               (JObj [(js "error", JStr (js "Error executing visualization script"));
                      (js "details",
                       JStr (js "Python script execution failed with code "
                               ++ number_toString exitCode ++ js ": "
                               ++ captured_stderr output))])
               500)).
Proof.
  intros Hpython Hdata Hcode'. rewrite POST_run, Hpython.
  rewrite (executePython_first_event output (Visualize.close (Some exitCode)) later
             Hdata eq_refl).
  destruct exitCode; [congruence | reflexivity | reflexivity].
Qed.

(** X9.  When the interpreter cannot be started, by an exception of [spawn]
    or by an ['error'] event before any ['close'], the answer is the 500
    envelope with the message of the failure. *)
Theorem spawn_failure_500 :
  (forall thrown,
     Visualize.python w (Visualize.cleanedCode generatedCode) = inl thrown ->
     Visualize.POST w =
       ([Visualize.ReadBody;
         Visualize.GenerateContent (Visualize.fullPrompt text);
         Visualize.SpawnPython (Visualize.cleanedCode generatedCode)],
        Return (NextResponse_json
                  (JObj [(js "error", JStr (js "Error executing visualization script"));
                         (js "details", JStr (error_message thrown))])
                  500)))
  /\ (forall output err later,
        Visualize.python w (Visualize.cleanedCode generatedCode)
          = inr (output ++ Visualize.error err :: later) ->
        forallb is_data output = true ->
        Visualize.POST w =
          ([Visualize.ReadBody;
            Visualize.GenerateContent (Visualize.fullPrompt text);
            Visualize.SpawnPython (Visualize.cleanedCode generatedCode)],
           Return (NextResponse_json
                     (JObj [(js "error", JStr (js "Error executing visualization script"));
                            (js "details",
                             JStr (js "Failed to start Python process: "
                                     ++ error_message err))])
                     500))).
Proof.
  split.
  - intros thrown Hpython. rewrite POST_run, Hpython. reflexivity.
  - intros output err later Hpython Hdata. rewrite POST_run, Hpython.
    rewrite (executePython_first_event output (Visualize.error err) later Hdata eq_refl).
    reflexivity.
Qed.

End Pipeline.

Lemma model_exception_500_witness :
  Visualize.POST model_down_world =
    ([Visualize.ReadBody;
      Visualize.GenerateContent (Visualize.fullPrompt (js "circle radius 5"))],
     Return (NextResponse_json
               (JObj [(js "error", JStr (js "Error calling Gemini API"));
                      (js "details", JStr (js "fetch failed"))])
               500)).
Proof.
  apply (model_exception_500 model_down_world (js "{...}") circle_body
           (js "circle radius 5") eq_refl eq_refl eq_refl eq_refl eq_refl
           (Visualize.Error (js "fetch failed"))).
  left. reflexivity.
Defined.

Lemma empty_generation_500_witness :
  Visualize.POST silent_model_world =
    ([Visualize.ReadBody;
      Visualize.GenerateContent (Visualize.fullPrompt (js "circle radius 5"))],
     Return (NextResponse_json
               (JObj [(js "error", JStr (js "AI model returned an empty response"))])
               500))
  /\ Visualize.POST blank_generation_world =
       ([Visualize.ReadBody;
         Visualize.GenerateContent (Visualize.fullPrompt (js "circle radius 5"))],
        Return (NextResponse_json
                  (JObj [(js "error", JStr (js "Empty response from AI"))])
                  500)).
Proof.
  split.
  - apply (empty_generation_500 silent_model_world (js "{...}") circle_body
             (js "circle radius 5") eq_refl eq_refl eq_refl eq_refl eq_refl).
    reflexivity.
  - apply (proj2 (empty_generation_500 blank_generation_world (js "{...}") circle_body
                    (js "circle radius 5") eq_refl eq_refl eq_refl eq_refl eq_refl)
             (Visualize.mk_response None (inr (js "  "))) (js "  "));
      reflexivity.
Defined.

Lemma pipeline_success_witness :
  Visualize.POST circle_world =
    ([Visualize.ReadBody;
      Visualize.GenerateContent (Visualize.fullPrompt (js "circle radius 5"));
      Visualize.SpawnPython (js "print(1)")],
     Return (NextResponse_json (JObj [(js "imageBase64", JStr (js "iVBORw0..."))]) 200)).
Proof.
  apply (pipeline_success circle_world (js "{...}") circle_body (js "circle radius 5")
           eq_refl eq_refl eq_refl eq_refl eq_refl
           (Visualize.mk_response None (inr (js "```python
print(1)
```")))
           (js "```python
print(1)
```")
           eq_refl eq_refl eq_refl eq_refl eq_refl
           [Visualize.stdout_data (js "MATPLOTLIB_BASE64_START:iVBORw0");
            Visualize.stderr_data (js "UserWarning");
            Visualize.stdout_data (js "...:MATPLOTLIB_BASE64_END")]
           []);
    reflexivity.
Defined.

Lemma script_failure_500_witness :
  Visualize.POST failing_script_world =
    ([Visualize.ReadBody;
      Visualize.GenerateContent (Visualize.fullPrompt (js "circle radius 5"));
      Visualize.SpawnPython (js "print(x)")],
     Return (NextResponse_json
               (JObj [(js "error", JStr (js "Error executing visualization script"));
                      (js "details",
                       JStr (js "Python script execution failed with code 1: NameError: name 'x' is not defined"))])
               500)).
Proof.
  apply (script_failure_500 failing_script_world (js "{...}") circle_body
           (js "circle radius 5") eq_refl eq_refl eq_refl eq_refl eq_refl
           (Visualize.mk_response None (inr (js "print(x)"))) (js "print(x)")
           eq_refl eq_refl eq_refl eq_refl eq_refl
           [Visualize.stderr_data (js "NameError: name 'x' is not defined")] [] 1);
    [reflexivity | reflexivity | discriminate].
Defined.

Lemma spawn_failure_500_witness :
  Visualize.POST no_python_world =
    ([Visualize.ReadBody;
      Visualize.GenerateContent (Visualize.fullPrompt (js "circle radius 5"));
      Visualize.SpawnPython (js "print(1)")],
     Return (NextResponse_json
               (JObj [(js "error", JStr (js "Error executing visualization script"));
                      (js "details",
                       JStr (js "Failed to start Python process: spawn python ENOENT"))])
               500)).
Proof.
  apply (proj2 (spawn_failure_500 no_python_world (js "{...}") circle_body
                  (js "circle radius 5") eq_refl eq_refl eq_refl eq_refl eq_refl
                  (Visualize.mk_response None (inr (js "print(1)"))) (js "print(1)")
                  eq_refl eq_refl eq_refl eq_refl eq_refl)
           [] (Visualize.Error (js "spawn python ENOENT"))
           [Visualize.close (Some (-2))]);
    reflexivity.
Defined.

(* ===================================================================== *)
(** ** The sanitizer: what it removes and what it keeps *)
(* ===================================================================== *)

Lemma part_of_refl (s : jsstring) : part_of s s.
Proof. exists [], []. rewrite app_nil_r. reflexivity. Qed.

Lemma part_of_trans (a b c : jsstring) : part_of a b -> part_of b c -> part_of a c.
Proof.
  intros [p [q ->]] [p' [q' ->]]. exists (p' ++ p), (q ++ q').
  rewrite <- !app_assoc. reflexivity.
Qed.

Lemma part_of_suffix (p s : jsstring) : part_of s (p ++ s).
Proof. exists p, []. rewrite app_nil_r. reflexivity. Qed.

Lemma part_of_prefix (s q : jsstring) : part_of s (s ++ q).
Proof. exists [], q. reflexivity. Qed.

Lemma trimStart_part (s : jsstring) : part_of (trimStart s) s.
Proof.
  destruct (trimStart_suffix s) as [p Hp]. exists p, [].
  rewrite app_nil_r. exact Hp.
Qed.

Lemma trimEnd_part (s : jsstring) : part_of (trimEnd s) s.
Proof.
  destruct (trimEnd_prefix s) as [t Ht]. exists [], t. exact Ht.
Qed.

Lemma substring_from_part (s : jsstring) (k : Z) : part_of (substring_from s k) s.
Proof.
  unfold substring_from. exists (firstn (clamp s k) s), [].
  rewrite app_nil_r, firstn_skipn. reflexivity.
Qed.

Lemma substring_zero (s : jsstring) (k : Z) : substring s 0 k = firstn (clamp s k) s.
Proof.
  unfold substring. rewrite clamp_zero. simpl. rewrite Nat.sub_0_r. reflexivity.
Qed.

Lemma strip_trailing_fence_part (s : jsstring) :
  part_of (Visualize.strip_trailing_fence s) s.
Proof.
  unfold Visualize.strip_trailing_fence. destruct (endsWith s Visualize.FENCE).
  - eapply part_of_trans; [apply trimEnd_part |].
    rewrite substring_zero.
    exists [], (skipn (clamp s (Js.length s - Js.length Visualize.FENCE)) s).
    simpl. rewrite firstn_skipn. reflexivity.
  - apply part_of_refl.
Qed.

(** Splitting on a separator and joining with it gives the text back. *)
Lemma split_nonempty (sep : code_unit) (s : jsstring) : split sep s <> [].
Proof.
  destruct s as [|c s]; simpl; [discriminate|].
  destruct (N.eqb c sep); [discriminate|].
  destruct (split sep s); discriminate.
Qed.

Lemma join_split (sep : code_unit) (s : jsstring) : join [sep] (split sep s) = s.
Proof.
  induction s as [|c s IH]; [reflexivity|].
  simpl split. destruct (N.eqb c sep) eqn:Hc.
  - apply N.eqb_eq in Hc. subst c.
    pose proof (split_nonempty sep s) as Hne.
    destruct (split sep s) as [|l ls]; [congruence|].
    change (join [sep] ([] :: l :: ls)) with ([] ++ [sep] ++ join [sep] (l :: ls)).
    rewrite IH. reflexivity.
  - destruct (split sep s) as [|l ls].
    + simpl in IH. subst s. reflexivity.
    + destruct ls as [|l' ls]; simpl in *; rewrite <- IH; reflexivity.
Qed.

Lemma tail_lines_part (s : jsstring) :
  part_of (join [Visualize.LF] (tl (split Visualize.LF s))) s.
Proof.
  pose proof (join_split Visualize.LF s) as Hjs.
  pose proof (split_nonempty Visualize.LF s) as Hne.
  destruct (split Visualize.LF s) as [|l0 rest]; [congruence|].
  simpl tl. destruct rest as [|l1 rest].
  - exists s, []. simpl. rewrite app_nil_r. reflexivity.
  - rewrite <- Hjs.
    change (join [Visualize.LF] (l0 :: l1 :: rest))
      with (l0 ++ [Visualize.LF] ++ join [Visualize.LF] (l1 :: rest)).
    exists (l0 ++ [Visualize.LF]), []. rewrite app_nil_r, <- app_assoc. reflexivity.
Qed.

(** X12.  The sanitizer only drops text at the two ends: the code that is run
    is one contiguous part of the text the model generated, with nothing
    altered, added or removed inside it. *)
Theorem cleanedCode_part (generatedCode : jsstring) :
  part_of (Visualize.cleanedCode generatedCode) generatedCode.
Proof.
  unfold Visualize.cleanedCode.
  set (c0 := trim generatedCode).
  set (c1 := if startsWith c0 Visualize.FENCE_PYTHON
             then trimStart (substring_from c0 (Js.length Visualize.FENCE_PYTHON))
             else c0).
  set (c2 := Visualize.strip_trailing_fence c1).
  set (c3 := if Js.eqb (trim (hd [] (split Visualize.LF c2))) (js "python")
             then join [Visualize.LF] (tl (split Visualize.LF c2))
             else if Js.eqb (trim (hd [] (split Visualize.LF c2))) Visualize.FENCE_PYTHON
                  then join [Visualize.LF] (tl (split Visualize.LF c2))
                  else c2).
  assert (H0 : part_of c0 generatedCode).
  { unfold c0, trim. eapply part_of_trans; [apply trimEnd_part | apply trimStart_part]. }
  assert (H1 : part_of c1 c0).
  { unfold c1. destruct (startsWith c0 Visualize.FENCE_PYTHON).
    - eapply part_of_trans; [apply trimStart_part | apply substring_from_part].
    - apply part_of_refl. }
  assert (H2 : part_of c2 c1) by apply strip_trailing_fence_part.
  assert (H3 : part_of c3 c2).
  { unfold c3. destruct (Js.eqb _ (js "python")); [apply tail_lines_part |].
    destruct (Js.eqb _ Visualize.FENCE_PYTHON);
      [apply tail_lines_part | apply part_of_refl]. }
  eapply part_of_trans; [apply strip_trailing_fence_part |].
  eapply part_of_trans; [exact H3 |].
  eapply part_of_trans; [exact H2 |].
  eapply part_of_trans; [exact H1 | exact H0].
Qed.

(** What is left to do once the fences are gone leaves clean code as it
    is. *)
Lemma clean_after_fences (code : jsstring) :
  is_clean code = true ->
  Visualize.strip_trailing_fence
    (if Js.eqb (trim (hd [] (split Visualize.LF code))) (js "python")
     then join [Visualize.LF] (tl (split Visualize.LF code))
     else if Js.eqb (trim (hd [] (split Visualize.LF code))) Visualize.FENCE_PYTHON
          then join [Visualize.LF] (tl (split Visualize.LF code))
          else code) = code.
Proof.
  unfold is_clean. intros H.
  repeat (apply andb_true_iff in H as [H ?]).
  repeat match goal with
         | Hn : negb _ = true |- _ => apply negb_true_iff in Hn
         end.
  assert (Hfence : Js.eqb (trim (hd [] (split Visualize.LF code))) Visualize.FENCE_PYTHON
                   = false).
  { destruct (Js.eqb _ Visualize.FENCE_PYTHON) eqn:E; [|reflexivity].
    apply eqb_eq in E. apply first_line_fence in E; [congruence | assumption]. }
  match goal with Hp : Js.eqb _ (js "python") = false |- _ => rewrite Hp end.
  rewrite Hfence. unfold Visualize.strip_trailing_fence.
  match goal with He : endsWith code _ = false |- _ => rewrite He end.
  reflexivity.
Qed.

Lemma is_clean_ends (code : jsstring) :
  is_clean code = true ->
  isWhiteSpace (hd 0%N code) = false
  /\ isWhiteSpace (last code 0%N) = false
  /\ endsWith code Visualize.FENCE = false.
Proof.
  unfold is_clean. intros H.
  repeat (apply andb_true_iff in H as [H ?]).
  repeat match goal with
         | Hn : negb _ = true |- _ => apply negb_true_iff in Hn
         end.
  auto.
Qed.

Lemma startsWith_cons (x y : code_unit) (s p : jsstring) :
  startsWith (x :: s) (y :: p) = N.eqb x y && startsWith s p.
Proof. reflexivity. Qed.

Lemma endsWith_app (s p : jsstring) : endsWith (s ++ p) p = true.
Proof. unfold endsWith. rewrite rev_app_distr. apply startsWith_app. Qed.

Lemma last_app_cons (a b : jsstring) (c : code_unit) :
  last (a ++ c :: b) 0%N = last (c :: b) 0%N.
Proof.
  induction a as [|x a IH]; [reflexivity|].
  simpl app. rewrite <- IH. destruct (a ++ c :: b) eqn:E; [|reflexivity].
  destruct a; discriminate E.
Qed.

Lemma last_app_nonempty (a b : jsstring) :
  b <> [] -> last (a ++ b) 0%N = last b 0%N.
Proof.
  destruct b as [|c b]; [congruence|]. intros _. apply last_app_cons.
Qed.

(** A line feed after the text is trimmed away with nothing else, when
    the text does not end with white space. *)
Lemma trimEnd_line_feed (s : jsstring) :
  isWhiteSpace (last s 0%N) = false ->
  trimEnd (s ++ [Visualize.LF]) = s.
Proof.
  intros Hlast. unfold trimEnd. rewrite rev_app_distr. simpl.
  rewrite trimStart_clean; [apply rev_involutive |].
  rewrite hd_rev. exact Hlast.
Qed.

(** A fence cannot end in a line feed, or before one that is less than
    three code units from the end. *)
Lemma endsWith_after_line_feed (a code : jsstring) :
  endsWith code Visualize.FENCE = false ->
  endsWith (a ++ Visualize.LF :: code) Visualize.FENCE = false.
Proof.
  unfold endsWith. change (a ++ Visualize.LF :: code) with (a ++ [Visualize.LF] ++ code).
  rewrite !rev_app_distr. simpl rev at 2.
  change (rev Visualize.FENCE) with [96; 96; 96]%N.
  destruct (rev code) as [|x [|y [|z rc]]]; intros H; simpl app.
  - reflexivity.
  - rewrite !startsWith_cons. simpl. rewrite andb_false_r. reflexivity.
  - rewrite !startsWith_cons. simpl. rewrite !andb_false_r. reflexivity.
  - rewrite !startsWith_cons, startsWith_nil in *. exact H.
Qed.

Lemma prefix_substring (a b : jsstring) :
  substring (a ++ b) 0 (Js.length (a ++ b) - Js.length b) = a.
Proof.
  rewrite substring_zero.
  replace (Js.length (a ++ b) - Js.length b) with (Z.of_nat (List.length a))
    by (unfold Js.length; rewrite length_app; lia).
  rewrite clamp_inside by (rewrite length_app; lia).
  apply firstn_length_app.
Qed.

(** X13.  A script in a [```python] fence is unwrapped: when the code inside is
    clean and not empty, the sanitizer returns exactly that code. *)
Theorem cleanedCode_fenced (code : jsstring) :
  is_clean code = true ->
  Js.eqb code [] = false ->
  Visualize.cleanedCode
    (Visualize.FENCE_PYTHON ++ [Visualize.LF] ++ code ++ [Visualize.LF] ++ Visualize.FENCE)
  = code.
Proof.
  intros Hclean Hne.
  destruct (is_clean_ends code Hclean) as [Hhd [Hlast Hend]].
  destruct code as [|c code']; [discriminate Hne|].
  set (code := c :: code') in *.
  unfold Visualize.cleanedCode.
  set (x := Visualize.FENCE_PYTHON ++ [Visualize.LF] ++ code
              ++ [Visualize.LF] ++ Visualize.FENCE).
  assert (Hx : trim x = x).
  { unfold trim. rewrite trimStart_clean by reflexivity.
    apply trimEnd_clean. unfold x.
    rewrite !app_assoc. rewrite last_app_nonempty by discriminate. reflexivity. }
  assert (Hsw : startsWith x Visualize.FENCE_PYTHON = true)
    by (unfold x; apply startsWith_app).
  rewrite Hx, Hsw.
  assert (H1 : trimStart (substring_from x (Js.length Visualize.FENCE_PYTHON))
               = code ++ [Visualize.LF] ++ Visualize.FENCE).
  { unfold substring_from.
    change (Js.length Visualize.FENCE_PYTHON)
      with (Z.of_nat (List.length Visualize.FENCE_PYTHON)).
    rewrite clamp_inside by (unfold x; rewrite length_app; lia).
    unfold x. rewrite skipn_length_app.
    unfold code in *. simpl in Hhd. simpl. rewrite Hhd. reflexivity. }
  rewrite H1.
  assert (H2 : Visualize.strip_trailing_fence (code ++ [Visualize.LF] ++ Visualize.FENCE)
               = code).
  { unfold Visualize.strip_trailing_fence.
    rewrite app_assoc, endsWith_app, prefix_substring.
    apply trimEnd_line_feed. exact Hlast. }
  rewrite H2. apply clean_after_fences. exact Hclean.
Qed.

Lemma cleanedCode_fenced_witness :
  Visualize.cleanedCode (js "```python
import matplotlib.pyplot as plt
plt.plot([0, 1])
```") = js "import matplotlib.pyplot as plt
plt.plot([0, 1])".
Proof.
  apply (cleanedCode_fenced (js "import matplotlib.pyplot as plt
plt.plot([0, 1])")); reflexivity.
Defined.

(** X14.  A stray first line holding only the language name is removed: when
    the code after it is clean and not empty, the sanitizer returns
    exactly that code. *)
Theorem cleanedCode_language_line (code : jsstring) :
  is_clean code = true ->
  Js.eqb code [] = false ->
  Visualize.cleanedCode (js "python" ++ [Visualize.LF] ++ code) = code.
Proof.
  intros Hclean Hne.
  destruct (is_clean_ends code Hclean) as [Hhd [Hlast Hend]].
  destruct code as [|c code']; [discriminate Hne|].
  set (code := c :: code') in *.
  unfold Visualize.cleanedCode.
  set (x := js "python" ++ [Visualize.LF] ++ code).
  assert (Hx : trim x = x).
  { unfold trim. rewrite trimStart_clean by reflexivity.
    apply trimEnd_clean. unfold x.
    rewrite app_assoc, last_app_nonempty by discriminate. exact Hlast. }
  rewrite Hx.
  replace (startsWith x Visualize.FENCE_PYTHON) with false by reflexivity.
  assert (Hxend : endsWith x Visualize.FENCE = false).
  { apply (endsWith_after_line_feed (js "python") code Hend). }
  assert (Hstrip : Visualize.strip_trailing_fence x = x)
    by (unfold Visualize.strip_trailing_fence; rewrite Hxend; reflexivity).
  rewrite Hstrip.
  assert (Hlines : split Visualize.LF x = js "python" :: split Visualize.LF code).
  { unfold x. simpl. destruct (split Visualize.LF code'); reflexivity. }
  rewrite Hlines. cbn [hd tl].
  replace (Js.eqb (trim (js "python")) (js "python")) with true by reflexivity.
  rewrite join_split.
  unfold Visualize.strip_trailing_fence. rewrite Hend. reflexivity.
Qed.

Lemma cleanedCode_language_line_witness :
  Visualize.cleanedCode (js "python
import matplotlib.pyplot as plt") = js "import matplotlib.pyplot as plt".
Proof.
  apply (cleanedCode_language_line (js "import matplotlib.pyplot as plt")); reflexivity.
Defined.

(** X15.  A bare opening fence is not removed: of a script between two bare
    [```] lines only the closing fence goes, and the code that is run
    still starts with the opening one. *)
Theorem cleanedCode_bare_fence (code : jsstring) :
  is_clean code = true ->
  Js.eqb code [] = false ->
  Visualize.cleanedCode
    (Visualize.FENCE ++ [Visualize.LF] ++ code ++ [Visualize.LF] ++ Visualize.FENCE)
  = Visualize.FENCE ++ [Visualize.LF] ++ code.
Proof.
  intros Hclean Hne.
  destruct (is_clean_ends code Hclean) as [Hhd [Hlast Hend]].
  destruct code as [|c code']; [discriminate Hne|].
  set (code := c :: code') in *.
  unfold Visualize.cleanedCode.
  set (x := Visualize.FENCE ++ [Visualize.LF] ++ code
              ++ [Visualize.LF] ++ Visualize.FENCE).
  set (y := Visualize.FENCE ++ [Visualize.LF] ++ code).
  assert (Hx : trim x = x).
  { unfold trim. rewrite trimStart_clean by reflexivity.
    apply trimEnd_clean. unfold x.
    rewrite !app_assoc. rewrite last_app_nonempty by discriminate. reflexivity. }
  rewrite Hx.
  replace (startsWith x Visualize.FENCE_PYTHON) with false by reflexivity.
  assert (H2 : Visualize.strip_trailing_fence x = y).
  { unfold Visualize.strip_trailing_fence, x.
    replace (Visualize.FENCE ++ [Visualize.LF] ++ code ++ [Visualize.LF] ++ Visualize.FENCE)
      with ((y ++ [Visualize.LF]) ++ Visualize.FENCE)
      by (unfold y; rewrite <- !app_assoc; reflexivity).
    rewrite endsWith_app, prefix_substring.
    apply trimEnd_line_feed. unfold y.
    rewrite app_assoc, last_app_nonempty by discriminate. exact Hlast. }
  rewrite H2.
  assert (Hlines : hd [] (split Visualize.LF y) = Visualize.FENCE).
  { unfold y. simpl. destruct (split Visualize.LF code'); reflexivity. }
  rewrite Hlines.
  replace (Js.eqb (trim Visualize.FENCE) (js "python")) with false by reflexivity.
  replace (Js.eqb (trim Visualize.FENCE) Visualize.FENCE_PYTHON) with false by reflexivity.
  assert (Hy : endsWith y Visualize.FENCE = false)
    by (apply (endsWith_after_line_feed Visualize.FENCE code Hend)).
  unfold Visualize.strip_trailing_fence. rewrite Hy. reflexivity.
Qed.

Lemma cleanedCode_bare_fence_witness :
  Visualize.cleanedCode (js "```
import matplotlib.pyplot as plt
```") = js "```
import matplotlib.pyplot as plt".
Proof.
  apply (cleanedCode_bare_fence (js "import matplotlib.pyplot as plt")); reflexivity.
Defined.

(* ===================================================================== *)
(** ** Payload extraction: what a successful extraction means *)
(* ===================================================================== *)

Lemma startsWith_split (s p : jsstring) :
  startsWith s p = true -> exists rest, s = p ++ rest.
Proof.
  revert s. induction p as [|y p IH]; intros s H.
  - exists s. reflexivity.
  - destruct s as [|x s]; [discriminate H|].
    rewrite startsWith_cons in H. apply andb_true_iff in H as [Hx Hs].
    apply N.eqb_eq in Hx. subst y.
    destruct (IH s Hs) as [rest ->]. exists rest. reflexivity.
Qed.

Lemma find_from_split (needle s : jsstring) (k : nat) :
  find_from needle s 0 = Some k ->
  exists before rest, s = before ++ needle ++ rest /\ List.length before = k.
Proof.
  revert k. induction s as [|c s IH]; intros k; simpl.
  - destruct (startsWith [] needle) eqn:H; [|discriminate].
    intros [= <-]. destruct (startsWith_split _ _ H) as [rest Hrest].
    exists [], rest. split; [exact Hrest | reflexivity].
  - destruct (startsWith (c :: s) needle) eqn:H.
    + intros [= <-]. destruct (startsWith_split _ _ H) as [rest Hrest].
      exists [], rest. split; [exact Hrest | reflexivity].
    + rewrite find_from_shift.
      destruct (find_from needle s 0) as [k'|] eqn:Hk; [|discriminate].
      intros [= <-]. destruct (IH k' eq_refl) as [before [rest [-> Hlen]]].
      exists (c :: before), rest. split; [reflexivity | simpl; lia].
Qed.

(** Nothing starts before the position that is found. *)
Lemma find_from_first (needle s : jsstring) (k j : nat) :
  find_from needle s 0 = Some k ->
  (j < k)%nat ->
  startsWith (skipn j s) needle = false.
Proof.
  revert k j. induction s as [|c s IH]; intros k j; simpl find_from.
  - destruct (startsWith [] needle); [|discriminate]. intros [= <-]. lia.
  - destruct (startsWith (c :: s) needle) eqn:H.
    + intros [= <-]. lia.
    + rewrite find_from_shift.
      destruct (find_from needle s 0) as [k'|] eqn:Hk; [|discriminate].
      intros [= <-] Hj. destruct j as [|j]; [exact H|].
      simpl skipn. apply (IH k' j eq_refl). lia.
Qed.

Lemma occurrences_nowhere (needle s : jsstring) :
  (forall j, startsWith (skipn j s) needle = false) ->
  occurrences needle s = 0%nat.
Proof.
  induction s as [|c s IH]; intros H; pose proof (H 0%nat) as H0; simpl in H0.
  - simpl. rewrite H0. reflexivity.
  - simpl. rewrite H0. apply IH. intros j. exact (H (S j)).
Qed.

Lemma skipn_app_inside (a b : jsstring) (j : nat) :
  (j <= List.length a)%nat -> skipn j (a ++ b) = skipn j a ++ b.
Proof.
  intros H. rewrite skipn_app.
  replace (j - List.length a)%nat with 0%nat by lia. reflexivity.
Qed.

(** Up to the position at which the needle is first found, the text
    holds no occurrence of it. *)
Lemma occurrences_before_first (needle before rest : jsstring) :
  needle <> [] ->
  find_from needle (before ++ needle ++ rest) 0 = Some (List.length before) ->
  occurrences needle before = 0%nat.
Proof.
  intros Hne Hfind. apply occurrences_nowhere. intros j.
  destruct (Nat.lt_ge_cases j (List.length before)) as [Hj | Hj].
  - destruct (startsWith (skipn j before) needle) eqn:H; [|reflexivity].
    destruct (startsWith_split _ _ H) as [t Ht].
    pose proof (find_from_first _ _ _ j Hfind Hj) as Hfalse.
    rewrite skipn_app_inside, Ht, <- app_assoc, startsWith_app in Hfalse by lia.
    discriminate Hfalse.
  - rewrite skipn_all2 by lia. destruct needle; [congruence | reflexivity].
Qed.

(** X16.  Whenever a payload is extracted, the script output is some text, the
    start marker, that payload, the end marker and some more text; the
    start marker is the first one of the output, and the payload holds
    no end marker. *)
Theorem imageBase64_sound (pythonOutput payload : jsstring) :
  Visualize.imageBase64 pythonOutput = Some payload ->
  exists before after,
    pythonOutput = before ++ Visualize.base64MarkerStart ++ payload
                          ++ Visualize.base64MarkerEnd ++ after
    /\ occurrences Visualize.base64MarkerStart before = 0%nat
    /\ occurrences Visualize.base64MarkerEnd payload = 0%nat.
Proof.
  unfold Visualize.imageBase64. cbv zeta.
  set (S := Visualize.base64MarkerStart). set (E := Visualize.base64MarkerEnd).
  assert (Hs : indexOf pythonOutput S 0
               = match find_from S pythonOutput 0 with
                 | Some i => Z.of_nat i
                 | None => -1
                 end).
  { unfold indexOf. rewrite clamp_zero. reflexivity. }
  rewrite Hs. clear Hs.
  destruct (find_from S pythonOutput 0) as [k|] eqn:Hk; [|intros H; discriminate H].
  destruct (find_from_split _ _ _ Hk) as [before [rest [Hout Hlen]]]. subst k.
  assert (Hsum : Z.of_nat (List.length before) + Js.length S
                 = Z.of_nat (List.length (before ++ S))).
  { unfold Js.length. rewrite length_app. lia. }
  rewrite Hsum.
  assert (He : indexOf pythonOutput E (Z.of_nat (List.length (before ++ S)))
               = match find_from E rest 0 with
                 | Some j => Z.of_nat (List.length (before ++ S) + j)
                 | None => -1
                 end).
  { unfold indexOf.
    rewrite clamp_inside
      by (rewrite Hout, app_assoc, (length_app (before ++ S)); lia).
    replace (skipn (List.length (before ++ S)) pythonOutput) with rest
      by (rewrite Hout, app_assoc, skipn_length_app; reflexivity).
    rewrite find_from_shift. destruct (find_from E rest 0); reflexivity. }
  rewrite He. clear He.
  destruct (find_from E rest 0) as [j|] eqn:Hj;
    [| intros H; rewrite andb_false_r in H; discriminate H].
  destruct (find_from_split _ _ _ Hj) as [p [after [Hrest Hp]]]. subst j.
  replace (Z.of_nat (List.length before) =? -1)
    with false by (symmetry; apply Z.eqb_neq; lia).
  replace (Z.of_nat (List.length (before ++ S) + List.length p) =? -1)
    with false by (symmetry; apply Z.eqb_neq; lia).
  simpl negb. simpl andb. cbv iota.
  assert (Hout' : pythonOutput = (before ++ S) ++ p ++ E ++ after).
  { rewrite Hout, Hrest, <- app_assoc. reflexivity. }
  rewrite Hout' at 1. rewrite substring_middle. intros [= <-].
  exists before, after. split; [| split].
  - rewrite Hout, Hrest. reflexivity.
  - apply (occurrences_before_first S before rest); [discriminate |].
    rewrite <- Hout. exact Hk.
  - apply (occurrences_before_first E p after); [discriminate |].
    rewrite <- Hrest. exact Hj.
Qed.

Lemma imageBase64_sound_witness :
  exists before after,
    js "MATPLOTLIB_BASE64_START:first:MATPLOTLIB_BASE64_END MATPLOTLIB_BASE64_START:second:MATPLOTLIB_BASE64_END"
      = before ++ Visualize.base64MarkerStart ++ js "first"
               ++ Visualize.base64MarkerEnd ++ after
    /\ occurrences Visualize.base64MarkerStart before = 0%nat
    /\ occurrences Visualize.base64MarkerEnd (js "first") = 0%nat.
Proof.
  apply (imageBase64_sound
           (js "MATPLOTLIB_BASE64_START:first:MATPLOTLIB_BASE64_END MATPLOTLIB_BASE64_START:second:MATPLOTLIB_BASE64_END")
           (js "first")).
  reflexivity.
Defined.

(* ===================================================================== *)
(** ** Prompt construction: the dollar patterns of [replace] *)
(* ===================================================================== *)

Lemma getSubstitution_app (matched before after a r : jsstring) :
  dollar_free a = true ->
  getSubstitution matched before after (a ++ r)
    = a ++ getSubstitution matched before after r.
Proof.
  induction a as [|c a IH]; intros Hfree; [reflexivity|].
  simpl in Hfree. apply andb_true_iff in Hfree as [Hc Ha].
  apply negb_true_iff in Hc. simpl app.
  rewrite (getSubstitution_other _ _ _ _ _ Hc), (IH Ha). reflexivity.
Qed.

Lemma fullPrompt_substitution (problemText : jsstring) :
  Visualize.fullPrompt problemText =
    firstn 2524 Visualize.ENGINEERED_PROMPT_TEMPLATE
    ++ getSubstitution Visualize.PLACEHOLDER
         (firstn 2524 Visualize.ENGINEERED_PROMPT_TEMPLATE)
         (skipn (2524 + List.length Visualize.PLACEHOLDER)
                Visualize.ENGINEERED_PROMPT_TEMPLATE)
         problemText
    ++ skipn (2524 + List.length Visualize.PLACEHOLDER)
             Visualize.ENGINEERED_PROMPT_TEMPLATE.
Proof.
  unfold Visualize.fullPrompt, replace. rewrite placeholder_position. reflexivity.
Qed.

Lemma embed_literally_parts (problemText : jsstring) :
  embed_literally problemText =
    firstn 2524 Visualize.ENGINEERED_PROMPT_TEMPLATE
    ++ problemText
    ++ skipn (2524 + List.length Visualize.PLACEHOLDER)
             Visualize.ENGINEERED_PROMPT_TEMPLATE.
Proof. unfold embed_literally. rewrite placeholder_position. reflexivity. Qed.

(** X17.  Without a dollar sign in it, the problem text reaches the model
    exactly as it was submitted: the prompt is the template with the
    placeholder replaced by the text, code unit for code unit. *)
Theorem plain_text_is_embedded (problemText : jsstring) :
  dollar_free problemText = true ->
  Visualize.fullPrompt problemText = embed_literally problemText.
Proof.
  intros Hfree.
  rewrite fullPrompt_substitution, embed_literally_parts.
  rewrite (getSubstitution_dollar_free _ _ _ problemText Hfree).
  reflexivity.
Qed.

Lemma plain_text_is_embedded_witness :
  Visualize.fullPrompt (js "circle radius 5") = embed_literally (js "circle radius 5").
Proof. apply (plain_text_is_embedded (js "circle radius 5")). reflexivity. Defined.

(** X18.  What reaches the model when the problem text holds one of the dollar
    patterns of [replace] between two stretches without a dollar sign:
    [$$] arrives as one dollar sign, [$&] as the placeholder itself, and
    in the place of [$`] and [$'] stand the part of the template before
    the placeholder and the part after it. *)
Theorem fullPrompt_dollar_patterns (a b : jsstring) :
  dollar_free a = true ->
  dollar_free b = true ->
  Visualize.fullPrompt (a ++ js "$$" ++ b) = embed_literally (a ++ js "$" ++ b)
  /\ Visualize.fullPrompt (a ++ js "$&" ++ b)
     = embed_literally (a ++ Visualize.PLACEHOLDER ++ b)
  /\ Visualize.fullPrompt (a ++ js "$`" ++ b)
     = embed_literally (a ++ firstn 2524 Visualize.ENGINEERED_PROMPT_TEMPLATE ++ b)
  /\ Visualize.fullPrompt (a ++ js "$'" ++ b)
     = embed_literally
         (a ++ skipn (2524 + List.length Visualize.PLACEHOLDER)
                     Visualize.ENGINEERED_PROMPT_TEMPLATE ++ b).
Proof.
  intros Ha Hb.
  rewrite !fullPrompt_substitution, !embed_literally_parts.
  rewrite !(getSubstitution_app _ _ _ a _ Ha).
  change (js "$$" ++ b) with (36 :: 36 :: b)%N.
  change (js "$&" ++ b) with (36 :: 38 :: b)%N.
  change (js "$`" ++ b) with (36 :: 96 :: b)%N.
  change (js "$'" ++ b) with (36 :: 39 :: b)%N.
  cbn [getSubstitution].
  rewrite !(getSubstitution_dollar_free _ _ _ b Hb).
  repeat split; reflexivity.
Qed.

Lemma fullPrompt_dollar_patterns_witness :
  Visualize.fullPrompt (js "solve " ++ js "$$" ++ js "x^2=4")
    = embed_literally (js "solve " ++ js "$" ++ js "x^2=4")
  /\ Visualize.fullPrompt (js "solve " ++ js "$&" ++ js "x^2=4")
     = embed_literally (js "solve " ++ Visualize.PLACEHOLDER ++ js "x^2=4")
  /\ Visualize.fullPrompt (js "solve " ++ js "$`" ++ js "x^2=4")
     = embed_literally
         (js "solve " ++ firstn 2524 Visualize.ENGINEERED_PROMPT_TEMPLATE ++ js "x^2=4")
  /\ Visualize.fullPrompt (js "solve " ++ js "$'" ++ js "x^2=4")
     = embed_literally
         (js "solve " ++ skipn (2524 + List.length Visualize.PLACEHOLDER)
                               Visualize.ENGINEERED_PROMPT_TEMPLATE ++ js "x^2=4").
Proof.
  apply (fullPrompt_dollar_patterns (js "solve ") (js "x^2=4")); reflexivity.
Defined.

(* ===================================================================== *)
(** ** The OCR handler, stage by stage *)
(* ===================================================================== *)

(** Reading the data of the OCR service performs no effect, and ends
    with a response or with an exception for the [catch] of [POST]. *)
Lemma read_ocrData_cases (ocrData : json) :
  fst (Ocr.read_ocrData ocrData) = []
  /\ ((exists r,
         snd (Ocr.read_ocrData ocrData) = Return r
         /\ ((status r = 500
              /\ is_string (body_field r (js "error")) = true
              /\ is_absent (body_field r (js "extractedText")) = true)
             \/ (status r = 200
                 /\ is_absent (body_field r (js "error")) = true)))
      \/ exists e, snd (Ocr.read_ocrData ocrData) = Throw e).
Proof.
  unfold Ocr.read_ocrData.
  destruct (get (Some ocrData) (js "IsErroredOnProcessing")) as [e | isErrored];
    simpl; [split; [reflexivity | right; eexists; reflexivity] |].
  destruct (truthy isErrored).
  - destruct (get (Some ocrData) (js "ErrorMessage")) as [e | errorMessage];
      simpl; [split; [reflexivity | right; eexists; reflexivity] |].
    destruct (Ocr.optional_join errorMessage (js ", ")) as [e | joined];
      simpl; [split; [reflexivity | right; eexists; reflexivity] |].
    split; [reflexivity | left].
    unfold Ocr.or_else. destruct (truthy joined) eqn:Hj.
    + destruct joined as [j|]; [| discriminate Hj].
      eexists; split; [reflexivity | left; repeat split; reflexivity].
    + eexists; split; [reflexivity | left; repeat split; reflexivity].
  - destruct (get (Some ocrData) (js "ParsedResults")) as [e | parsedResults];
      simpl; [split; [reflexivity | right; eexists; reflexivity] |].
    destruct (truthy parsedResults) eqn:Ht; simpl.
    + destruct (get parsedResults (js "length")) as [e | len];
        simpl; [split; [reflexivity | right; eexists; reflexivity] |].
      destruct (Ocr.is_zero len); simpl.
      * split; [reflexivity | left].
        eexists; split; [reflexivity | right; split; reflexivity].
      * destruct (get _ (js "ParsedText")) as [e | [extractedText|]];
          simpl; split; try reflexivity.
        -- right; eexists; reflexivity.
        -- left; eexists; split; [reflexivity | right; split; reflexivity].
        -- left; eexists; split; [reflexivity | right; split; reflexivity].
    + split; [reflexivity | left].
      eexists; split; [reflexivity | right; split; reflexivity].
Qed.

Lemma js_injective (a b : string) : js a = js b -> a = b.
Proof.
  unfold js. intros H.
  apply (f_equal (map ascii_of_N)) in H. rewrite !map_map in H.
  rewrite !(map_ext _ (fun a => a) ascii_N_embedding), !map_id in H.
  apply (f_equal string_of_list_ascii) in H.
  rewrite !string_of_list_ascii_of_string in H. exact H.
Qed.

(** A positive number does not render as ["0"]. *)
Lemma number_toString_positive (p : positive) :
  Js.eqb (number_toString (Z.pos p)) (js "0") = false.
Proof.
  destruct (Js.eqb _ (js "0")) eqn:E; [| reflexivity].
  apply eqb_eq in E. unfold number_toString in E. apply js_injective in E.
  simpl in E. apply (f_equal NilEmpty.uint_of_string) in E.
  rewrite NilEmpty.usu in E. simpl in E. injection E as E.
  pose proof (Unsigned.of_to p) as Hp. rewrite E in Hp. discriminate Hp.
Qed.

Lemma array_join_strings (sep : jsstring) (messages : list jsstring) :
  Ocr.array_join sep (map JStr messages) = join sep messages.
Proof.
  induction messages as [|m messages IH]; [reflexivity|].
  simpl. rewrite IH. destruct messages; simpl; [apply app_nil_r | reflexivity].
Qed.

Lemma or_else_fallback (a : value) (fallback : json) :
  exists v, Ocr.or_else a (Some fallback) = Some v.
Proof.
  unfold Ocr.or_else. destruct (truthy a) eqn:Ha.
  - destruct a as [v|]; [exists v; reflexivity | discriminate Ha].
  - exists fallback. reflexivity.
Qed.

(** The details of an upstream failure: the first of [ErrorMessage],
    [ErrorDetails] and a fixed text that is truthy. *)
Lemma failure_details (answer : js_error + json) :
  exists details,
    Ocr.or_else
      (get_optional (match answer with
                     | inl _ => Some (JObj [])
                     | inr data => Some data
                     end) (js "ErrorMessage"))
      (Ocr.or_else
         (get_optional (match answer with
                        | inl _ => Some (JObj [])
                        | inr data => Some data
                        end) (js "ErrorDetails"))
         (Ocr.str "Unknown OCR API error")) = Some details
    /\ (forall e, answer = inl e -> details = JStr (js "Unknown OCR API error")).
Proof.
  destruct answer as [e | data].
  - exists (JStr (js "Unknown OCR API error")). split; [reflexivity | auto].
  - destruct (or_else_fallback (get_optional (Some data) (js "ErrorDetails"))
                (JStr (js "Unknown OCR API error"))) as [inner Hinner].
    unfold Ocr.str. rewrite Hinner.
    destruct (or_else_fallback (get_optional (Some data) (js "ErrorMessage")) inner)
      as [details Hdetails].
    exists details. split; [exact Hdetails | intros e He; discriminate He].
Qed.

Section Upload.

Variable w : Ocr.world.
Variable formData : Ocr.form.
Variable file : Ocr.form_entry.
Variable ocrApiKey : jsstring.

Hypothesis Hform : Ocr.request_formData w = inr formData.
Hypothesis Hfile : Ocr.form_file formData = Some file.
Hypothesis Hpresent : Ocr.entry_truthy (Some file) = true.
Hypothesis Hkey : Ocr.OCR_SPACE_API_KEY w = Some ocrApiKey.
Hypothesis Hconfigured : Js.eqb ocrApiKey [] = false.

(** An accepted upload is sent to the OCR service, and the answer of the
    service decides the response. *)
Lemma POST_upload :
  Ocr.POST w =
    match Ocr.fetch w (upstream_request formData file ocrApiKey) with
    | inl e =>
        ([Ocr.ReadForm; Ocr.Fetch (upstream_request formData file ocrApiKey)],
         Return (NextResponse_json
                   (JObj [(js "error", JStr (js "Internal server error."));
                          (js "details", JStr (error_message e))])
                   500))
    | inr ocrResponse =>
        if negb (Ocr.ok ocrResponse)
        then
          ([Ocr.ReadForm; Ocr.Fetch (upstream_request formData file ocrApiKey)],
           if Ocr.carries_body (Ocr.http_status ocrResponse)
           then
             Return (NextResponse_json
                       (object
                          [(js "error",
                            Some (JStr (js "OCR API request failed with status "
                                          ++ number_toString (Ocr.http_status ocrResponse)
                                          ++ js ".")));
                           (js "details",
                            Ocr.or_else
                              (get_optional
                                 (match Ocr.json_body ocrResponse with
                                  | inl _ => Some (JObj [])
                                  | inr data => Some data
                                  end) (js "ErrorMessage"))
                              (Ocr.or_else
                                 (get_optional
                                    (match Ocr.json_body ocrResponse with
                                     | inl _ => Some (JObj [])
                                     | inr data => Some data
                                     end) (js "ErrorDetails"))
                                 (Ocr.str "Unknown OCR API error")))])
                       (Ocr.http_status ocrResponse))
           else
             Return (NextResponse_json
                       (JObj [(js "error", JStr (js "Internal server error."));
                              (js "details",
                               JStr (if (200 <=? Ocr.http_status ocrResponse)
                                        && (Ocr.http_status ocrResponse <=? 599)
                                     then js "Response constructor: Invalid response status code "
                                             ++ number_toString (Ocr.http_status ocrResponse)
                                     else js "init[" ++ [34%N] ++ js "status" ++ [34%N]
                                             ++ js "] must be in the range of 200 to 599, inclusive."))])
                       500))
        else
          match Ocr.json_body ocrResponse with
          | inl e =>
              ([Ocr.ReadForm; Ocr.Fetch (upstream_request formData file ocrApiKey)],
               Return (NextResponse_json
                         (JObj [(js "error", JStr (js "Internal server error."));
                                (js "details", JStr (error_message e))])
                         500))
          | inr ocrData =>
              ([Ocr.ReadForm; Ocr.Fetch (upstream_request formData file ocrApiKey)],
               match snd (Ocr.read_ocrData ocrData) with
               | Throw e =>
                   Return (NextResponse_json
                             (JObj [(js "error", JStr (js "Internal server error."));
                                    (js "details", JStr (error_message e))])
                             500)
               | other => other
               end)
          end
    end.
Proof.
  unfold Ocr.POST. rewrite Hform. simpl. rewrite Hfile, Hpresent, Hkey. simpl.
  rewrite Hconfigured. simpl. fold (upstream_request formData file ocrApiKey).
  destruct (Ocr.fetch w (upstream_request formData file ocrApiKey))
    as [e | ocrResponse]; simpl; [reflexivity |].
  destruct (Ocr.ok ocrResponse); simpl.
  2:{ unfold Ocr.respond_status.
      destruct (Ocr.carries_body (Ocr.http_status ocrResponse)); [reflexivity |].
      destruct ((200 <=? Ocr.http_status ocrResponse)
                && (Ocr.http_status ocrResponse <=? 599)); reflexivity. }
  destruct (Ocr.json_body ocrResponse) as [e | ocrData]; simpl; [reflexivity |].
  destruct (read_ocrData_cases ocrData) as [Htrace _].
  destruct (Ocr.read_ocrData ocrData) as [t c]. simpl in Htrace. subst t.
  destruct c; reflexivity.
Qed.

(** X19.  Exactly one request goes to the OCR service for an accepted upload,
    whatever the service answers: it carries the file, the credential and
    [isOverlayRequired=false], and the language of the form, which is
    ['eng'] when the form names none. *)
Theorem upload_is_sent_once :
  fst (Ocr.POST w) = [Ocr.ReadForm; Ocr.Fetch (upstream_request formData file ocrApiKey)]
  /\ Ocr.req_file (upstream_request formData file ocrApiKey) = file
  /\ Ocr.req_apikey (upstream_request formData file ocrApiKey) = ocrApiKey
  /\ Ocr.req_isOverlayRequired (upstream_request formData file ocrApiKey) = js "false"
  /\ (Ocr.entry_truthy (Ocr.form_language formData) = false ->
      Ocr.req_language (upstream_request formData file ocrApiKey) = Ocr.FormString (js "eng"))
  /\ (forall language,
        Ocr.form_language formData = Some language ->
        Ocr.entry_truthy (Some language) = true ->
        Ocr.req_language (upstream_request formData file ocrApiKey) = language).
Proof.
  split; [| repeat split].
  - rewrite POST_upload.
    destruct (Ocr.fetch w (upstream_request formData file ocrApiKey))
      as [e | ocrResponse]; [reflexivity |].
    destruct (negb (Ocr.ok ocrResponse)); [reflexivity |].
    destruct (Ocr.json_body ocrResponse); reflexivity.
  - simpl. unfold Ocr.language_of. intros Hnone.
    destruct (Ocr.form_language formData) as [entry|]; [| reflexivity].
    rewrite Hnone. reflexivity.
  - simpl. unfold Ocr.language_of. intros language -> Hlanguage.
    rewrite Hlanguage. reflexivity.
Qed.

(** X20.  When the OCR service answers without HTTP success and with a
    status a response with a body can carry (200 to 599, but not 204, 205
    or 304), that status is passed on with an error that names it, and
    the details are ['Unknown OCR API error'] when the body of the
    service is not JSON.  For any other status building the response
    throws, and the answer is the 500 ['Internal server error.']. *)
Theorem upstream_failure_passed_on (ocrResponse : Ocr.fetch_response) :
  Ocr.fetch w (upstream_request formData file ocrApiKey) = inr ocrResponse ->
  Ocr.ok ocrResponse = false ->
  (Ocr.carries_body (Ocr.http_status ocrResponse) = true ->
   exists details,
     Ocr.POST w =
       ([Ocr.ReadForm; Ocr.Fetch (upstream_request formData file ocrApiKey)],
        Return (NextResponse_json
                  (JObj [(js "error",
                          JStr (js "OCR API request failed with status "
                                  ++ number_toString (Ocr.http_status ocrResponse)
                                  ++ js "."));
                         (js "details", details)])
                  (Ocr.http_status ocrResponse)))
     /\ (forall e, Ocr.json_body ocrResponse = inl e ->
                   details = JStr (js "Unknown OCR API error")))
  /\ (Ocr.carries_body (Ocr.http_status ocrResponse) = false ->
      exists message,
        Ocr.POST w =
          ([Ocr.ReadForm; Ocr.Fetch (upstream_request formData file ocrApiKey)],
           Return (NextResponse_json
                     (JObj [(js "error", JStr (js "Internal server error."));
                            (js "details", JStr message)])
                     500))).
Proof.
  intros Hfetch Hok. rewrite POST_upload, Hfetch, Hok. simpl negb. cbv iota.
  split; intros Hstatus; rewrite Hstatus.
  - destruct (failure_details (Ocr.json_body ocrResponse))
      as [details [Hdetails Hunknown]].
    exists details. split; [| exact Hunknown].
    rewrite Hdetails. reflexivity.
  - eexists. reflexivity.
Qed.

Section Answered.

Variable ocrResponse : Ocr.fetch_response.
Variable ocrData : json.

Hypothesis Hfetch : Ocr.fetch w (upstream_request formData file ocrApiKey) = inr ocrResponse.
Hypothesis Hok : Ocr.ok ocrResponse = true.
Hypothesis Hjson : Ocr.json_body ocrResponse = inr ocrData.

Lemma POST_answered :
  Ocr.POST w =
    ([Ocr.ReadForm; Ocr.Fetch (upstream_request formData file ocrApiKey)],
     match snd (Ocr.read_ocrData ocrData) with
     | Throw e =>
         Return (NextResponse_json
                   (JObj [(js "error", JStr (js "Internal server error."));
                          (js "details", JStr (error_message e))])
                   500)
     | other => other
     end).
Proof. rewrite POST_upload, Hfetch, Hok, Hjson. reflexivity. Qed.

(** X21.  The text of the first parsed result is what is returned, whatever
    other results follow it. *)
Theorem first_result_returned (isErrored : value)
    (fields : list (jsstring * json)) (others : list json) (parsedText : json) :
  get (Some ocrData) (js "IsErroredOnProcessing") = inr isErrored ->
  truthy isErrored = false ->
  get (Some ocrData) (js "ParsedResults") = inr (Some (JArr (JObj fields :: others))) ->
  lookup (js "ParsedText") fields = Some parsedText ->
  Ocr.POST w =
    ([Ocr.ReadForm; Ocr.Fetch (upstream_request formData file ocrApiKey)],
     Return (NextResponse_json (JObj [(js "extractedText", parsedText)]) 200)).
Proof.
  intros HisErr Hfalsy Hparsed Htext. rewrite POST_answered.
  unfold Ocr.read_ocrData. rewrite HisErr. simpl. rewrite Hfalsy, Hparsed. simpl.
  rewrite number_toString_positive. simpl.
  unfold get. simpl. rewrite Htext. reflexivity.
Qed.

(** X22.  A processing error reported by the service is answered with 500 and
    the messages of the service joined by a comma and a space, or a fixed
    hint when there is no message. *)
Theorem processing_error_500 (isErrored : value) (messages : list jsstring) :
  get (Some ocrData) (js "IsErroredOnProcessing") = inr isErrored ->
  truthy isErrored = true ->
  get (Some ocrData) (js "ErrorMessage") = inr (Some (JArr (map JStr messages))) ->
  Ocr.POST w =
    ([Ocr.ReadForm; Ocr.Fetch (upstream_request formData file ocrApiKey)],
     Return (NextResponse_json
               (JObj [(js "error", JStr (js "OCR processing failed."));
                      (js "details",
                       JStr (if Js.eqb (join (js ", ") messages) []
                             then js "See OCR API logs for details."
                             else join (js ", ") messages))])
               500)).
Proof.
  intros HisErr Htruthy Hmessages. rewrite POST_answered.
  unfold Ocr.read_ocrData. rewrite HisErr. simpl. rewrite Htruthy, Hmessages. simpl.
  rewrite array_join_strings. unfold Ocr.or_else. simpl.
  destruct (Js.eqb (join (js ", ") messages) []); reflexivity.
Qed.

End Answered.

End Upload.

Lemma upload_is_sent_once_witness :
  fst (Ocr.POST (upload_world (Some (js "key")) (inr quota_answer)))
    = [Ocr.ReadForm;
       Ocr.Fetch (Ocr.mk_request picture (js "key") (Ocr.FormString (js "eng")) (js "false"))].
Proof.
  apply (upload_is_sent_once (upload_world (Some (js "key")) (inr quota_answer))
           (Ocr.mk_form (Some picture) None) picture (js "key")
           eq_refl eq_refl eq_refl eq_refl eq_refl).
Defined.

Lemma upstream_failure_passed_on_witness :
  (exists details,
     Ocr.POST (upload_world (Some (js "key")) (inr quota_answer)) =
       ([Ocr.ReadForm;
         Ocr.Fetch (Ocr.mk_request picture (js "key") (Ocr.FormString (js "eng")) (js "false"))],
        Return (NextResponse_json
                  (JObj [(js "error", JStr (js "OCR API request failed with status 403."));
                         (js "details", details)])
                  403))
     /\ (forall e, Ocr.json_body quota_answer = inl e ->
                   details = JStr (js "Unknown OCR API error")))
  /\ (exists message,
        Ocr.POST (upload_world (Some (js "key")) (inr not_modified_answer)) =
          ([Ocr.ReadForm;
            Ocr.Fetch (Ocr.mk_request picture (js "key") (Ocr.FormString (js "eng")) (js "false"))],
           Return (NextResponse_json
                     (JObj [(js "error", JStr (js "Internal server error."));
                            (js "details", JStr message)])
                     500))).
Proof.
  split.
  - apply (proj1 (upstream_failure_passed_on
                    (upload_world (Some (js "key")) (inr quota_answer))
                    (Ocr.mk_form (Some picture) None) picture (js "key")
                    eq_refl eq_refl eq_refl eq_refl eq_refl quota_answer
                    eq_refl eq_refl)).
    reflexivity.
  - apply (proj2 (upstream_failure_passed_on
                    (upload_world (Some (js "key")) (inr not_modified_answer))
                    (Ocr.mk_form (Some picture) None) picture (js "key")
                    eq_refl eq_refl eq_refl eq_refl eq_refl not_modified_answer
                    eq_refl eq_refl)).
    reflexivity.
Defined.

Lemma first_result_returned_witness :
  Ocr.POST (upload_world (Some (js "key"))
              (inr (Ocr.mk_fetch_response true 200 (inr two_pages)))) =
    ([Ocr.ReadForm;
      Ocr.Fetch (Ocr.mk_request picture (js "key") (Ocr.FormString (js "eng")) (js "false"))],
     Return (NextResponse_json
               (JObj [(js "extractedText", JStr (js "x^2 + y^2 = 25"))]) 200)).
Proof.
  apply (first_result_returned
           (upload_world (Some (js "key"))
              (inr (Ocr.mk_fetch_response true 200 (inr two_pages))))
           (Ocr.mk_form (Some picture) None) picture (js "key")
           eq_refl eq_refl eq_refl eq_refl eq_refl
           (Ocr.mk_fetch_response true 200 (inr two_pages)) two_pages
           eq_refl eq_refl eq_refl
           (Some (JBool false))
           [(js "ParsedText", JStr (js "x^2 + y^2 = 25"))]
           [JObj [(js "ParsedText", JStr (js "page two"))]]
           (JStr (js "x^2 + y^2 = 25")));
    reflexivity.
Defined.

Lemma processing_error_500_witness :
  Ocr.POST (upload_world (Some (js "key"))
              (inr (Ocr.mk_fetch_response true 200 (inr unreadable)))) =
    ([Ocr.ReadForm;
      Ocr.Fetch (Ocr.mk_request picture (js "key") (Ocr.FormString (js "eng")) (js "false"))],
     Return (NextResponse_json
               (JObj [(js "error", JStr (js "OCR processing failed."));
                      (js "details",
                       JStr (js "Unable to recognize the file type, E216"))])
               500)).
Proof.
  apply (processing_error_500
           (upload_world (Some (js "key"))
              (inr (Ocr.mk_fetch_response true 200 (inr unreadable))))
           (Ocr.mk_form (Some picture) None) picture (js "key")
           eq_refl eq_refl eq_refl eq_refl eq_refl
           (Ocr.mk_fetch_response true 200 (inr unreadable)) unreadable
           eq_refl eq_refl eq_refl
           (Some (JBool true))
           [js "Unable to recognize the file type"; js "E216"]);
    reflexivity.
Defined.

(** X23.  A request without a file is answered with 400 before the credential
    is looked at and before anything is sent to the OCR service. *)
Theorem no_file_400 (w : Ocr.world) (formData : Ocr.form) :
  Ocr.request_formData w = inr formData ->
  Ocr.entry_truthy (Ocr.form_file formData) = false ->
  Ocr.POST w =
    ([Ocr.ReadForm],
     Return (NextResponse_json (JObj [(js "error", JStr (js "No file provided."))]) 400)).
Proof.
  intros Hform Hfile. unfold Ocr.POST. rewrite Hform. simpl.
  destruct (Ocr.form_file formData) as [file|]; [| reflexivity].
  rewrite Hfile. reflexivity.
Qed.

Lemma no_file_400_witness :
  Ocr.POST no_file_world =
    ([Ocr.ReadForm],
     Return (NextResponse_json (JObj [(js "error", JStr (js "No file provided."))]) 400)).
Proof.
  apply (no_file_400 no_file_world
           (Ocr.mk_form None (Some (Ocr.FormString (js "por")))));
    reflexivity.
Defined.

(** X24.  With a file but without the credential of the OCR service, the
    answer is the 500 configuration error and the file is sent
    nowhere. *)
Theorem missing_ocr_key_500 (w : Ocr.world) (formData : Ocr.form) :
  Ocr.request_formData w = inr formData ->
  Ocr.entry_truthy (Ocr.form_file formData) = true ->
  truthy (option_map JStr (Ocr.OCR_SPACE_API_KEY w)) = false ->
  Ocr.POST w =
    ([Ocr.ReadForm],
     Return (NextResponse_json
               (JObj [(js "error", JStr (js "OCR service configuration error."))])
               500)).
Proof.
  intros Hform Hfile Hkey. unfold Ocr.POST. rewrite Hform. simpl.
  destruct (Ocr.form_file formData) as [file|]; [| discriminate Hfile].
  rewrite Hfile. simpl.
  destruct (Ocr.OCR_SPACE_API_KEY w) as [key|]; [| reflexivity].
  simpl in Hkey. simpl. rewrite Hkey. reflexivity.
Qed.

Lemma missing_ocr_key_500_witness :
  Ocr.POST (upload_world None (inr quota_answer)) =
    ([Ocr.ReadForm],
     Return (NextResponse_json
               (JObj [(js "error", JStr (js "OCR service configuration error."))])
               500)).
Proof.
  apply (missing_ocr_key_500 (upload_world None (inr quota_answer))
           (Ocr.mk_form (Some picture) None));
    reflexivity.
Defined.

(** X25.  No exception leaves the OCR handler: once the calls it awaits
    have settled, every request is answered, either with an error
    envelope or with status 200 and no [error] field. *)
Theorem ocr_always_answers (w : Ocr.world) :
  exists r,
    snd (Ocr.POST w) = Return r
    /\ ((is_string (body_field r (js "error")) = true
         /\ is_absent (body_field r (js "extractedText")) = true)
        \/ (status r = 200 /\ is_absent (body_field r (js "error")) = true)).
Proof.
  destruct (Ocr.request_formData w) as [e | formData] eqn:Hform.
  { unfold Ocr.POST. rewrite Hform. simpl.
    eexists; split; [reflexivity | left; split; reflexivity]. }
  destruct (Ocr.entry_truthy (Ocr.form_file formData)) eqn:Hfile.
  2:{ unfold Ocr.POST. rewrite Hform. simpl.
      destruct (Ocr.form_file formData) as [file|]; [rewrite Hfile |];
        eexists; split; try reflexivity; left; split; reflexivity. }
  destruct (Ocr.form_file formData) as [file|] eqn:Hsome; [| discriminate Hfile].
  destruct (Ocr.OCR_SPACE_API_KEY w) as [key|] eqn:Hkey.
  2:{ unfold Ocr.POST. rewrite Hform. simpl. rewrite Hsome, Hfile, Hkey. simpl.
      eexists; split; [reflexivity | left; split; reflexivity]. }
  destruct (Js.eqb key []) eqn:Hne.
  { unfold Ocr.POST. rewrite Hform. simpl. rewrite Hsome, Hfile, Hkey. simpl.
    rewrite Hne. simpl.
    eexists; split; [reflexivity | left; split; reflexivity]. }
  rewrite (POST_upload w formData file key Hform Hsome Hfile Hkey Hne).
  destruct (Ocr.fetch w _) as [e | ocrResponse].
  { eexists; split; [reflexivity | left; split; reflexivity]. }
  destruct (Ocr.ok ocrResponse); simpl negb; cbv iota.
  2:{ destruct (Ocr.carries_body (Ocr.http_status ocrResponse)).
      - destruct (failure_details (Ocr.json_body ocrResponse)) as [details [-> _]].
        eexists; split; [reflexivity | left; split; reflexivity].
      - eexists; split; [reflexivity | left; split; reflexivity]. }
  destruct (Ocr.json_body ocrResponse) as [e | ocrData].
  { eexists; split; [reflexivity | left; split; reflexivity]. }
  destruct (read_ocrData_cases ocrData) as [_ [[r [Hr Hshape]] | [e He]]].
  - simpl snd. rewrite Hr. exists r. split; [reflexivity |].
    destruct Hshape as [[_ [H1 H2]] | [H1 H2]]; [left | right]; auto.
  - simpl snd. rewrite He.
    eexists; split; [reflexivity | left; split; reflexivity].
Qed.

(* ===================================================================== *)
(** ** The page *)
(* ===================================================================== *)

(** The request to the visualize route is sent once, and what comes back
    sets the image or the error, never both. *)
Lemma submit_cases (w : Client.world) (text : json) :
  exists sets,
    Client.submit w text
      = (Client.fetch_visualize (JObj [(js "problemText", text)]) :: sets, Normal tt)
    /\ ((exists image, sets = [Client.setImageBase64 image] /\ truthy image = true)
        \/ (exists message, sets = [Client.setError message] /\ truthy message = true)
        \/ (exists message,
              sets = [Client.setError
                        (Some (JStr (js "Visualization failed: " ++ message)));
                      Client.setImageBase64 None])).
Proof.
  unfold Client.submit.
  destruct (Client.visualize w _) as [e | response]; simpl;
    [eexists; split; [reflexivity | right; right; eexists; reflexivity] |].
  destruct (Ocr.json_body response) as [e | result]; simpl;
    [eexists; split; [reflexivity | right; right; eexists; reflexivity] |].
  destruct (Ocr.ok response); simpl.
  - destruct (get (Some result) (js "imageBase64")) as [e | image]; simpl;
      [eexists; split; [reflexivity | right; right; eexists; reflexivity] |].
    destruct (truthy image) eqn:Himage; simpl.
    + eexists; split; [reflexivity | left; eexists; split; [reflexivity | exact Himage]].
    + destruct (get (Some result) (js "error")) as [e | message]; simpl;
        [eexists; split; [reflexivity | right; right; eexists; reflexivity] |].
      destruct (get (Some result) (js "warning")) as [e | warning]; simpl;
        [eexists; split; [reflexivity | right; right; eexists; reflexivity] |].
      eexists; split; [reflexivity | right; left; eexists; split; [reflexivity |]].
      unfold Ocr.or_else.
      destruct (truthy message) eqn:Hm; [exact Hm |].
      destruct (truthy warning) eqn:Hw; [exact Hw | reflexivity].
  - destruct (get (Some result) (js "details")) as [e | details]; simpl;
      [eexists; split; [reflexivity | right; right; eexists; reflexivity] |].
    destruct (get (Some result) (js "error")) as [e | message]; simpl;
      [eexists; split; [reflexivity | right; right; eexists; reflexivity] |].
    destruct (truthy message); simpl;
      eexists; split; try reflexivity; right; right; eexists; reflexivity.
Qed.

(** The upload to the OCR route is sent once; the recognised text is put
    in the review box, or the error is shown and the review box gets the
    fixed text of a failed recognition. *)
Lemma recognise_cases (w : Client.world) (file : Client.File) :
  exists sets,
    Client.recognise w file = (Client.fetch_ocr file :: sets, Normal tt)
    /\ ((exists text,
           sets = [Client.setOcrText text]
           /\ truthy (Some text) = true
           /\ (text = JStr (js "No text found in image. Please review or try a different image.")
               \/ exists response result,
                    Client.ocr w file = inr response
                    /\ Ocr.ok response = true
                    /\ Ocr.json_body response = inr result
                    /\ get (Some result) (js "extractedText") = inr (Some text)))
        \/ (exists message,
              sets = [Client.setError (Some (JStr (js "OCR failed: " ++ message)));
                      Client.setOcrText (JStr Client.OCR_FAILED)])).
Proof.
  unfold Client.recognise.
  destruct (Client.ocr w file) as [e | response] eqn:Hocr; simpl;
    [eexists; split; [reflexivity | right; eexists; reflexivity] |].
  destruct (Ocr.json_body response) as [e | result] eqn:Hbody; simpl;
    [eexists; split; [reflexivity | right; eexists; reflexivity] |].
  destruct (Ocr.ok response) eqn:Hok; simpl.
  - destruct (get (Some result) (js "extractedText")) as [e | extractedText] eqn:Hget;
      simpl;
      [eexists; split; [reflexivity | right; eexists; reflexivity] |].
    eexists; split; [reflexivity | left; eexists; split; [reflexivity |]].
    unfold Client.or_default, Ocr.or_else.
    destruct (truthy extractedText) eqn:Ht; [| split; [reflexivity | left; reflexivity]].
    destruct extractedText as [text|]; [| discriminate Ht].
    split; [exact Ht |].
    right. exists response, result. repeat split; auto.
  - destruct (get (Some result) (js "error")) as [e | message]; simpl;
      [eexists; split; [reflexivity | right; eexists; reflexivity] |].
    destruct (truthy message); simpl;
      [eexists; split; [reflexivity | right; eexists; reflexivity] |].
    destruct (get (Some result) (js "details")) as [e | details]; simpl;
      eexists; split; try reflexivity; right; eexists; reflexivity.
Qed.

(** [handleSubmit] by the outcome of its checks. *)
Lemma handleSubmit_checked (st : Client.state) (w : Client.world) :
  Client.handleSubmit st w =
    match refusal st with
    | inl e =>
        ([Client.preventDefault; Client.setIsVisualizing true;
          Client.setImageBase64 None; Client.setError None],
         Throw e)
    | inr (Some message) =>
        ([Client.preventDefault; Client.setIsVisualizing true;
          Client.setImageBase64 None; Client.setError None;
          Client.setError (Some (JStr message)); Client.setIsVisualizing false],
         Normal tt)
    | inr None =>
        ([Client.preventDefault; Client.setIsVisualizing true;
          Client.setImageBase64 None; Client.setError None]
         ++ fst (Client.submit w (textToProcess st))
         ++ [Client.setIsVisualizing false],
         Normal tt)
    end.
Proof.
  destruct (submit_cases w (textToProcess st)) as [sets [Hsubmit _]].
  unfold Client.handleSubmit, refusal, textToProcess in *.
  destruct (Client.selectedImage st) as [image|]; simpl.
  - destruct (Client.ocrText st) as [ | b | r | s | items | fields]; simpl;
      try reflexivity.
    rewrite andb_false_r.
    destruct (Js.eqb (trim s) []); simpl; [reflexivity |].
    destruct (Js.eqb s Client.OCR_FAILED); simpl; [reflexivity |].
    rewrite Hsubmit. reflexivity.
  - rewrite andb_true_r.
    destruct (Js.eqb (trim (Client.problemText st)) []); simpl; [reflexivity |].
    rewrite Hsubmit. reflexivity.
Qed.

Lemma refusal_none (st : Client.state) :
  refusal st = inr None ->
  exists text, textToProcess st = JStr text /\ Js.eqb (trim text) [] = false.
Proof.
  unfold refusal.
  destruct (textToProcess st) as [ | b | r | text | items | fields]; simpl;
    try discriminate.
  intros H. exists text. split; [reflexivity |].
  destruct (Js.eqb (trim text) []); [| reflexivity].
  destruct (Client.selectedImage st); discriminate H.
Qed.

(** X26.  The page never sends a blank problem: whatever it posts to the
    visualize route is a [problemText] string that is not empty after
    trimming, so the route's own check for a blank text is not what a
    user of the page runs into. *)
Theorem handleSubmit_sends_text (st : Client.state) (w : Client.world) (body : json) :
  In (Client.fetch_visualize body) (fst (Client.handleSubmit st w)) ->
  exists text,
    body = JObj [(js "problemText", JStr text)]
    /\ Js.eqb (trim text) [] = false.
Proof.
  rewrite handleSubmit_checked.
  destruct (refusal st) as [e | [message|]] eqn:Hrefusal; simpl.
  - intros [H | [H | [H | [H | []]]]]; discriminate H.
  - intros [H | [H | [H | [H | [H | [H | []]]]]]]; discriminate H.
  - destruct (refusal_none st Hrefusal) as [text [Htext Hnonblank]].
    destruct (submit_cases w (textToProcess st)) as [sets [Hsubmit Hsets]].
    rewrite Hsubmit, Htext. simpl.
    intros [H | [H | [H | [H | [H | H]]]]]; try discriminate H.
    + injection H as <-. exists text. split; [reflexivity | exact Hnonblank].
    + exfalso. apply in_app_or in H as [H | [H | []]]; [| discriminate H].
      destruct Hsets as [[image [-> _]] | [[message [-> _]] | [message ->]]];
        simpl in H; intuition discriminate.
Qed.

Lemma handleSubmit_sends_text_witness :
  exists text,
    JObj [(js "problemText", JStr (js "circle radius 5"))]
      = JObj [(js "problemText", JStr text)]
    /\ Js.eqb (trim text) [] = false.
Proof.
  apply (handleSubmit_sends_text (typed "circle radius 5")
           (routes (inl (Visualize.Error (js "unused")))
                   (inl (Visualize.Error (js "Failed to fetch"))))
           (JObj [(js "problemText", JStr (js "circle radius 5"))])).
  vm_compute. tauto.
Defined.

(** X27.  When the text to process is a string, [handleSubmit] runs to
    its end once the request has settled, and leaves the page with the
    loading flag down and exactly one of an error and an image. *)
Theorem handleSubmit_settles (st : Client.state) (w : Client.world) :
  is_string (Some (textToProcess st)) = true ->
  snd (Client.handleSubmit st w) = Normal tt
  /\ Client.isVisualizing (Client.after st (Client.handleSubmit st w)) = false
  /\ truthy (Client.error (Client.after st (Client.handleSubmit st w)))
     = negb (truthy (Client.imageBase64 (Client.after st (Client.handleSubmit st w)))).
Proof.
  intros Hstring. unfold Client.after. rewrite handleSubmit_checked.
  destruct (refusal st) as [e | [message|]] eqn:Hrefusal.
  - exfalso. unfold refusal in Hrefusal.
    destruct (textToProcess st) as [ | b | r | text | items | fields];
      try discriminate Hstring.
    simpl in Hrefusal.
    destruct (Client.selectedImage st); destruct (Js.eqb (trim text) []);
      try discriminate Hrefusal.
    destruct (Client.is_the_string _ _); discriminate Hrefusal.
  - simpl. repeat split.
    unfold refusal in Hrefusal.
    destruct (Client.trim_of "textToProcess" (textToProcess st));
      [discriminate Hrefusal |].
    destruct (Client.selectedImage st); destruct (Js.eqb _ []);
      try destruct (Client.is_the_string _ _);
      try discriminate Hrefusal; injection Hrefusal as <-; reflexivity.
  - destruct (submit_cases w (textToProcess st)) as [sets [Hsubmit Hsets]].
    rewrite Hsubmit.
    destruct Hsets as [[image [-> Himage]] | [[message [-> Hmessage]] | [message ->]]];
      simpl; repeat split; try rewrite Himage; try rewrite Hmessage; reflexivity.
Qed.

Lemma handleSubmit_settles_witness :
  snd (Client.handleSubmit (typed "   ")
         (routes (inl (Visualize.Error (js "unused")))
                 (inl (Visualize.Error (js "unused"))))) = Normal tt
  /\ Client.isVisualizing
       (Client.after (typed "   ")
          (Client.handleSubmit (typed "   ")
             (routes (inl (Visualize.Error (js "unused")))
                     (inl (Visualize.Error (js "unused")))))) = false
  /\ truthy (Client.error
               (Client.after (typed "   ")
                  (Client.handleSubmit (typed "   ")
                     (routes (inl (Visualize.Error (js "unused")))
                             (inl (Visualize.Error (js "unused")))))))
     = negb (truthy (Client.imageBase64
                       (Client.after (typed "   ")
                          (Client.handleSubmit (typed "   ")
                             (routes (inl (Visualize.Error (js "unused")))
                                     (inl (Visualize.Error (js "unused")))))))).
Proof.
  apply (handleSubmit_settles (typed "   ")
           (routes (inl (Visualize.Error (js "unused")))
                   (inl (Visualize.Error (js "unused"))))).
  reflexivity.
Defined.

(** X28.  Picking a picture ends with the loading flag down, the picture
    selected, the typed problem and any earlier image gone, and a review
    text that is a truthy value: the fixed text of a failed recognition,
    the fixed text for an answer without [extractedText], or the truthy
    [extractedText] that the OCR route answered with success.  A review
    text that is a string is not the empty string. *)
Theorem handleImageChange_settles (st : Client.state) (w : Client.world)
    (file : Client.File) (others : list Client.File) :
  let st' := Client.after st (Client.handleImageChange w (Some (file :: others))) in
  snd (Client.handleImageChange w (Some (file :: others))) = Normal tt
  /\ Client.isOcrLoading st' = false
  /\ Client.selectedImage st' = Some file
  /\ Client.problemText st' = []
  /\ Client.imageBase64 st' = None
  /\ truthy (Some (Client.ocrText st')) = true
  /\ (Client.ocrText st' = JStr Client.OCR_FAILED
      \/ Client.ocrText st'
         = JStr (js "No text found in image. Please review or try a different image.")
      \/ exists response result,
           Client.ocr w file = inr response
           /\ Ocr.ok response = true
           /\ Ocr.json_body response = inr result
           /\ get (Some result) (js "extractedText") = inr (Some (Client.ocrText st')))
  /\ (forall s, Client.ocrText st' = JStr s -> Js.eqb s [] = false).
Proof.
  unfold Client.after, Client.handleImageChange.
  destruct (recognise_cases w file) as [sets [Hrecognise Hsets]].
  rewrite Hrecognise.
  destruct Hsets as [[text [-> [Htext Hfrom]]] | [message ->]]; simpl.
  - do 5 (split; [reflexivity |]). split; [exact Htext |]. split.
    + destruct Hfrom as [Hfixed | Hfrom].
      * right; left. exact Hfixed.
      * right; right. exact Hfrom.
    + intros s Hs. rewrite Hs in Htext. simpl in Htext.
      destruct (Js.eqb s []); [discriminate Htext | reflexivity].
  - do 5 (split; [reflexivity |]). split; [reflexivity |]. split.
    + left. reflexivity.
    + intros s Hs. injection Hs as <-. reflexivity.
Qed.

Lemma handleImageChange_settles_witness :
  Client.ocrText
    (Client.after (typed "")
       (Client.handleImageChange
          (routes (inr (over_http (NextResponse_json
                                     (JObj [(js "extractedText", JStr (js "y = x^2"))])
                                     200)))
                  (inl (Visualize.Error (js "unused"))))
          (Some [photo])))
  = JStr (js "y = x^2")
  /\ Js.eqb (js "y = x^2") [] = false.
Proof.
  split; [reflexivity |].
  apply (proj2 (proj2 (proj2 (proj2 (proj2 (proj2 (proj2
           (handleImageChange_settles (typed "")
              (routes (inr (over_http (NextResponse_json
                                         (JObj [(js "extractedText", JStr (js "y = x^2"))])
                                         200)))
                      (inl (Visualize.Error (js "unused"))))
              photo []))))))) (js "y = x^2")).
  reflexivity.
Defined.

(** X29.  After a recognition that ended with an error on the page, pressing
    the button sends nothing: the page asks to review the image or to
    type the problem. *)
Theorem failed_recognition_is_not_submitted (st : Client.state) (w w' : Client.world)
    (file : Client.File) (others : list Client.File) :
  let st' := Client.after st (Client.handleImageChange w (Some (file :: others))) in
  truthy (Client.error st') = true ->
  Client.handleSubmit st' w' =
    ([Client.preventDefault; Client.setIsVisualizing true;
      Client.setImageBase64 None; Client.setError None;
      Client.setError
        (Some (JStr (js "OCR processing failed. Please review the image or type the problem manually.")));
      Client.setIsVisualizing false],
     Normal tt).
Proof.
  intros st' Herror. rewrite handleSubmit_checked.
  assert (Hst' : Client.selectedImage st' = Some file
                 /\ Client.ocrText st' = JStr Client.OCR_FAILED).
  { unfold st', Client.after, Client.handleImageChange in *.
    destruct (recognise_cases w file) as [sets [Hrecognise Hsets]].
    rewrite Hrecognise in *.
    destruct Hsets as [[text [-> [Htext _]]] | [message ->]]; simpl in *.
    - discriminate Herror.
    - split; reflexivity. }
  destruct Hst' as [Himage Hocr].
  unfold refusal, textToProcess. rewrite Himage, Hocr. reflexivity.
Qed.

Lemma failed_recognition_is_not_submitted_witness :
  Client.handleSubmit
    (Client.after (typed "")
       (Client.handleImageChange
          (routes (inl (Visualize.Error (js "Failed to fetch")))
                  (inl (Visualize.Error (js "unused"))))
          (Some [photo])))
    (routes (inl (Visualize.Error (js "unused")))
            (inr (over_http (NextResponse_json
                               (JObj [(js "imageBase64", JStr (js "iVBORw0..."))]) 200)))) =
    ([Client.preventDefault; Client.setIsVisualizing true;
      Client.setImageBase64 None; Client.setError None;
      Client.setError
        (Some (JStr (js "OCR processing failed. Please review the image or type the problem manually.")));
      Client.setIsVisualizing false],
     Normal tt).
Proof.
  apply (failed_recognition_is_not_submitted (typed "")
           (routes (inl (Visualize.Error (js "Failed to fetch")))
                   (inl (Visualize.Error (js "unused"))))
           (routes (inl (Visualize.Error (js "unused")))
                   (inr (over_http (NextResponse_json
                                      (JObj [(js "imageBase64", JStr (js "iVBORw0..."))]) 200))))
           photo []).
  reflexivity.
Defined.

(** X30.  What the visualize route answers is what the page shows: an error
    envelope becomes the error ["Visualization failed: <error>"], a
    payload becomes the image, and a payload that is empty becomes the
    error that no image data was returned. *)
Theorem answer_reaches_the_page (st : Client.state) (w : Client.world)
    (text : jsstring) (r : response) :
  refusal st = inr None ->
  textToProcess st = JStr text ->
  Client.visualize w (JObj [(js "problemText", JStr text)]) = inr (over_http r) ->
  let st' := Client.after st (Client.handleSubmit st w) in
  (forall message,
     is_ErrorEnvelope r = true ->
     body_field r (js "error") = Some (JStr message) ->
     Js.eqb message [] = false ->
     Client.error st' = Some (JStr (js "Visualization failed: " ++ message))
     /\ Client.imageBase64 st' = None)
  /\ (forall image,
        r = NextResponse_json (JObj [(js "imageBase64", JStr image)]) 200 ->
        Js.eqb image [] = false ->
        Client.imageBase64 st' = Some (JStr image) /\ Client.error st' = None)
  /\ (r = NextResponse_json (JObj [(js "imageBase64", JStr [])]) 200 ->
      Client.error st' = Some (JStr (js "No image data returned by the visualizer."))
      /\ Client.imageBase64 st' = None).
Proof.
  intros Hrefusal Htext Hfetch st'. unfold st', Client.after.
  rewrite handleSubmit_checked, Hrefusal, Htext.
  unfold Client.submit. rewrite Hfetch. simpl.
  split; [| split].
  - intros message Henvelope Hbody Hne.
    unfold is_ErrorEnvelope in Henvelope.
    repeat (apply andb_true_iff in Henvelope as [Henvelope ?]).
    apply Z.leb_le in Henvelope.
    replace ((200 <=? status r) && (status r <=? 299)) with false
      by (symmetry; apply andb_false_iff; right; apply Z.leb_gt; lia).
    unfold body_field in Hbody.
    destruct (body r) as [ | b | n | s | items | fields]; try discriminate Hbody.
    unfold get. simpl. rewrite Hbody. simpl. rewrite Hne. simpl.
    split; reflexivity.
  - intros image -> Hne. simpl. unfold get. simpl. rewrite Hne. simpl.
    split; reflexivity.
  - intros ->. simpl. split; reflexivity.
Qed.

Lemma answer_reaches_the_page_witness :
  Client.error
    (Client.after (typed "circle radius 5")
       (Client.handleSubmit (typed "circle radius 5")
          (routes (inl (Visualize.Error (js "unused")))
                  (inr (over_http
                          (NextResponse_json
                             (JObj [(js "error", JStr (js "Content blocked: SAFETY"))])
                             400))))))
    = Some (JStr (js "Visualization failed: Content blocked: SAFETY"))
  /\ Client.imageBase64
       (Client.after (typed "circle radius 5")
          (Client.handleSubmit (typed "circle radius 5")
             (routes (inl (Visualize.Error (js "unused")))
                     (inr (over_http
                             (NextResponse_json
                                (JObj [(js "error", JStr (js "Content blocked: SAFETY"))])
                                400))))))
     = None.
Proof.
  apply (proj1 (answer_reaches_the_page (typed "circle radius 5")
                  (routes (inl (Visualize.Error (js "unused")))
                          (inr (over_http
                                  (NextResponse_json
                                     (JObj [(js "error", JStr (js "Content blocked: SAFETY"))])
                                     400))))
                  (js "circle radius 5")
                  (NextResponse_json
                     (JObj [(js "error", JStr (js "Content blocked: SAFETY"))]) 400)
                  eq_refl eq_refl eq_refl)
           (js "Content blocked: SAFETY"));
    reflexivity.
Defined.
